(** * The subprocess execution and supervision engine of ccg_mcp

    A shallow embedding of [src/ccg_mcp/tools/coder.py] and
    [src/ccg_mcp/tools/claude.py]: the dual-timeout supervisor loop of
    [generator], the per-line interpretation and the outcome
    classification of [coder_tool] / [claude_tool], the retry loop around
    them, and the diagnostic redaction filter [_filter_last_lines].

    Python values that come out of [json.loads] are dynamically typed, so
    the run state holds [json] values and every operation that Python
    would reject at run time returns an exception here.  A Python [str] is
    held as its UTF-8 encoding; concatenation, comparison and splitting at
    a line feed are the same on both.  The teardown of the child and the
    clock-dependent [duration] and [metrics] entries of the response are
    outside the model.  For the engine a child is given by what the
    supervisor loop observes of it; the reader thread that feeds the
    queue is modelled on its own. *)

From Stdlib Require Import String Ascii List ZArith QArith Bool Lia DecimalString.
Import ListNotations.
Close Scope Q_scope.
Open Scope string_scope.
Open Scope Z_scope.
Set Warnings "-register-all".

(** ** Python values *)

Module Py.

(** A decoded JSON document, as [json.loads] builds it.  [JNull] is
    Python's [None]; a [JDict] keeps its keys in insertion order, as a
    Python [dict] does; a [JFloat] is carried by the text [json.dumps]
    prints for it. *)
Inductive json : Type :=
| JNull
| JBool (b : bool)
| JInt (z : Z)
| JFloat (repr : string)
| JStr (s : string)
| JList (items : list json)
| JDict (fields : list (string * json)).

(** The exceptions the engine can meet.  [JSONDecodeError] is a subclass
    of [ValueError]; the constructor [ValueError] stands for a
    [ValueError] that is not a [JSONDecodeError]. *)
Inductive exn : Type :=
| JSONDecodeError
| ValueError (msg : string)
| RecursionError (msg : string)
| AttributeError (type_name : string) (attribute : string)
| TypeError
| OSError
| UnboundLocalError
| CommandNotFoundError (msg : string)
| CommandTimeoutError (msg : string) (is_idle : bool).

Definition nl : string := String (ascii_of_nat 10) EmptyString.

(** [str(n)] for a Python [int]. *)
Definition str_of_int (z : Z) : string := NilZero.string_of_int (Z.to_int z).

(** [type(v).__name__] *)
Definition type_name (v : json) : string :=
  match v with
  | JNull => "NoneType"
  | JBool _ => "bool"
  | JInt _ => "int"
  | JFloat _ => "float"
  | JStr _ => "str"
  | JList _ => "list"
  | JDict _ => "dict"
  end.

(** [str(e)] for the exceptions whose text the engine reads. *)
Definition str_of_exn (e : exn) : string :=
  match e with
  | AttributeError t a => "'" ++ t ++ "' object has no attribute '" ++ a ++ "'"
  | CommandNotFoundError m => m
  | CommandTimeoutError m _ => m
  | ValueError m => m
  | RecursionError m => m
  | JSONDecodeError => "JSONDecodeError"
  | TypeError => "TypeError"
  | OSError => "OSError"
  | UnboundLocalError => "UnboundLocalError"
  end.

(** [except (json.JSONDecodeError, TypeError, AttributeError)]: the
    exceptions that [_filter_last_lines] and [is_session_completed]
    handle. *)
Definition tolerated (e : exn) : bool :=
  match e with
  | JSONDecodeError | TypeError | AttributeError _ _ => true
  | _ => false
  end.

(** [bool(v)] *)
Definition truthy (v : json) : bool :=
  match v with
  | JNull => false
  | JBool b => b
  | JInt z => negb (z =? 0)
  | JFloat r => negb (String.eqb r "0.0" || String.eqb r "-0.0")
  | JStr s => negb (String.eqb s "")
  | JList l => match l with [] => false | _ => true end
  | JDict d => match d with [] => false | _ => true end
  end.

(** [v is None] *)
Definition is_none (v : json) : bool :=
  match v with JNull => true | _ => false end.

(** [v == "literal"] *)
Definition eq_str (v : json) (lit : string) : bool :=
  match v with JStr s => String.eqb s lit | _ => false end.

Fixpoint lookup (d : list (string * json)) (k : string) : option json :=
  match d with
  | [] => None
  | (k', v) :: rest => if String.eqb k' k then Some v else lookup rest k
  end.

(** [d.get(k, default)] on a dict *)
Definition dict_get (d : list (string * json)) (k : string) (default : json) : json :=
  match lookup d k with Some v => v | None => default end.

(** [k in d] *)
Definition dict_has (d : list (string * json)) (k : string) : bool :=
  match lookup d k with Some _ => true | None => false end.

(** [d[k] = v]: an existing key keeps its place, a new key goes last. *)
Fixpoint dict_set (d : list (string * json)) (k : string) (v : json)
  : list (string * json) :=
  match d with
  | [] => [(k, v)]
  | (k', v') :: rest =>
      if String.eqb k' k then (k', v) :: rest else (k', v') :: dict_set rest k v
  end.

(** [v.get(k, default)] on any value: only a dict has [get]. *)
Definition get (v : json) (k : string) (default : json) : exn + json :=
  match v with
  | JDict d => inr (dict_get d k default)
  | _ => inl (AttributeError (type_name v) "get")
  end.

(** [a or b] *)
Definition or_else (a b : json) : json := if truthy a then a else b.

(** ["literal" + v]: [str.__add__] accepts only a [str]. *)
Definition str_add (prefix : string) (v : json) : exn + json :=
  match v with
  | JStr s => inr (JStr (prefix ++ s))
  | _ => inl TypeError
  end.

(** [v += "literal"]: a [str] is concatenated, a [list] is extended with
    the characters of the literal (one element per byte here; the engine
    never looks at the elements of such a list), anything else is a
    [TypeError]. *)
Definition iadd_str (v : json) (suffix : string) : exn + json :=
  match v with
  | JStr s => inr (JStr (s ++ suffix))
  | JList l =>
      inr (JList (l ++ map (fun c => JStr (String c EmptyString))
                           (list_ascii_of_string suffix)))
  | _ => inl TypeError
  end.

(** [sep.join(parts)]: every part must be a [str]. *)
Fixpoint join (sep : string) (parts : list json) : exn + string :=
  match parts with
  | [] => inr ""
  | JStr s :: rest =>
      match rest with
      | [] => inr s
      | _ => match join sep rest with
             | inr t => inr (s ++ sep ++ t)
             | inl e => inl e
             end
      end
  | _ :: _ => inl TypeError
  end.

(** [s.split('\n')[0]] *)
Fixpoint first_line (s : string) : string :=
  match s with
  | EmptyString => EmptyString
  | String c rest =>
      if Ascii.eqb c (ascii_of_nat 10) then EmptyString
      else String c (first_line rest)
  end.

(** [l[i:]] with Python's treatment of a negative start. *)
Definition slice_from {A : Type} (i : Z) (l : list A) : list A :=
  if i <? 0
  then skipn (Z.to_nat (Z.max 0 (Z.of_nat (length l) + i))) l
  else skipn (Z.to_nat i) l.

End Py.
Import Py.

(** ** Shared vocabulary of the two tools *)

(** [coder.py] and [claude.py] are two copies of one engine; where they
    differ the definitions below branch on the tool. *)
Inductive tool : Type := Coder | Claude.

Definition tool_name (t : tool) : string :=
  match t with Coder => "coder" | Claude => "claude" end.

(** [class ErrorKind] *)
Inductive ErrorKind : Type :=
| TIMEOUT
| IDLE_TIMEOUT
| COMMAND_NOT_FOUND
| UPSTREAM_ERROR
| JSON_DECODE
| PROTOCOL_MISSING_SESSION
| EMPTY_RESULT
| SUBPROCESS_ERROR
| CONFIG_ERROR
| UNEXPECTED_EXCEPTION.

Definition ErrorKind_value (k : ErrorKind) : string :=
  match k with
  | TIMEOUT => "timeout"
  | IDLE_TIMEOUT => "idle_timeout"
  | COMMAND_NOT_FOUND => "command_not_found"
  | UPSTREAM_ERROR => "upstream_error"
  | JSON_DECODE => "json_decode"
  | PROTOCOL_MISSING_SESSION => "protocol_missing_session"
  | EMPTY_RESULT => "empty_result"
  | SUBPROCESS_ERROR => "subprocess_error"
  | CONFIG_ERROR => "config_error"
  | UNEXPECTED_EXCEPTION => "unexpected_exception"
  end.

Definition ErrorKind_eqb (a b : ErrorKind) : bool :=
  String.eqb (ErrorKind_value a) (ErrorKind_value b).

(** The parameters of [coder_tool] / [claude_tool] that steer the engine. *)
Record config : Type := {
  return_all_messages : bool;
  timeout : Z;
  max_duration : Z;
  max_retries : Z
}.

(** ** Dual-timeout supervisor: [generator] inside [safe_coder_command] *)

Module Supervisor.

(** What one pass of [while True] meets: the clock reading [now], then
    (if no ceiling fired) the answer of [output_queue.get(timeout=0.5)].
    [Got line after] is a line followed by the clock reading stored in
    [last_activity_time]; [Empty] is [queue.Empty] with the child or the
    reader thread still alive. *)
Inductive queue_event : Type :=
| Got (line : string) (after : Q)
| Empty.

Record poll : Type := { now : Q; event : queue_event }.

(** A finite run of one child process as the generator observes it.  After
    [polls] the stream ends (the [None] sentinel, or [queue.Empty] with
    child and reader both gone) in a pass whose clock reading is
    [end_now]; [wait] is the answer of [process.wait(timeout=5)], [None]
    for [TimeoutExpired]; [leftover] is what the queue still holds. *)
Record child : Type := {
  start_time : Q;
  first_activity : Q;
  polls : list poll;
  end_now : Q;
  wait : option Z;
  leftover : list (option string);
  raw_output_lines_holder : Z
}.

Inductive verdict : Type := RUNNING | DURATION_TIMED_OUT | IDLE_TIMED_OUT.

(** [(now - since) >= limit] *)
Definition elapsed_ge (now since : Q) (limit : Z) : bool :=
  Qle_bool (inject_Z limit) (now - since)%Q.

(** The two checks at the top of the loop body, in source order. *)
Definition poll_check (c : config) (start last now : Q) : verdict :=
  if (0 <? max_duration c) && elapsed_ge now start (max_duration c)
  then DURATION_TIMED_OUT
  else if elapsed_ge now last (timeout c)
  then IDLE_TIMED_OUT
  else RUNNING.

Inductive timeout_cause : Type := Duration | Idle | ProcessWait.

Definition is_idle (k : timeout_cause) : bool :=
  match k with Idle => true | _ => false end.

(** The text given to [CommandTimeoutError]. *)
Definition timeout_message (t : tool) (c : config) (k : timeout_cause) : string :=
  match t, k with
  | Coder, Duration =>
      "coder 执行超时（总时长超过 " ++ str_of_int (max_duration c) ++ "s），进程已终止。"
  | Coder, Idle =>
      "coder 空闲超时（" ++ str_of_int (timeout c) ++ "s 无输出），进程已终止。"
  | Coder, ProcessWait => "coder 进程等待超时，进程已终止。"
  | Claude, Duration =>
      "claude 执行超时（总时长超过 " ++ str_of_int (max_duration c) ++ "s）"
  | Claude, Idle =>
      "claude 空闲超时（" ++ str_of_int (timeout c) ++ "s 无输出）"
  | Claude, ProcessWait => "claude 进程等待超时"
  end.

(** How the generator ends: [return (exit_code, raw_output_lines)] or
    [raise timeout_error]. *)
Inductive finish : Type :=
| Returned (exit_code : Z) (raw_output_lines : Z)
| TimedOut (k : timeout_cause).

Definition yield_nonempty (line : string) : list string :=
  if String.eqb line "" then [] else [line].

(** The [while True] loop; the result is the lines yielded and, when a
    ceiling fired, its cause. *)
Fixpoint supervise (c : config) (start last : Q) (ps : list poll) (end_now : Q)
  : list string * option timeout_cause :=
  match ps with
  | [] =>
      match poll_check c start last end_now with
      | DURATION_TIMED_OUT => ([], Some Duration)
      | IDLE_TIMED_OUT => ([], Some Idle)
      | RUNNING => ([], None)
      end
  | p :: rest =>
      match poll_check c start last (now p) with
      | DURATION_TIMED_OUT => ([], Some Duration)
      | IDLE_TIMED_OUT => ([], Some Idle)
      | RUNNING =>
          match event p with
          | Got line after =>
              let (ys, r) := supervise c start after rest end_now in
              ((yield_nonempty line ++ ys)%list, r)
          | Empty => supervise c start last rest end_now
          end
      end
  end.

Fixpoint drain (q : list (option string)) : list string :=
  match q with
  | [] => []
  | Some line :: rest => line :: drain rest
  | None :: rest => drain rest
  end.

Definition generator (c : config) (ch : child) : list string * finish :=
  match supervise c (start_time ch) (first_activity ch) (polls ch) (end_now ch) with
  | (ys, Some k) => (ys, TimedOut k)
  | (ys, None) =>
      match wait ch with
      | None => (ys, TimedOut ProcessWait)
      | Some exit_code =>
          ((ys ++ drain (leftover ch))%list, Returned exit_code (raw_output_lines_holder ch))
      end
  end.

End Supervisor.
Import Supervisor.

(** ** [json.dumps(data, ensure_ascii=False)] *)

Module Dumps.

Definition hex_digit (n : nat) : ascii :=
  match n with
  | 0%nat => "0" | 1%nat => "1" | 2%nat => "2" | 3%nat => "3"
  | 4%nat => "4" | 5%nat => "5" | 6%nat => "6" | 7%nat => "7"
  | 8%nat => "8" | 9%nat => "9" | 10%nat => "a" | 11%nat => "b"
  | 12%nat => "c" | 13%nat => "d" | 14%nat => "e" | _ => "f"
  end%char.

(** The replacement table of [json.encoder.py_encode_basestring]: the
    quote, the backslash and the control characters are escaped, every
    other character is copied. *)
Definition escape_char (c : ascii) : string :=
  let n := nat_of_ascii c in
  if Nat.eqb n 34 then "\" ++ String c ""
  else if Nat.eqb n 92 then "\\"
  else if Nat.eqb n 8 then "\b"
  else if Nat.eqb n 12 then "\f"
  else if Nat.eqb n 10 then "\n"
  else if Nat.eqb n 13 then "\r"
  else if Nat.eqb n 9 then "\t"
  else if Nat.ltb n 32
       then "\u00" ++ String (hex_digit (n / 16)) (String (hex_digit (n mod 16)) "")
       else String c "".

Fixpoint escape (s : string) : string :=
  match s with
  | EmptyString => EmptyString
  | String c rest => escape_char c ++ escape rest
  end.

Definition quote (s : string) : string :=
  String (ascii_of_nat 34) (escape s ++ String (ascii_of_nat 34) "").

(** The default separators are [", "] and [": "]. *)
Fixpoint json_dumps (v : json) : string :=
  match v with
  | JNull => "null"
  | JBool true => "true"
  | JBool false => "false"
  | JInt z => str_of_int z
  | JFloat r => r
  | JStr s => quote s
  | JList l =>
      "[" ++
      (fix items (l : list json) : string :=
         match l with
         | [] => ""
         | x :: r =>
             json_dumps x ++ match r with [] => "" | _ => ", " ++ items r end
         end) l ++ "]"
  | JDict d =>
      "{" ++
      (fix members (d : list (string * json)) : string :=
         match d with
         | [] => ""
         | (k, x) :: r =>
             quote k ++ ": " ++ json_dumps x ++
             match r with [] => "" | _ => ", " ++ members r end
         end) d ++ "}"
  end.

End Dumps.
Import Dumps.

(** ** Run state and outcome *)

(** The local variables that one pass of the retry loop re-initialises. *)
Record run_state : Type := {
  all_messages : list json;
  result_content : json;
  success : bool;
  had_error : bool;
  err_message : json;
  session_id : json;
  exit_code : option Z;
  raw_output_lines : Z;
  json_decode_errors : Z;
  error_kind : option ErrorKind;
  last_lines : list string;
  assistant_text_parts : list json
}.

Definition init_state : run_state := {|
  all_messages := [];
  result_content := JStr "";
  success := true;
  had_error := false;
  err_message := JStr "";
  session_id := JNull;
  exit_code := None;
  raw_output_lines := 0;
  json_decode_errors := 0;
  error_kind := None;
  last_lines := [];
  assistant_text_parts := []
|}.

Definition set_all_messages (st : run_state) (v : list json) : run_state :=
  {| all_messages := v; result_content := result_content st;
     success := success st; had_error := had_error st;
     err_message := err_message st; session_id := session_id st;
     exit_code := exit_code st; raw_output_lines := raw_output_lines st;
     json_decode_errors := json_decode_errors st; error_kind := error_kind st;
     last_lines := last_lines st;
     assistant_text_parts := assistant_text_parts st |}.

Definition set_result_content (st : run_state) (v : json) : run_state :=
  {| all_messages := all_messages st; result_content := v;
     success := success st; had_error := had_error st;
     err_message := err_message st; session_id := session_id st;
     exit_code := exit_code st; raw_output_lines := raw_output_lines st;
     json_decode_errors := json_decode_errors st; error_kind := error_kind st;
     last_lines := last_lines st;
     assistant_text_parts := assistant_text_parts st |}.

Definition set_success (st : run_state) (v : bool) : run_state :=
  {| all_messages := all_messages st; result_content := result_content st;
     success := v; had_error := had_error st;
     err_message := err_message st; session_id := session_id st;
     exit_code := exit_code st; raw_output_lines := raw_output_lines st;
     json_decode_errors := json_decode_errors st; error_kind := error_kind st;
     last_lines := last_lines st;
     assistant_text_parts := assistant_text_parts st |}.

Definition set_had_error (st : run_state) (v : bool) : run_state :=
  {| all_messages := all_messages st; result_content := result_content st;
     success := success st; had_error := v;
     err_message := err_message st; session_id := session_id st;
     exit_code := exit_code st; raw_output_lines := raw_output_lines st;
     json_decode_errors := json_decode_errors st; error_kind := error_kind st;
     last_lines := last_lines st;
     assistant_text_parts := assistant_text_parts st |}.

Definition set_err_message (st : run_state) (v : json) : run_state :=
  {| all_messages := all_messages st; result_content := result_content st;
     success := success st; had_error := had_error st;
     err_message := v; session_id := session_id st;
     exit_code := exit_code st; raw_output_lines := raw_output_lines st;
     json_decode_errors := json_decode_errors st; error_kind := error_kind st;
     last_lines := last_lines st;
     assistant_text_parts := assistant_text_parts st |}.

Definition set_session_id (st : run_state) (v : json) : run_state :=
  {| all_messages := all_messages st; result_content := result_content st;
     success := success st; had_error := had_error st;
     err_message := err_message st; session_id := v;
     exit_code := exit_code st; raw_output_lines := raw_output_lines st;
     json_decode_errors := json_decode_errors st; error_kind := error_kind st;
     last_lines := last_lines st;
     assistant_text_parts := assistant_text_parts st |}.

Definition set_json_decode_errors (st : run_state) (v : Z) : run_state :=
  {| all_messages := all_messages st; result_content := result_content st;
     success := success st; had_error := had_error st;
     err_message := err_message st; session_id := session_id st;
     exit_code := exit_code st; raw_output_lines := raw_output_lines st;
     json_decode_errors := v; error_kind := error_kind st;
     last_lines := last_lines st;
     assistant_text_parts := assistant_text_parts st |}.

Definition set_error_kind (st : run_state) (v : option ErrorKind) : run_state :=
  {| all_messages := all_messages st; result_content := result_content st;
     success := success st; had_error := had_error st;
     err_message := err_message st; session_id := session_id st;
     exit_code := exit_code st; raw_output_lines := raw_output_lines st;
     json_decode_errors := json_decode_errors st; error_kind := v;
     last_lines := last_lines st;
     assistant_text_parts := assistant_text_parts st |}.

Definition set_last_lines (st : run_state) (v : list string) : run_state :=
  {| all_messages := all_messages st; result_content := result_content st;
     success := success st; had_error := had_error st;
     err_message := err_message st; session_id := session_id st;
     exit_code := exit_code st; raw_output_lines := raw_output_lines st;
     json_decode_errors := json_decode_errors st; error_kind := error_kind st;
     last_lines := v;
     assistant_text_parts := assistant_text_parts st |}.

Definition set_assistant_text_parts (st : run_state) (v : list json) : run_state :=
  {| all_messages := all_messages st; result_content := result_content st;
     success := success st; had_error := had_error st;
     err_message := err_message st; session_id := session_id st;
     exit_code := exit_code st; raw_output_lines := raw_output_lines st;
     json_decode_errors := json_decode_errors st; error_kind := error_kind st;
     last_lines := last_lines st;
     assistant_text_parts := v |}.

(** The dict [_build_error_detail] returns; an absent key is [None]. *)
Module Detail.
Record t : Type := {
  message : string;
  exit_code : option Z;
  last_lines : option (list string);
  json_decode_errors : option Z;
  idle_timeout_s : option Z;
  max_duration_s : option Z;
  suggestion : option string;
  retries : option Z
}.
End Detail.

(** The dict the tool function returns (without the clock-dependent
    [duration] and [metrics] entries); an absent key is [None]. *)
Module Outcome.
Record t : Type := {
  success : bool;
  tool : string;
  SESSION_ID : option json;
  result : option json;
  error : option json;
  error_kind : option ErrorKind;
  error_detail : option Detail.t;
  all_messages : option (list json)
}.
End Outcome.

(** [last_error], saved by a failed attempt. *)
Record last_error_t : Type := {
  le_error_kind : option ErrorKind;
  le_err_message : json;
  le_exit_code : option Z;
  le_json_decode_errors : Z;
  le_raw_output_lines : Z
}.

(** What the tool function does to its caller.  [Diverge] is the retry
    loop running out of the fuel of its model; [tool_fn_terminates] shows
    that it never happens. *)
Inductive tool_result : Type :=
| Return (o : Outcome.t)
| Raise (e : exn)
| Diverge.

(** The observable effects: how many passes of the retry loop started
    (one executable lookup each), how many children were spawned, and the
    arguments of [time.sleep], oldest first. *)
Record trace : Type := {
  attempts : nat;
  spawned : nat;
  sleeps : list Q
}.

(** What the outside world does to one pass of the retry loop:
    [shutil.which] finds nothing, [subprocess.Popen] fails, or a child
    runs. *)
Inductive run : Type :=
| NotFound
| SpawnFailed
| Spawned (ch : child).

(** The environment of one tool call: [config_load] is the text of the
    exception raised while loading the configuration, if any; [runs n] is
    what the [n]-th pass of the retry loop meets. *)
Record world : Type := {
  config_load : option string;
  runs : nat -> run
}.

Definition bind {A B : Type} (m : exn + A) (k : A -> exn + B) : exn + B :=
  match m with
  | inl e => inl e
  | inr a => k a
  end.

Notation "x <- m ;; k" := (bind m (fun x => k))
  (at level 61, m at next level, right associativity).

(** A [for] loop that builds a list and is left by the first exception. *)
Fixpoint for_each {A B : Type} (f : A -> exn + B) (l : list A) : exn + list B :=
  match l with
  | [] => inr []
  | x :: rest => y <- f x ;; ys <- for_each f rest ;; inr (y :: ys)
  end.

(** ** The engine *)

(** Python's own functions, outside the repository.  [json.loads] returns
    the decoded document or raises: [JSONDecodeError] for a malformed
    document, a plain [ValueError] for an integer literal of more digits
    than [int] converts, [RecursionError] for a document nested too deeply.
    [copy.deepcopy] of a decoded document returns an equal document or
    exhausts the stack; [deepcopy_error] is the text of its
    [RecursionError] then.  [str.strip], [str] of a decoded document,
    [repr] of a line and [json.dumps] of a decoded document return. *)
Record python : Type := {
  json_loads : string -> exn + json;
  deepcopy_error : json -> option string;
  py_strip : string -> string;
  py_str : json -> string;
  py_repr : string -> string
}.

Section Engine.

Variable py : python.

Definition TRUNCATED : string := "[truncated]".

(** [if isinstance(block, dict) and block.get("type") == "tool_result":
    block["content"] = "[truncated]"] *)
Definition redact_block (block : json) : json :=
  match block with
  | JDict b =>
      if eq_str (dict_get b "type" JNull) "tool_result"
      then JDict (dict_set b "content" (JStr TRUNCATED))
      else block
  | _ => block
  end.

(** [data] after the blocks of [data["message"]["content"]] were redacted
    in place. *)
Definition redact_content (data message : list (string * json))
    (blocks : list json) : json :=
  JDict (dict_set data "message"
           (JDict (dict_set message "content" (JList (map redact_block blocks))))).

(** [copy.deepcopy(v)] *)
Definition deepcopy (v : json) : exn + json :=
  match deepcopy_error py v with
  | Some m => inl (RecursionError m)
  | None => inr v
  end.

(** *** [_filter_last_lines] *)

(** The body of the [try] for one line: what is appended to [filtered],
    or the exception raised. *)
Definition filter_body (line : string) : exn + string :=
  match json_loads py line with
  | inl e => inl e
  | inr (JDict d) =>
      if eq_str (dict_get d "type" (JStr "")) "user" then
        match dict_get d "message" (JDict []) with
        | JDict m =>
            match dict_get m "content" JNull with
            | JList blocks =>
                _ <- deepcopy (JDict d) ;;
                inr (json_dumps (redact_content d m blocks))
            | _ => inr line
            end
        | message => inl (AttributeError (type_name message) "get")
        end
      else inr line
  | inr data => inl (AttributeError (type_name data) "get")
  end.

(** One turn of the loop: the handler keeps the line as it is; any other
    exception leaves [_filter_last_lines]. *)
Definition filter_line (line : string) : exn + string :=
  match filter_body line with
  | inl e => if tolerated e then inr line else inl e
  | inr s => inr s
  end.

Definition _filter_last_lines (lines : list string) (max_lines : Z)
  : exn + list string :=
  filtered <- for_each filter_line lines ;;
  inr (slice_from (- max_lines) filtered).

(** *** [_build_error_detail] *)

Definition idle_suggestion : string :=
  "任务空闲超时（无输出）。建议：1) 增加 timeout 参数 2) 检查任务是否卡住 3) 拆分为更小的子任务".

Definition duration_suggestion : string :=
  "任务总时长超时。建议：1) 增加 max_duration 参数 2) 拆分为更小的子任务 3) 检查是否存在死循环".

Definition _build_error_detail (t : tool) (message : string)
    (exit_code : option Z) (last_lines : list string) (json_decode_errors : Z)
    (idle_timeout_s max_duration_s : option Z) (retries : Z) : exn + Detail.t :=
  filtered <- match last_lines with
              | [] => inr None
              | _ => l <- _filter_last_lines last_lines 50 ;; inr (Some l)
              end ;;
  inr
  {| Detail.message := message;
     Detail.exit_code := exit_code;
     Detail.last_lines := filtered;
     Detail.json_decode_errors :=
       if 0 <? json_decode_errors then Some json_decode_errors else None;
     Detail.idle_timeout_s := idle_timeout_s;
     Detail.max_duration_s := max_duration_s;
     Detail.suggestion :=
       match t with
       | Claude => None
       | Coder =>
           match max_duration_s, idle_timeout_s with
           | Some _, _ => Some duration_suggestion
           | None, Some _ => Some idle_suggestion
           | None, None => None
           end
       end;
     Detail.retries := if 0 <? retries then Some retries else None |}.

(** *** Interpreting one output line: the body of the inner [try] *)

(** The [return_all_messages] branch. *)
Definition collect (d : list (string * json)) (msg_type : json) (st : run_state)
  : run_state * option exn :=
  if eq_str msg_type "user" then
    match deepcopy (JDict d) with
    | inl e => (st, Some e)
    | inr _ =>
        match dict_get d "message" (JDict []) with
        | JDict m =>
            let safe_dict :=
              match dict_get m "content" JNull with
              | JList blocks => redact_content d m blocks
              | _ => JDict d
              end in
            (set_all_messages st (all_messages st ++ [safe_dict])%list, None)
        | message => (st, Some (AttributeError (type_name message) "get"))
        end
    end
  else (set_all_messages st (all_messages st ++ [JDict d])%list, None).

(** The text fragment one block of an assistant message contributes. *)
Definition text_of_block (block : json) : list json :=
  match block with
  | JDict b =>
      if eq_str (dict_get b "type" JNull) "text" then
        let text := dict_get b "text" (JStr "") in
        if truthy text then [text] else []
      else []
  | _ => []
  end.

(** The [if] / [elif] chain over [msg_type]. *)
Definition dispatch (d : list (string * json)) (msg_type : json) (st : run_state)
  : run_state * option exn :=
  if eq_str msg_type "system" && eq_str (dict_get d "subtype" JNull) "init" then
    (set_session_id st (dict_get d "session_id" JNull), None)
  else if eq_str msg_type "assistant" then
    match get (dict_get d "message" (JDict [])) "content" JNull with
    | inl e => (st, Some e)
    | inr (JList blocks) =>
        (set_assistant_text_parts st
           (assistant_text_parts st ++ flat_map text_of_block blocks)%list, None)
    | inr _ => (st, None)
    end
  else if eq_str msg_type "result" then
    let st1 :=
      if dict_has d "result"
      then set_result_content st (dict_get d "result" (JStr ""))
      else st in
    let st2 :=
      if negb (truthy (session_id st1)) && dict_has d "session_id"
      then set_session_id st1 (dict_get d "session_id" JNull)
      else st1 in
    let st3 :=
      if truthy (dict_get d "is_error" JNull)
      then set_error_kind
             (set_err_message (set_had_error st2 true)
                (or_else (dict_get d "result" (JStr ""))
                         (dict_get d "error" (JStr ""))))
             (Some UPSTREAM_ERROR)
      else st2 in
    (st3, None)
  else if eq_str msg_type "error" then
    let st1 := set_had_error st true in
    match get (dict_get d "error" (JDict [])) "message" (JStr (py_str py (JDict d))) with
    | inl e => (st1, Some e)
    | inr m => (set_error_kind (set_err_message st1 m) (Some UPSTREAM_ERROR), None)
    end
  else (st, None).

(** The state when the body ends, and the exception that ended it. *)
Definition interpret (ram : bool) (st : run_state) (line : string)
  : run_state * option exn :=
  match json_loads py (py_strip py line) with
  | inl e => (st, Some e)
  | inr (JDict d) =>
      let msg_type := dict_get d "type" (JStr "") in
      if ram then
        match collect d msg_type st with
        | (st1, None) => dispatch d msg_type st1
        | (st1, Some e) => (st1, Some e)
        end
      else dispatch d msg_type st
  | inr v => (st, Some (AttributeError (type_name v) "get"))
  end.

(** [last_lines.append(line)], then [pop(0)] beyond fifty entries. *)
Definition push_last_line (st : run_state) (line : string) : run_state :=
  let l := (last_lines st ++ [line])%list in
  set_last_lines st (if (50 <? Z.of_nat (length l)) then tl l else l).

(** *** The [for line in gen] loop *)

Inductive loop_end : Type :=
| Exhausted
| Broke
| Raised (e : exn).

(** [except Exception as error] of [coder_tool]. *)
Definition unexpected (st : run_state) (e : exn) (line : string)
  : run_state * loop_end :=
  match iadd_str (err_message st)
          (nl ++ nl ++ "[unexpected error] " ++ str_of_exn e
              ++ ". Line: " ++ py_repr py line) with
  | inl e' => (st, Raised e')
  | inr m =>
      (set_error_kind (set_had_error (set_err_message st m) true)
         (Some UNEXPECTED_EXCEPTION), Broke)
  end.

(** What follows an exception other than [JSONDecodeError]: the handler of
    [coder_tool]; [claude_tool] has none, and the exception leaves the
    loop. *)
Definition handle (t : tool) (st : run_state) (e : exn) (line : string)
  : run_state * loop_end :=
  match t with
  | Coder => unexpected st e line
  | Claude => (st, Raised e)
  end.

Fixpoint consume (t : tool) (ram : bool) (st : run_state) (lines : list string)
  : run_state * loop_end :=
  match lines with
  | [] => (st, Exhausted)
  | line :: rest =>
      match interpret ram (push_last_line st line) line with
      | (st1, None) => consume t ram st1 rest
      | (st1, Some JSONDecodeError) =>
          consume t ram (set_json_decode_errors st1 (json_decode_errors st1 + 1)) rest
      | (st1, Some e) => handle t st1 e line
      end
  end.

(** *** After the stream: fallback text and the classification *)

(** [if not result_content and assistant_text_parts: ...] *)
Definition join_assistant_text (st : run_state) : exn + run_state :=
  match assistant_text_parts st with
  | [] => inr st
  | parts =>
      if truthy (result_content st) then inr st
      else s <- join (nl ++ nl) parts ;; inr (set_result_content st (JStr s))
  end.

Definition response_name (t : tool) : string :=
  match t with Coder => "Coder" | Claude => "Claude" end.

(** One of the three guarded blocks: mark the failure, keep an error kind
    that is already set, put the diagnostic in front of the message. *)
Definition fail_with (k : ErrorKind) (prefix : string) (st : run_state)
  : exn + run_state :=
  let st1 := set_success st false in
  let st2 :=
    match error_kind st1 with
    | None => set_error_kind st1 (Some k)
    | Some _ => st1
    end in
  m <- str_add (prefix ++ nl ++ nl) (err_message st2) ;;
  inr (set_err_message st2 m).

Definition classify (t : tool) (st : run_state) : exn + run_state :=
  let st0 := if had_error st then set_success st false else st in
  st1 <- (if is_none (session_id st0)
          then fail_with PROTOCOL_MISSING_SESSION "未能获取 SESSION_ID。" st0
          else inr st0) ;;
  st2 <- (if negb (truthy (result_content st1)) && success st1
          then fail_with EMPTY_RESULT
                 ("未能获取 " ++ response_name t ++ " 响应内容。") st1
          else inr st1) ;;
  match exit_code st2 with
  | Some code =>
      if negb (code =? 0) && success st2
      then fail_with SUBPROCESS_ERROR ("进程退出码非零：" ++ str_of_int code) st2
      else inr st2
  | None => inr st2
  end.

Definition timeout_kind (is_idle : bool) : ErrorKind :=
  if is_idle then IDLE_TIMEOUT else TIMEOUT.

(** [except CommandTimeoutError as e] *)
Definition on_timeout (st : run_state) (msg : string) (idle : bool) : run_state :=
  set_success
    (set_err_message
       (set_had_error (set_error_kind st (Some (timeout_kind idle))) true)
       (JStr msg))
    false.

Inductive attempt_result : Type :=
| ARaise (e : exn)
| ATimeout (st : run_state)
| ADone (st : run_state).

(** One pass of the retry loop over the lines the generator yields and the
    way it ends.  The [for] statement absorbs the generator's
    [StopIteration], so its return value never reaches [exit_code]. *)
Definition run_attempt (t : tool) (c : config) (lines : list string) (fin : finish)
  : attempt_result :=
  let finish_attempt st :=
    match (st1 <- join_assistant_text st ;; classify t st1) with
    | inl e => ARaise e
    | inr st2 => ADone st2
    end in
  match consume t (return_all_messages c) init_state lines with
  | (_, Raised e) => ARaise e
  | (st, Broke) => finish_attempt st
  | (st, Exhausted) =>
      match fin with
      | TimedOut k => ATimeout (on_timeout st (timeout_message t c k) (is_idle k))
      | Returned _ _ => finish_attempt st
      end
  end.

(** *** The retry loop and the tool function *)

Definition not_found_message (t : tool) : string :=
  match t with
  | Coder =>
      "未找到 claude CLI。请确保已安装 Claude Code CLI 并添加到 PATH。" ++ nl
        ++ "安装指南：https://docs.anthropic.com/en/docs/claude-code"
  | Claude => "未找到 claude CLI。请确保已安装 Claude Code CLI 并添加到 PATH。"
  end.

(** The dict returned before any line was read: a configuration failure
    or an unresolved executable.  [_build_error_detail(str(e))] is called
    without trailing lines, so the filter is not run and the call
    returns. *)
Definition early_failure (t : tool) (k : ErrorKind) (msg : string) : Outcome.t :=
  {| Outcome.success := false;
     Outcome.tool := tool_name t;
     Outcome.SESSION_ID := None;
     Outcome.result := None;
     Outcome.error := Some (JStr msg);
     Outcome.error_kind := Some k;
     Outcome.error_detail :=
       match _build_error_detail t msg None [] 0 None None 0 with
       | inr detail => Some detail
       | inl _ => None
       end;
     Outcome.all_messages := None |}.

Definition save_error (st : run_state) : last_error_t :=
  {| le_error_kind := error_kind st;
     le_err_message := err_message st;
     le_exit_code := exit_code st;
     le_json_decode_errors := json_decode_errors st;
     le_raw_output_lines := raw_output_lines st |}.

(** [0.5 * (2 ** (retries - 1))] *)
Definition backoff (retries : Z) : Q := ((1 # 2) * inject_Z (2 ^ (retries - 1)))%Q.

Definition started (tr : trace) : trace :=
  {| attempts := S (attempts tr); spawned := spawned tr; sleeps := sleeps tr |}.

Definition spawn (tr : trace) : trace :=
  {| attempts := attempts tr; spawned := S (spawned tr); sleeps := sleeps tr |}.

Definition sleep (tr : trace) (secs : Q) : trace :=
  {| attempts := attempts tr; spawned := spawned tr;
     sleeps := (sleeps tr ++ [secs])%list |}.

(** How the [while] statement is left.  [Left] carries what the code after
    the loop reads: the variables of the last pass ([None] when no pass
    ran), [retries], [last_error] and [all_last_lines]. *)
Inductive loop_exit : Type :=
| Returning (o : Outcome.t)
| Raising (e : exn)
| Left (prev : option run_state) (retries : Z)
       (last_error : option last_error_t) (all_last_lines : list string)
| OutOfFuel.

Fixpoint retry_loop (t : tool) (c : config) (w : world) (fuel : nat)
    (retries : Z) (prev : option run_state)
    (last_error : option last_error_t) (all_last_lines : list string)
    (tr : trace) : loop_exit * trace :=
  if retries <=? max_retries c then
    match fuel with
    | O => (OutOfFuel, tr)
    | S fuel' =>
        let tr1 := started tr in
        match runs w (attempts tr) with
        | NotFound =>
            (Returning (early_failure t COMMAND_NOT_FOUND (not_found_message t)), tr1)
        | SpawnFailed => (Raising OSError, tr1)
        | Spawned ch =>
            let tr2 := spawn tr1 in
            let (lines, fin) := generator c ch in
            match run_attempt t c lines fin with
            | ARaise e => (Raising e, tr2)
            | ATimeout st =>
                (Left (Some st) retries (Some (save_error st)) (last_lines st), tr2)
            | ADone st =>
                if success st
                then (Left (Some st) retries last_error all_last_lines, tr2)
                else if retries <? max_retries c
                then retry_loop t c w fuel' (retries + 1) (Some st)
                       (Some (save_error st)) (last_lines st)
                       (sleep tr2 (backoff (retries + 1)))
                else (Left (Some st) retries (Some (save_error st)) (last_lines st), tr2)
            end
        end
    end
  else (Left prev retries last_error all_last_lines, tr).

(** [metrics.finish] evaluates [len(result)] and, for a truthy result,
    [result.count]. *)
Definition metrics_finish (result : json) : option exn :=
  match result with
  | JStr _ | JList _ => None
  | JDict [] => None
  | JDict _ => Some (AttributeError "dict" "count")
  | _ => Some TypeError
  end.

(** [err_message.split('\n')[0] if err_message else "未知错误"] *)
Definition detail_message (err_message : json) : exn + string :=
  if truthy err_message then
    match err_message with
    | JStr s => inr (first_line s)
    | v => inl (AttributeError (type_name v) "split")
    end
  else inr "未知错误".

Definition kind_is (k : option ErrorKind) (expected : ErrorKind) : bool :=
  match k with
  | Some k' => ErrorKind_eqb k' expected
  | None => false
  end.

(** The code after the loop. *)
Definition finalize (t : tool) (c : config) (prev : option run_state)
    (retries : Z) (last_error : option last_error_t)
    (all_last_lines : list string) : tool_result :=
  match prev with
  | None => Raise UnboundLocalError
  | Some st =>
      match metrics_finish (result_content st) with
      | Some e => Raise e
      | None =>
          let messages :=
            if return_all_messages c then Some (all_messages st) else None in
          if success st then
            Return {| Outcome.success := true;
                      Outcome.tool := tool_name t;
                      Outcome.SESSION_ID := Some (session_id st);
                      Outcome.result := Some (result_content st);
                      Outcome.error := None;
                      Outcome.error_kind := None;
                      Outcome.error_detail := None;
                      Outcome.all_messages := messages |}
          else
            let le := match last_error with
                      | Some le => le
                      | None => save_error st
                      end in
            match (message <- detail_message (le_err_message le) ;;
                   _build_error_detail t message
                     (le_exit_code le) all_last_lines
                     (le_json_decode_errors le)
                     (if kind_is (le_error_kind le) IDLE_TIMEOUT
                      then Some (timeout c) else None)
                     (if kind_is (le_error_kind le) TIMEOUT
                      then Some (max_duration c) else None)
                     retries) with
            | inl e => Raise e
            | inr detail =>
                Return {| Outcome.success := false;
                          Outcome.tool := tool_name t;
                          Outcome.SESSION_ID := None;
                          Outcome.result := None;
                          Outcome.error := Some (le_err_message le);
                          Outcome.error_kind := le_error_kind le;
                          Outcome.error_detail := Some detail;
                          Outcome.all_messages := messages |}
            end
      end
  end.

Definition no_trace : trace := {| attempts := 0; spawned := 0; sleeps := [] |}.

(** [coder_tool] and [claude_tool]. *)
Definition tool_fn (t : tool) (c : config) (w : world) : tool_result * trace :=
  match config_load w with
  | Some e => (Return (early_failure t CONFIG_ERROR ("配置加载失败：" ++ e)), no_trace)
  | None =>
      match retry_loop t c w (Z.to_nat (max_retries c + 1)) 0 None None [] no_trace with
      | (Returning o, tr) => (Return o, tr)
      | (Raising e, tr) => (Raise e, tr)
      | (Left prev retries last_error all_last_lines, tr) =>
          (finalize t c prev retries last_error all_last_lines, tr)
      | (OutOfFuel, tr) => (Diverge, tr)
      end
  end.

Definition coder_tool : config -> world -> tool_result * trace := tool_fn Coder.
Definition claude_tool : config -> world -> tool_result * trace := tool_fn Claude.

End Engine.

(** ** Python's library functions on plain ASCII documents

    Executable stand-ins for [json.loads], [copy.deepcopy], [str.strip],
    [repr] and [str], used to run the engine on concrete output lines.
    [json_loads] reads the JSON fragment without floats and without [\u]
    escapes, nested less than a hundred levels deep, and agrees with
    Python on it, the refusal of an integer literal of more than 4300
    digits included; everything proved about the engine holds for any
    decoder. *)

Module PyLib.

Definition is_space (c : ascii) : bool :=
  let n := nat_of_ascii c in
  Nat.eqb n 32 || (Nat.leb 9 n && Nat.leb n 13) || (Nat.leb 28 n && Nat.leb n 31).

Fixpoint lstrip (s : list ascii) : list ascii :=
  match s with
  | c :: rest => if is_space c then lstrip rest else s
  | [] => []
  end.

Definition py_strip (s : string) : string :=
  string_of_list_ascii
    (rev (lstrip (rev (lstrip (list_ascii_of_string s))))).

(** JSON's own white space: space, tab, line feed, carriage return. *)
Definition is_json_ws (c : ascii) : bool :=
  let n := nat_of_ascii c in
  Nat.eqb n 32 || Nat.eqb n 9 || Nat.eqb n 10 || Nat.eqb n 13.

Fixpoint skip_ws (s : list ascii) : list ascii :=
  match s with
  | c :: rest => if is_json_ws c then skip_ws rest else s
  | [] => []
  end.

Definition is_digit (c : ascii) : bool :=
  let n := nat_of_ascii c in Nat.leb 48 n && Nat.leb n 57.

Fixpoint digits (acc : Z) (count : nat) (s : list ascii)
  : Z * nat * list ascii :=
  match s with
  | c :: rest =>
      if is_digit c
      then digits (10 * acc + Z.of_nat (nat_of_ascii c - 48)) (S count) rest
      else (acc, count, s)
  | [] => (acc, count, [])
  end.

(** [int(literal)] refuses a literal of more than 4300 digits. *)
Definition digit_limit_message (count : nat) : string :=
  "Exceeds the limit (4300 digits) for integer string conversion: value has "
    ++ str_of_int (Z.of_nat count)
    ++ " digits; use sys.set_int_max_str_digits() to increase the limit".

(** An integer literal; a fraction or an exponent is outside the fragment. *)
Definition parse_int (s : list ascii) : exn + (Z * list ascii) :=
  let after_number (z : Z) (count : nat) (r : list ascii) :=
    let convert :=
      if Nat.ltb 4300 count then inl (ValueError (digit_limit_message count))
      else inr (z, r) in
    match r with
    | c :: _ =>
        let n := nat_of_ascii c in
        if Nat.eqb n 46 || Nat.eqb n 101 || Nat.eqb n 69
        then inl JSONDecodeError
        else convert
    | [] => convert
    end in
  match s with
  | c :: rest =>
      if Nat.eqb (nat_of_ascii c) 48 then after_number 0 1%nat rest
      else if is_digit c
      then let '(z, count, r) := digits 0 0 s in after_number z count r
      else inl JSONDecodeError
  | [] => inl JSONDecodeError
  end.

(** The characters of a string literal after its opening quote. *)
Fixpoint parse_string (s : list ascii) : option (string * list ascii) :=
  match s with
  | [] => None
  | c :: rest =>
      let n := nat_of_ascii c in
      if Nat.eqb n 34 then Some (EmptyString, rest)
      else if Nat.ltb n 32 then None
      else if Nat.eqb n 92 then
        match rest with
        | e :: rest' =>
            let m := nat_of_ascii e in
            let decoded :=
              if Nat.eqb m 34 || Nat.eqb m 92 || Nat.eqb m 47 then Some e
              else if Nat.eqb m 98 then Some (ascii_of_nat 8)
              else if Nat.eqb m 102 then Some (ascii_of_nat 12)
              else if Nat.eqb m 110 then Some (ascii_of_nat 10)
              else if Nat.eqb m 114 then Some (ascii_of_nat 13)
              else if Nat.eqb m 116 then Some (ascii_of_nat 9)
              else None in
            match decoded, parse_string rest' with
            | Some d, Some (str, r) => Some (String d str, r)
            | _, _ => None
            end
        | [] => None
        end
      else
        match parse_string rest with
        | Some (str, r) => Some (String c str, r)
        | None => None
        end
  end.

Definition starts_with (lit : string) (s : list ascii) : option (list ascii) :=
  let l := list_ascii_of_string lit in
  if String.eqb (string_of_list_ascii (firstn (length l) s)) lit
  then Some (skipn (length l) s)
  else None.

Fixpoint parse_value (fuel : nat) (s : list ascii) : exn + (json * list ascii) :=
  match fuel with
  | O => inl JSONDecodeError
  | S fuel' =>
      match skip_ws s with
      | [] => inl JSONDecodeError
      | c :: rest =>
          let n := nat_of_ascii c in
          if Nat.eqb n 34 then
            match parse_string rest with
            | Some (str, r) => inr (JStr str, r)
            | None => inl JSONDecodeError
            end
          else if Nat.eqb n 91 then
            match skip_ws rest with
            | c' :: r' =>
                if Nat.eqb (nat_of_ascii c') 93 then inr (JList [], r')
                else parse_elements fuel' rest
            | [] => inl JSONDecodeError
            end
          else if Nat.eqb n 123 then
            match skip_ws rest with
            | c' :: r' =>
                if Nat.eqb (nat_of_ascii c') 125 then inr (JDict [], r')
                else parse_members fuel' [] rest
            | [] => inl JSONDecodeError
            end
          else if Nat.eqb n 45 then
            match parse_int rest with
            | inr (z, r) => inr (JInt (- z), r)
            | inl e => inl e
            end
          else if is_digit c then
            match parse_int (c :: rest) with
            | inr (z, r) => inr (JInt z, r)
            | inl e => inl e
            end
          else
            match starts_with "null" (c :: rest), starts_with "true" (c :: rest),
                  starts_with "false" (c :: rest) with
            | Some r, _, _ => inr (JNull, r)
            | _, Some r, _ => inr (JBool true, r)
            | _, _, Some r => inr (JBool false, r)
            | _, _, _ => inl JSONDecodeError
            end
      end
  end

with parse_elements (fuel : nat) (s : list ascii) : exn + (json * list ascii) :=
  match fuel with
  | O => inl JSONDecodeError
  | S fuel' =>
      match parse_value fuel' s with
      | inr (v, r) =>
          match skip_ws r with
          | c :: r' =>
              if Nat.eqb (nat_of_ascii c) 93 then inr (JList [v], r')
              else if Nat.eqb (nat_of_ascii c) 44 then
                match parse_elements fuel' r' with
                | inr (JList vs, r'') => inr (JList (v :: vs), r'')
                | inr _ => inl JSONDecodeError
                | inl e => inl e
                end
              else inl JSONDecodeError
          | [] => inl JSONDecodeError
          end
      | inl e => inl e
      end
  end

with parse_members (fuel : nat) (acc : list (string * json)) (s : list ascii)
  : exn + (json * list ascii) :=
  match fuel with
  | O => inl JSONDecodeError
  | S fuel' =>
      match skip_ws s with
      | q :: r0 =>
          if Nat.eqb (nat_of_ascii q) 34 then
            match parse_string r0 with
            | Some (k, r1) =>
                match skip_ws r1 with
                | colon :: r2 =>
                    if Nat.eqb (nat_of_ascii colon) 58 then
                      match parse_value fuel' r2 with
                      | inr (v, r3) =>
                          let acc' := dict_set acc k v in
                          match skip_ws r3 with
                          | c :: r4 =>
                              if Nat.eqb (nat_of_ascii c) 125
                              then inr (JDict acc', r4)
                              else if Nat.eqb (nat_of_ascii c) 44
                              then parse_members fuel' acc' r4
                              else inl JSONDecodeError
                          | [] => inl JSONDecodeError
                          end
                      | inl e => inl e
                      end
                    else inl JSONDecodeError
                | [] => inl JSONDecodeError
                end
            | None => inl JSONDecodeError
            end
          else inl JSONDecodeError
      | [] => inl JSONDecodeError
      end
  end.

Definition json_loads (s : string) : exn + json :=
  let l := list_ascii_of_string s in
  match parse_value (S (length l)) l with
  | inr (v, r) => match skip_ws r with [] => inr v | _ => inl JSONDecodeError end
  | inl e => inl e
  end.

(** The documents used here are a few levels deep; [copy.deepcopy] copies
    them. *)
Definition deepcopy_error (v : json) : option string := None.

Definition has_char (n : nat) (s : string) : bool :=
  existsb (fun c => Nat.eqb (nat_of_ascii c) n) (list_ascii_of_string s).

(** [repr(s)] of a [str] *)
Definition py_repr (s : string) : string :=
  let q := if has_char 39 s && negb (has_char 34 s) then 34%nat else 39%nat in
  let esc (c : ascii) : string :=
    let n := nat_of_ascii c in
    if Nat.eqb n q || Nat.eqb n 92 then String (ascii_of_nat 92) (String c "")
    else if Nat.eqb n 10 then "\n"
    else if Nat.eqb n 13 then "\r"
    else if Nat.eqb n 9 then "\t"
    else if Nat.ltb n 32 || Nat.eqb n 127
         then "\x" ++ String (hex_digit (n / 16)) (String (hex_digit (n mod 16)) "")
         else String c "" in
  String (ascii_of_nat q)
    (String.concat "" (map esc (list_ascii_of_string s))
       ++ String (ascii_of_nat q) "").

(** [str(v)] of a decoded document *)
Fixpoint py_str (v : json) : string :=
  match v with
  | JNull => "None"
  | JBool true => "True"
  | JBool false => "False"
  | JInt z => str_of_int z
  | JFloat r =>
      if String.eqb r "NaN" then "nan"
      else if String.eqb r "Infinity" then "inf"
      else if String.eqb r "-Infinity" then "-inf"
      else r
  | JStr s => py_repr s
  | JList l =>
      "[" ++
      (fix items (l : list json) : string :=
         match l with
         | [] => ""
         | x :: r => py_str x ++ match r with [] => "" | _ => ", " ++ items r end
         end) l ++ "]"
  | JDict d =>
      "{" ++
      (fix members (d : list (string * json)) : string :=
         match d with
         | [] => ""
         | (k, x) :: r =>
             py_repr k ++ ": " ++ py_str x ++
             match r with [] => "" | _ => ", " ++ members r end
         end) d ++ "}"
  end.

End PyLib.

(** ** Running the engine on concrete children *)

Module Run.

(** Output lines are written with ['] where the child prints a double
    quote. *)
Fixpoint dq (s : string) : string :=
  match s with
  | EmptyString => EmptyString
  | String c rest =>
      String (if Ascii.eqb c "'"%char then ascii_of_nat 34 else c) (dq rest)
  end.

Definition py : python :=
  {| json_loads := PyLib.json_loads; deepcopy_error := PyLib.deepcopy_error;
     py_strip := PyLib.py_strip;
     py_str := PyLib.py_str; py_repr := PyLib.py_repr |}.

(** A child that prints [lines] one second apart from time zero, then
    closes its output and exits with [code]. *)
Fixpoint polls_of (at_ : Z) (lines : list string) : list poll :=
  match lines with
  | [] => []
  | line :: rest =>
      {| now := inject_Z at_; event := Got (dq line) (inject_Z at_) |}
        :: polls_of (at_ + 1) rest
  end.

Definition prints (lines : list string) (code : Z) : child :=
  {| start_time := 0; first_activity := 0;
     polls := polls_of 1 lines;
     end_now := inject_Z (Z.of_nat (length lines) + 1);
     wait := Some code; leftover := [];
     raw_output_lines_holder := Z.of_nat (length lines) |}.

(** A child that prints nothing and is still silent when the supervisor
    looks at the clock at [at_]. *)
Definition silent_until (at_ : Z) : child :=
  {| start_time := 0; first_activity := 0;
     polls := [ {| now := inject_Z at_; event := Empty |} ];
     end_now := inject_Z at_;
     wait := Some 0; leftover := [];
     raw_output_lines_holder := 0 |}.

Definition defaults (retries : Z) : config :=
  {| return_all_messages := false; timeout := 300; max_duration := 1800;
     max_retries := retries |}.

(** Every pass of the retry loop meets the same thing. *)
Definition always (r : run) : world :=
  {| config_load := None; runs := fun _ => r |}.

(** The first pass meets [first], the later ones [later]. *)
Definition first_then (first later : run) : world :=
  {| config_load := None;
     runs := fun n => match n with O => first | S _ => later end |}.

(** A line that is one integer literal of 4301 digits. *)
Definition long_integer : string :=
  string_of_list_ascii (repeat "1"%char 4301).

End Run.

(** ** Vocabulary of the properties *)

(** The value of [last_activity_time] with which the poll cycle after
    [ps] starts; [None] when a ceiling fired during [ps]. *)
Fixpoint reaches (c : config) (start last : Q) (ps : list poll) : option Q :=
  match ps with
  | [] => Some last
  | p :: rest =>
      match poll_check c start last (now p) with
      | RUNNING =>
          match event p with
          | Got _ after => reaches c start after rest
          | Empty => reaches c start last rest
          end
      | _ => None
      end
  end.

(** The clock reading of the [i]-th poll cycle of a child; the cycle after
    the last poll is the one in which the stream ends. *)
Definition cycle_clock (ch : child) (i : nat) : Q :=
  nth i (map now (polls ch)) (end_now ch).

(** The kinds a failure outcome may carry. *)
Definition reported_kinds : list ErrorKind :=
  [TIMEOUT; IDLE_TIMEOUT; COMMAND_NOT_FOUND; UPSTREAM_ERROR;
   PROTOCOL_MISSING_SESSION; EMPTY_RESULT; SUBPROCESS_ERROR; CONFIG_ERROR;
   UNEXPECTED_EXCEPTION].

(** [0.5 * 2^k] for [k = 0 .. n-1]. *)
Definition backoff_schedule (n : nat) : list Q :=
  map (fun k => ((1 # 2) * inject_Z (2 ^ Z.of_nat k))%Q) (seq 0 n).

(** The error kinds that reading a line can set. *)
Definition stream_kind (k : option ErrorKind) : Prop :=
  k = None \/ k = Some UPSTREAM_ERROR \/ k = Some UNEXPECTED_EXCEPTION.

(** Between two lines an error flag always comes with its kind. *)
Definition flagged (st : run_state) : Prop :=
  stream_kind (error_kind st) /\
  (had_error st = true -> error_kind st <> None) /\
  success st = true.

Section Vocabulary.

Variable py : python.

(** A line in which a session identifier can be observed: a system/init
    message or a result message whose [session_id] is not [None]. *)
Definition carries_session (line : string) : bool :=
  match json_loads py (py_strip py line) with
  | inr (JDict d) =>
      let msg_type := dict_get d "type" (JStr "") in
      ((eq_str msg_type "system" && eq_str (dict_get d "subtype" JNull) "init")
       || eq_str msg_type "result")
      && negb (is_none (dict_get d "session_id" JNull))
  | _ => false
  end.

(** A line that decodes as a user message whose content is a list, with
    the decoded object, its message and the blocks of the content. *)
Definition user_content (line : string)
  : option (list (string * json) * list (string * json) * list json) :=
  match json_loads py line with
  | inr (JDict d) =>
      if eq_str (dict_get d "type" (JStr "")) "user" then
        match dict_get d "message" (JDict []) with
        | JDict m =>
            match dict_get m "content" JNull with
            | JList blocks => Some (d, m, blocks)
            | _ => None
            end
        | _ => None
        end
      else None
  | _ => None
  end.

(** What one pass of the retry loop makes of what it meets. *)
Inductive pass : Type :=
| PNotFound
| PRaise (e : exn)
| PTimeout (st : run_state)
| PSuccess (st : run_state)
| PFailure (st : run_state).

Definition pass_of (t : tool) (c : config) (r : run) : pass :=
  match r with
  | NotFound => PNotFound
  | SpawnFailed => PRaise OSError
  | Spawned ch =>
      let (lines, fin) := generator c ch in
      match run_attempt py t c lines fin with
      | ARaise e => PRaise e
      | ATimeout st => PTimeout st
      | ADone st => if success st then PSuccess st else PFailure st
      end
  end.

Definition is_failure (p : pass) : bool :=
  match p with PFailure _ => true | _ => false end.

(** How the retry loop is left after a last pass [p] with index [n]. *)
Definition exit_matches (t : tool) (c : config) (n : nat) (p : pass)
    (ex : loop_exit) : Prop :=
  match ex with
  | Returning o =>
      p = PNotFound /\
      o = early_failure py t COMMAND_NOT_FOUND (not_found_message t)
  | Raising e => p = PRaise e
  | Left prev r le all =>
      r = Z.of_nat n /\
      match p with
      | PTimeout st =>
          prev = Some st /\ le = Some (save_error st) /\ all = last_lines st
      | PSuccess st => prev = Some st
      | PFailure st =>
          prev = Some st /\ le = Some (save_error st) /\ all = last_lines st /\
          r = max_retries c
      | _ => False
      end
  | OutOfFuel => False
  end.

Definition is_timeout (p : pass) : bool :=
  match p with PTimeout _ => true | _ => false end.

End Vocabulary.

(** ** The prologue of the tool function *)

Module Prologue.

Definition CR : ascii := ascii_of_nat 13.
Definition LF : ascii := ascii_of_nat 10.

(** [s.replace('\r\n', '\n')]: the occurrences are taken from the left and
    do not overlap. *)
Fixpoint replace_crlf (s : string) : string :=
  match s with
  | EmptyString => EmptyString
  | String c rest =>
      match rest with
      | String c' rest' =>
          if Ascii.eqb c CR && Ascii.eqb c' LF
          then String LF (replace_crlf rest')
          else String c (replace_crlf rest)
      | EmptyString => String c EmptyString
      end
  end.

(** [s.replace('\r', '\n')] *)
Fixpoint replace_cr (s : string) : string :=
  match s with
  | EmptyString => EmptyString
  | String c rest => String (if Ascii.eqb c CR then LF else c) (replace_cr rest)
  end.

(** [PROMPT.replace('\r\n', '\n').replace('\r', '\n')] *)
Definition normalized_prompt (PROMPT : string) : string :=
  replace_cr (replace_crlf PROMPT).

Definition CODER_SYSTEM_PROMPT : string :=
  "你是一个专注高效的代码执行助手。【执行原则】- 直接执行任务，不闲聊、不反问需求 - 遵循代码最佳实践，保持代码质量 - 在任务范围内可自主决策实现细节【输出规范】- 仅输出任务结果与必要的改动说明 - 如有代码改动可附 diff（内容较多时节选关键部分并说明）".

Definition CLAUDE_SYSTEM_PROMPT : string :=
  "你是一个高阶技术专家和咨询顾问。【角色定位】- 提供深度的技术见解和架构建议 - 能够执行复杂的代码重构或原型开发 - 保持专业、客观、严谨【输出规范】- 仅输出任务结果与必要的改动说明".

Definition system_prompt (t : tool) : string :=
  match t with
  | Coder => CODER_SYSTEM_PROMPT
  | Claude => CLAUDE_SYSTEM_PROMPT
  end.

Definition SKIP_PERMISSIONS : string := "--dangerously-skip-permissions".

(** The argument vector [cmd], built by [append] and [extend]. *)
Definition build_cmd (t : tool) (sandbox SESSION_ID : string) : list string :=
  (["claude"; "-p"; "--output-format"; "stream-json"; "--verbose";
    "--setting-sources"; "project"]
   ++ (if String.eqb sandbox "read-only" then [] else [SKIP_PERMISSIONS])
   ++ ["--append-system-prompt"; system_prompt t]
   ++ (if String.eqb SESSION_ID "" then [] else ["-r"; SESSION_ID]))%list.

(** [MetricsCollector.format_duration]: the minutes and seconds it prints. *)
Definition duration_parts (duration_ms : Z) : Z * Z :=
  let total_seconds := duration_ms / 1000 in
  (total_seconds / 60, total_seconds mod 60).

Definition format_duration (duration_ms : Z) : string :=
  let (minutes, seconds) := duration_parts duration_ms in
  str_of_int minutes ++ "m" ++ str_of_int seconds ++ "s".

End Prologue.
Import Prologue.

(** ** The output pump: [read_output] and [is_session_completed] *)

Section Pump.

Variable py : python.

(** A decoded line whose [type] is [result] or [error].  The handler
    answers [False] for a line that does not decode or decodes to
    something without [get]; any other exception of [json.loads] leaves
    the function. *)
Definition is_session_completed (line : string) : exn + bool :=
  match (data <- json_loads py line ;;
         ty <- get data "type" JNull ;;
         inr (eq_str ty "result" || eq_str ty "error")) with
  | inl e => if tolerated e then inr false else inl e
  | inr b => inr b
  end.

(** What the reader thread puts on the queue, and the count it keeps, for
    the successive answers of [process.stdout.readline]: the empty answer
    is the end of the stream, [None] on the queue is the sentinel.  An
    exception of [is_session_completed] ends the loop as [break] does: a
    [ValueError] is swallowed by [except (OSError, IOError, ValueError)],
    any other ends the thread, and [finally] puts the sentinel in both
    cases. *)
Fixpoint read_output (stdout : list string) : list (option string) * Z :=
  match stdout with
  | [] => ([None], 0)
  | line :: rest =>
      if String.eqb line "" then ([None], 0)
      else
        let stripped := py_strip py line in
        let n := if String.eqb stripped "" then 0 else 1 in
        match is_session_completed stripped with
        | inr false =>
            let (q, k) := read_output rest in (Some stripped :: q, n + k)
        | inr true => ([Some stripped; None], n)
        | inl _ => ([Some stripped; None], n)
        end
  end.

(** The lines [readline] answered before the stream ended. *)
Fixpoint before_eof (stdout : list string) : list string :=
  match stdout with
  | [] => []
  | line :: rest => if String.eqb line "" then [] else line :: before_eof rest
  end.

End Pump.

(** ** More vocabulary *)

Definition nonempty (s : string) : bool := negb (String.eqb s "").

(** The lines a run of polls offers to the consumer. *)
Definition got_lines (ps : list poll) : list string :=
  flat_map (fun p => match event p with
                     | Got line _ => yield_nonempty line
                     | Empty => []
                     end) ps.

(** The run state with other diagnostics: the trailing lines and the count
    of lines that did not decode. *)
Definition with_diag (st : run_state) (lines : list string) (errors : Z)
  : run_state :=
  set_json_decode_errors (set_last_lines st lines) errors.

Section Vocabulary2.

Variable py : python.

(** A line on which [json.loads] raises [JSONDecodeError]. *)
Definition undecodable (line : string) : bool :=
  match json_loads py (py_strip py line) with
  | inl JSONDecodeError => true
  | _ => false
  end.

(** The text fragments one line contributes: those of an assistant message
    whose content is a list. *)
Definition line_texts (line : string) : list json :=
  match json_loads py (py_strip py line) with
  | inr (JDict d) =>
      if eq_str (dict_get d "type" (JStr "")) "assistant" then
        match dict_get d "message" (JDict []) with
        | JDict m =>
            match dict_get m "content" JNull with
            | JList blocks => flat_map text_of_block blocks
            | _ => []
            end
        | _ => []
        end
      else []
  | _ => []
  end.

End Vocabulary2.

(** The error kinds an attempt on a spawned child can end with: those set
    while reading the lines, by the classification and by the timeout
    handler.  Only [coder_tool] has the handler that sets
    [UNEXPECTED_EXCEPTION]. *)
Definition attempt_kinds (t : tool) : list ErrorKind :=
  ([TIMEOUT; IDLE_TIMEOUT; UPSTREAM_ERROR; PROTOCOL_MISSING_SESSION; EMPTY_RESULT]
   ++ match t with Coder => [UNEXPECTED_EXCEPTION] | Claude => [] end)%list.

(** The error kinds that reading the lines can leave behind. *)
Definition line_kind (t : tool) (k : option ErrorKind) : Prop :=
  k = None \/ k = Some UPSTREAM_ERROR \/
  (t = Coder /\ k = Some UNEXPECTED_EXCEPTION).

Definition attempt_kind (t : tool) (k : option ErrorKind) : Prop :=
  match k with
  | None => True
  | Some k' => In k' (attempt_kinds t)
  end.

(** * Properties *)

(** ** The supervisor *)

Lemma supervise_duration_first (c : config) (start : Q) (end_now : Q) :
  forall (ps : list poll) (i : nat) (last0 last : Q),
    (i <= length ps)%nat ->
    reaches c start last0 (firstn i ps) = Some last ->
    0 < max_duration c ->
    elapsed_ge (nth i (map now ps) end_now) start (max_duration c) = true ->
    exists ys, supervise c start last0 ps end_now = (ys, Some Duration).
Proof.
  induction ps as [|p ps IH]; intros i last0 last Hi Hreach Hpos Hdur.
  - destruct i; [|simpl in Hi; lia].
    simpl in *. unfold poll_check.
    apply Z.ltb_lt in Hpos. rewrite Hpos, Hdur. simpl. eauto.
  - destruct i as [|i].
    + simpl in *. unfold poll_check.
      apply Z.ltb_lt in Hpos. rewrite Hpos, Hdur. simpl. eauto.
    + simpl in Hi. simpl firstn in Hreach. simpl nth in Hdur.
      simpl in Hreach. simpl supervise.
      destruct (poll_check c start last0 (now p)); try discriminate.
      destruct (event p) as [line after|].
      * destruct (IH i after last ltac:(lia) Hreach Hpos Hdur) as [ys Hys].
        rewrite Hys. eauto.
      * destruct (IH i last0 last ltac:(lia) Hreach Hpos Hdur) as [ys Hys].
        rewrite Hys. eauto.
Qed.

(** ** Reading the stream *)

Ltac break_match :=
  match goal with
  | |- context [match ?x with _ => _ end] => destruct x eqn:?
  | H : context [match ?x with _ => _ end] |- _ => destruct x eqn:?
  end.

Ltac inv_pair :=
  repeat match goal with
         | H : (_, _) = (_, _) |- _ => inversion H; subst; clear H
         end.

Section Stream.

Variable py : python.

Lemma deepcopy_raises (v : json) (e : exn) :
  deepcopy py v = inl e -> exists m, e = RecursionError m.
Proof.
  unfold deepcopy. destruct (deepcopy_error py v); intros H; inversion H; eauto.
Qed.

Lemma collect_keeps (d : list (string * json)) (ty : json) (st st' : run_state)
    (r : option exn) :
  collect py d ty st = (st', r) ->
  error_kind st' = error_kind st /\ had_error st' = had_error st /\
  session_id st' = session_id st /\ success st' = success st.
Proof.
  unfold collect. intros H.
  repeat break_match; inv_pair; auto.
Qed.

Lemma dispatch_flagged (d : list (string * json)) (ty : json) (st st' : run_state) :
  dispatch py d ty st = (st', None) -> flagged st -> flagged st'.
Proof.
  unfold dispatch, flagged, stream_kind. intros H (Hk & Hh & Hs).
  repeat break_match; inv_pair; simpl in *;
    try discriminate;
    (split; [tauto | split; [try tauto; congruence | assumption]]).
Qed.

Lemma get_raises (v : json) (k : string) (default : json) (e : exn) :
  get v k default = inl e -> e <> JSONDecodeError.
Proof.
  unfold get. destruct v; intros H; inversion H; discriminate.
Qed.

Lemma dispatch_stream_kind (d : list (string * json)) (ty : json)
    (st st' : run_state) (e : exn) :
  dispatch py d ty st = (st', Some e) ->
  stream_kind (error_kind st) ->
  stream_kind (error_kind st') /\ e <> JSONDecodeError.
Proof.
  unfold dispatch. intros H Hk.
  repeat break_match; inv_pair; simpl in *; try discriminate;
    (split; [assumption | eapply get_raises; eassumption]).
Qed.

Lemma collect_raises (d : list (string * json)) (ty : json)
    (st st' : run_state) (e : exn) :
  collect py d ty st = (st', Some e) -> st' = st /\ e <> JSONDecodeError.
Proof.
  unfold collect. intros H.
  destruct (eq_str ty "user"); [|inv_pair].
  destruct (deepcopy py (JDict d)) as [e1|v] eqn:Hd.
  - inv_pair. apply deepcopy_raises in Hd. destruct Hd as [m ->].
    split; [reflexivity|discriminate].
  - repeat break_match; inv_pair; try discriminate; split; auto; discriminate.
Qed.

Lemma interpret_flagged (ram : bool) (st st' : run_state) (line : string) :
  interpret py ram st line = (st', None) -> flagged st -> flagged st'.
Proof.
  unfold interpret. intros H Hf.
  destruct (json_loads py (py_strip py line)) as [e0|[]]; try discriminate.
  destruct ram.
  - destruct (collect py fields _ st) as [st1 [e|]] eqn:Hc; try discriminate.
    apply collect_keeps in Hc. destruct Hc as (Hk & Hh & _ & Hs).
    apply (dispatch_flagged _ _ _ _ H).
    unfold flagged in *. rewrite Hk, Hh, Hs. assumption.
  - exact (dispatch_flagged _ _ _ _ H Hf).
Qed.

(** The body of the inner [try] raises [JSONDecodeError] only from
    [json.loads], before it touches the run state. *)
Lemma interpret_raises (ram : bool) (st st' : run_state) (line : string) (e : exn) :
  interpret py ram st line = (st', Some e) ->
  stream_kind (error_kind st) ->
  stream_kind (error_kind st') /\ (e = JSONDecodeError -> st' = st).
Proof.
  unfold interpret. intros H Hk.
  destruct (json_loads py (py_strip py line)) as [e0|[]]; inv_pair;
    try (split; [assumption | intros; reflexivity || discriminate]).
  destruct ram.
  - destruct (collect py fields _ st) as [st1 [e1|]] eqn:Hc.
    + inv_pair. apply collect_raises in Hc. destruct Hc as [-> Hne].
      split; [assumption | intros ->; contradiction].
    + apply collect_keeps in Hc. destruct Hc as (Hk1 & _).
      rewrite <- Hk1 in Hk.
      destruct (dispatch_stream_kind _ _ _ _ _ H Hk) as [? Hne].
      split; [assumption | intros ->; contradiction].
  - destruct (dispatch_stream_kind _ _ _ _ _ H Hk) as [? Hne].
    split; [assumption | intros ->; contradiction].
Qed.

Lemma handle_flagged (t : tool) (st st' : run_state) (e : exn) (line : string)
    (r : loop_end) :
  handle py t st e line = (st', r) ->
  success st = true ->
  (forall x, r <> Raised x) ->
  flagged st'.
Proof.
  unfold handle, unexpected. intros H Hs Hend.
  destruct t.
  - destruct (iadd_str _ _); inv_pair.
    + exfalso. eapply Hend. reflexivity.
    + repeat split; simpl; auto.
      * right; right; reflexivity.
      * discriminate.
  - inv_pair. exfalso. eapply Hend. reflexivity.
Qed.

Lemma interpret_success (ram : bool) (st st' : run_state) (line : string)
    (r : option exn) :
  interpret py ram st line = (st', r) -> success st' = success st.
Proof.
  unfold interpret, dispatch. intros H.
  destruct (json_loads py (py_strip py line)) as [e0|[]]; inv_pair; auto.
  destruct ram.
  - destruct (collect py fields _ st) as [st1 r1] eqn:Hc.
    apply collect_keeps in Hc. destruct Hc as (_ & _ & _ & Hs).
    rewrite <- Hs.
    repeat break_match; inv_pair; reflexivity.
  - repeat break_match; inv_pair; reflexivity.
Qed.

(** When the [for] loop ends without an exception the run state is
    consistent: an error flag has its kind, and [success] is untouched. *)
Lemma consume_flagged (t : tool) (ram : bool) (lines : list string) :
  forall (st st' : run_state) (e : loop_end),
    consume py t ram st lines = (st', e) ->
    flagged st ->
    (forall x, e <> Raised x) ->
    flagged st'.
Proof.
  induction lines as [|line rest IH]; intros st st' e H Hf Hend.
  - simpl in H. inv_pair. assumption.
  - simpl in H.
    destruct (interpret py ram (push_last_line st line) line) as [st1 [x|]] eqn:Hi.
    + pose proof (interpret_raises _ _ _ _ _ Hi (proj1 Hf)) as [Hk Hsame].
      pose proof (interpret_success _ _ _ _ _ Hi) as Hs.
      assert (Hs1 : success st1 = true) by (rewrite Hs; apply Hf).
      destruct x; try exact (handle_flagged _ _ _ _ _ _ H Hs1 Hend).
      rewrite (Hsame eq_refl) in H.
      exact (IH _ _ _ H Hf Hend).
    + exact (IH _ _ _ H (interpret_flagged _ _ _ _ Hi Hf) Hend).
Qed.

End Stream.

(** ** The session identifier and the classification *)

Section Classification.

Variable py : python.

Lemma is_none_true (v : json) : is_none v = true -> v = JNull.
Proof. destruct v; simpl; intros H; discriminate || reflexivity. Qed.

Lemma dispatch_session (d : list (string * json)) (ty : json)
    (st st' : run_state) (r : option exn) :
  dispatch py d ty st = (st', r) ->
  ((eq_str ty "system" && eq_str (dict_get d "subtype" JNull) "init")
   || eq_str ty "result")
  && negb (is_none (dict_get d "session_id" JNull)) = false ->
  session_id st = JNull ->
  session_id st' = JNull.
Proof.
  unfold dispatch. intros H Hc Hs.
  destruct (is_none (dict_get d "session_id" JNull)) eqn:Hn.
  - apply is_none_true in Hn. rewrite Hn in H.
    repeat break_match; inv_pair; simpl; auto.
  - simpl in Hc. rewrite andb_true_r in Hc.
    apply orb_false_iff in Hc. destruct Hc as [Hi Hr].
    rewrite Hi, Hr in H.
    repeat break_match; inv_pair; simpl; auto.
Qed.

Lemma interpret_session (ram : bool) (st st' : run_state) (line : string)
    (r : option exn) :
  carries_session py line = false ->
  interpret py ram st line = (st', r) ->
  session_id st = JNull ->
  session_id st' = JNull.
Proof.
  unfold carries_session, interpret. intros Hc H Hs.
  destruct (json_loads py (py_strip py line)) as [e0|[]]; inv_pair; auto.
  destruct ram.
  - destruct (collect py fields _ st) as [st1 [e|]] eqn:Hcol;
      apply collect_keeps in Hcol; destruct Hcol as (_ & _ & Hsid & _).
    + inv_pair. congruence.
    + eapply dispatch_session; eauto. congruence.
  - eapply dispatch_session; eauto.
Qed.

Lemma handle_session (t : tool) (st st' : run_state) (e : exn) (line : string)
    (r : loop_end) :
  handle py t st e line = (st', r) -> session_id st' = session_id st.
Proof.
  unfold handle, unexpected. intros H.
  destruct t; [destruct (iadd_str _ _)|]; inv_pair; reflexivity.
Qed.

(** A stream in which no line carries a session identifier leaves
    [session_id] at [None]. *)
Lemma consume_session (t : tool) (ram : bool) (lines : list string) :
  forall (st st' : run_state) (e : loop_end),
    (forall line, In line lines -> carries_session py line = false) ->
    consume py t ram st lines = (st', e) ->
    session_id st = JNull ->
    session_id st' = JNull.
Proof.
  induction lines as [|line rest IH]; intros st st' e Hall H Hs; simpl in H.
  - inv_pair. assumption.
  - assert (Hline : carries_session py line = false) by (apply Hall; left; reflexivity).
    assert (Hrest : forall l, In l rest -> carries_session py l = false)
      by (intros l Hl; apply Hall; right; assumption).
    destruct (interpret py ram (push_last_line st line) line) as [st1 r] eqn:Hi.
    pose proof (interpret_session _ _ _ _ _ Hline Hi Hs) as Hs1.
    destruct r as [x|].
    + destruct x;
        try (rewrite (handle_session _ _ _ _ _ _ H); exact Hs1).
      exact (IH _ _ _ Hrest H Hs1).
    + exact (IH _ _ _ Hrest H Hs1).
Qed.

Lemma join_assistant_text_keeps (st st' : run_state) :
  join_assistant_text st = inr st' ->
  error_kind st' = error_kind st /\ had_error st' = had_error st /\
  session_id st' = session_id st /\ success st' = success st /\
  err_message st' = err_message st /\ exit_code st' = exit_code st.
Proof.
  unfold join_assistant_text, bind. intros H.
  repeat break_match; inversion H; subst; simpl; auto 10.
Qed.

(** What one guarded block of the classification leaves behind. *)
Lemma fail_with_inr (k : ErrorKind) (prefix : string) (st st' : run_state) :
  fail_with k prefix st = inr st' ->
  success st' = false /\
  error_kind st' = Some (match error_kind st with Some k0 => k0 | None => k end) /\
  (exists m, err_message st = JStr m /\
             err_message st' = JStr ((prefix ++ nl ++ nl) ++ m)) /\
  session_id st' = session_id st /\ result_content st' = result_content st /\
  exit_code st' = exit_code st.
Proof.
  unfold fail_with, bind, str_add. intros H.
  destruct (error_kind st) eqn:Hk; simpl in H; rewrite ?Hk in H; simpl in H;
    destruct (err_message st) eqn:Hm; inversion H; subst; simpl;
    rewrite ?Hk; repeat split; eauto.
Qed.

(** Without a session identifier only the first block of the
    classification acts. *)
Lemma classify_no_session (t : tool) (st st' : run_state) :
  session_id st = JNull ->
  classify t st = inr st' ->
  success st' = false /\
  error_kind st' =
    Some (match error_kind st with
          | Some k => k
          | None => PROTOCOL_MISSING_SESSION
          end) /\
  exists m, err_message st = JStr m /\
            err_message st' = JStr (("未能获取 SESSION_ID。" ++ nl ++ nl) ++ m).
Proof.
  unfold classify, bind. intros Hs H.
  set (st0 := if had_error st then set_success st false else st) in *.
  assert (H0 : session_id st0 = JNull /\ error_kind st0 = error_kind st /\
               err_message st0 = err_message st)
    by (unfold st0; destruct (had_error st); simpl; auto).
  destruct H0 as (Hs0 & Hk0 & Hm0).
  rewrite Hs0 in H. simpl is_none in H. cbv iota in H.
  destruct (fail_with PROTOCOL_MISSING_SESSION "未能获取 SESSION_ID。" st0)
    as [e|st1] eqn:Hf; [discriminate|].
  apply fail_with_inr in Hf.
  destruct Hf as (Hsucc & Hk & (m & Hm & Hm') & _ & _ & _).
  rewrite Hsucc, andb_false_r in H.
  destruct (exit_code st1);
    [rewrite Hsucc, andb_false_r in H|]; inversion H; subst.
  - rewrite <- Hk0, <- Hm0. eauto 10.
  - rewrite <- Hk0, <- Hm0. eauto 10.
Qed.

Lemma reported_stream_kind (k : option ErrorKind) (k' : ErrorKind) :
  stream_kind k ->
  In k' [PROTOCOL_MISSING_SESSION; EMPTY_RESULT; SUBPROCESS_ERROR] ->
  In (match k with Some k0 => k0 | None => k' end) reported_kinds.
Proof.
  unfold stream_kind, reported_kinds.
  intros [->|[->| ->]] Hin; simpl in *; intuition (subst; auto 12).
Qed.

(** A classification that fails an attempt names the failure. *)
Lemma classify_kind (t : tool) (st st' : run_state) :
  flagged st ->
  classify t st = inr st' ->
  success st' = false ->
  exists k, error_kind st' = Some k /\ In k reported_kinds.
Proof.
  unfold classify, bind. intros (Hk & Hh & Hs) H Hfail.
  set (st0 := if had_error st then set_success st false else st) in *.
  assert (H0 : error_kind st0 = error_kind st /\
               (success st0 = false -> error_kind st0 <> None))
    by (unfold st0; destruct (had_error st); simpl; split; auto; congruence).
  destruct H0 as (Hk0 & Hflag0).
  assert (Hk0' : stream_kind (error_kind st0)) by (rewrite Hk0; exact Hk).
  clearbody st0. clear Hk Hh Hs Hk0 st.
  assert (Hstep : forall (k' : ErrorKind) (prefix : string) (s s' : run_state),
             In k' [PROTOCOL_MISSING_SESSION; EMPTY_RESULT; SUBPROCESS_ERROR] ->
             stream_kind (error_kind s) ->
             fail_with k' prefix s = inr s' ->
             stream_kind (error_kind s) /\
             (exists k, error_kind s' = Some k /\ In k reported_kinds) /\
             success s' = false).
  { intros k' prefix s s' Hin Hsk Hf. apply fail_with_inr in Hf.
    destruct Hf as (Hsucc & Hkk & _). repeat split; auto.
    eexists. split; [exact Hkk|]. apply reported_stream_kind; assumption. }
  assert (Hdone : forall s, stream_kind (error_kind s) ->
             (success s = false -> error_kind s <> None) ->
             success s = false ->
             exists k, error_kind s = Some k /\ In k reported_kinds).
  { intros s Hsk Hfl Hsf. specialize (Hfl Hsf).
    destruct Hsk as [Hn|[Hu|Hu]]; [contradiction| |];
      rewrite Hu; eexists; (split; [reflexivity|]);
      unfold reported_kinds; simpl; auto 12. }
  destruct (is_none (session_id st0)).
  - destruct (fail_with PROTOCOL_MISSING_SESSION _ st0) as [e|st1] eqn:Hf1;
      [discriminate|].
    destruct (Hstep PROTOCOL_MISSING_SESSION _ _ _ ltac:(simpl; auto) Hk0' Hf1)
      as (_ & Hex & Hsucc).
    rewrite Hsucc, andb_false_r in H.
    destruct (exit_code st1); [rewrite Hsucc, andb_false_r in H|];
      inversion H; subst; exact Hex.
  - destruct (negb (truthy (result_content st0)) && success st0) eqn:Hempty.
    + destruct (fail_with EMPTY_RESULT _ st0) as [e|st1] eqn:Hf1; [discriminate|].
      destruct (Hstep EMPTY_RESULT _ _ _ ltac:(simpl; auto) Hk0' Hf1)
        as (_ & Hex & Hsucc).
      destruct (exit_code st1); [rewrite Hsucc, andb_false_r in H|];
        inversion H; subst; exact Hex.
    + destruct (exit_code st0) as [code|] eqn:Hcode.
      * destruct (negb (code =? 0) && success st0) eqn:Hexit.
        -- destruct (Hstep SUBPROCESS_ERROR _ _ _ ltac:(simpl; auto) Hk0' H)
             as (_ & Hex & _).
           exact Hex.
        -- inversion H; subst. apply Hdone; auto.
      * inversion H; subst. apply Hdone; auto.
Qed.

End Classification.

(** ** The retry loop *)

Section Loop.

Variable py : python.
Variable t : tool.
Variable c : config.
Variable w : world.

Lemma backoff_schedule_S (n : nat) :
  backoff_schedule (S n)
  = (backoff_schedule n ++ [((1 # 2) * inject_Z (2 ^ Z.of_nat n))%Q])%list.
Proof.
  unfold backoff_schedule. rewrite seq_S, map_app. reflexivity.
Qed.

Lemma backoff_next (retries : Z) :
  0 <= retries ->
  (backoff_schedule (Z.to_nat retries) ++ [backoff (retries + 1)])%list
  = backoff_schedule (Z.to_nat (retries + 1)).
Proof.
  intros H. replace (Z.to_nat (retries + 1)) with (S (Z.to_nat retries)) by lia.
  rewrite backoff_schedule_S. unfold backoff.
  rewrite Z2Nat.id by assumption.
  replace (retries + 1 - 1) with retries by lia. reflexivity.
Qed.

(** Everything the code after the loop can rely on: the loop ends, it ran
    at least one and at most [max_retries + 1] passes, it slept the
    back-off schedule, every pass but the last was a failed
    classification, and the way the loop is left is the last pass's
    doing. *)
Lemma retry_loop_spec :
  forall (fuel : nat) (retries : Z) (prev : option run_state)
         (le : option last_error_t) (all : list string) (tr : trace)
         (ex : loop_exit) (tr' : trace),
    retry_loop py t c w fuel retries prev le all tr = (ex, tr') ->
    0 <= retries <= max_retries c ->
    (Z.to_nat (max_retries c - retries) < fuel)%nat ->
    attempts tr = Z.to_nat retries ->
    sleeps tr = backoff_schedule (Z.to_nat retries) ->
    (attempts tr < attempts tr')%nat /\
    Z.of_nat (attempts tr') <= max_retries c + 1 /\
    sleeps tr' = backoff_schedule (pred (attempts tr')) /\
    (forall i, (attempts tr <= i < pred (attempts tr'))%nat ->
               is_failure (pass_of py t c (runs w i)) = true) /\
    exit_matches py t c (pred (attempts tr'))
      (pass_of py t c (runs w (pred (attempts tr')))) ex.
Proof.
  induction fuel as [|fuel IH];
    intros retries prev le all tr ex tr' H Hr Hfuel Hatt Hsl; [lia|].
  simpl in H.
  destruct (retries <=? max_retries c) eqn:Hle; [|apply Z.leb_gt in Hle; lia].
  assert (Hlast : forall p ex0,
             pass_of py t c (runs w (attempts tr)) = p ->
             exit_matches py t c (attempts tr) p ex0 ->
             forall tr0, attempts tr0 = S (attempts tr) -> sleeps tr0 = sleeps tr ->
             (attempts tr < attempts tr0)%nat /\
             Z.of_nat (attempts tr0) <= max_retries c + 1 /\
             sleeps tr0 = backoff_schedule (pred (attempts tr0)) /\
             (forall i, (attempts tr <= i < pred (attempts tr0))%nat ->
                        is_failure (pass_of py t c (runs w i)) = true) /\
             exit_matches py t c (pred (attempts tr0))
               (pass_of py t c (runs w (pred (attempts tr0)))) ex0).
  { intros p ex0 Hp Hex tr0 Ha Hs. rewrite Ha, Hs. simpl.
    split; [lia|]. split; [lia|]. split; [congruence|].
    split; [intros i Hi; lia|]. rewrite Hp. exact Hex. }
  assert (Hidx : retries = Z.of_nat (attempts tr))
    by (rewrite Hatt, Z2Nat.id; lia).
  destruct (runs w (attempts tr)) as [| |ch] eqn:Hrun.
  - inv_pair. eapply Hlast; simpl; eauto.
  - inv_pair. eapply Hlast; simpl; eauto.
  - simpl in Hlast. destruct (generator c ch) as [lines fin] eqn:Hgen.
    destruct (run_attempt py t c lines fin) as [e|st|st] eqn:Hatm.
    + inv_pair. eapply Hlast; simpl; eauto.
    + inv_pair. eapply Hlast; simpl; eauto.
    + destruct (success st) eqn:Hsucc.
      * inv_pair. eapply Hlast; simpl; eauto.
      * destruct (retries <? max_retries c) eqn:Hlt.
        -- apply Z.ltb_lt in Hlt.
           apply IH in H; simpl; try lia.
           ++ simpl in H. destruct H as (Ha & Hb & Hc & Hd & He).
              repeat split; try lia; auto.
              intros i Hi.
              destruct (Nat.eq_dec i (attempts tr)) as [->|Hne].
              ** rewrite Hrun. simpl. rewrite Hgen, Hatm, Hsucc. reflexivity.
              ** apply Hd. lia.
           ++ rewrite Hsl. apply backoff_next. lia.
        -- apply Z.ltb_ge in Hlt. inv_pair.
           eapply Hlast; simpl; eauto. repeat split; auto. lia.
Qed.

End Loop.

(** ** Passes and the tool function *)

Section Tool.

Variable py : python.
Variable t : tool.
Variable c : config.

Lemma run_attempt_timeout (lines : list string) (fin : finish) (st : run_state) :
  run_attempt py t c lines fin = ATimeout st ->
  success st = false /\
  (error_kind st = Some TIMEOUT \/ error_kind st = Some IDLE_TIMEOUT) /\
  exists k st0,
    fin = TimedOut k /\
    consume py t (return_all_messages c) init_state lines = (st0, Exhausted) /\
    st = on_timeout st0 (timeout_message t c k) (is_idle k).
Proof.
  unfold run_attempt. intros H.
  destruct (consume py t (return_all_messages c) init_state lines)
    as [st0 [| |e]] eqn:Hc.
  - destruct fin as [code raw|k].
    + destruct (bind _ _); discriminate.
    + inversion H; subst. simpl. repeat split.
      * destruct (is_idle k); simpl; auto.
      * exists k, st0. auto.
  - destruct (bind _ _); discriminate.
  - discriminate.
Qed.

Lemma init_state_flagged : flagged init_state.
Proof.
  unfold flagged, stream_kind. simpl. repeat split; auto. discriminate.
Qed.

Lemma run_attempt_done (lines : list string) (fin : finish) (st : run_state) :
  run_attempt py t c lines fin = ADone st ->
  success st = false ->
  exists k, error_kind st = Some k /\ In k reported_kinds.
Proof.
  unfold run_attempt. intros H Hfail.
  destruct (consume py t (return_all_messages c) init_state lines)
    as [st0 e] eqn:Hc.
  assert (Hgo : flagged st0 ->
             match (s <- join_assistant_text st0 ;; classify t s) with
             | inl e => ARaise e
             | inr st2 => ADone st2
             end = ADone st ->
             exists k, error_kind st = Some k /\ In k reported_kinds).
  { intros Hf0 Hd. unfold bind in Hd.
    destruct (join_assistant_text st0) as [x|st1] eqn:Hj; [discriminate|].
    destruct (classify t st1) as [x|st2] eqn:Hcl; [discriminate|].
    inversion Hd; subst.
    apply join_assistant_text_keeps in Hj.
    destruct Hj as (Hk & Hh & _ & Hs & _).
    apply (classify_kind t st1 st); auto.
    unfold flagged in *. rewrite Hk, Hh, Hs. exact Hf0. }
  destruct e as [| |x].
  - destruct fin; [|discriminate].
    apply Hgo; auto.
    eapply consume_flagged; eauto using init_state_flagged. discriminate.
  - apply Hgo; auto.
    eapply consume_flagged; eauto using init_state_flagged. discriminate.
  - discriminate.
Qed.

(** The verdict of an attempt whose lines carry no session identifier. *)
Lemma attempt_without_session (lines : list string) (fin : finish) (st : run_state) :
  (forall line, In line lines -> carries_session py line = false) ->
  run_attempt py t c lines fin = ADone st ->
  let read := error_kind (fst (consume py t (return_all_messages c) init_state lines)) in
  success st = false /\
  stream_kind read /\
  error_kind st =
    Some (match read with Some k => k | None => PROTOCOL_MISSING_SESSION end) /\
  exists m, err_message st = JStr (("未能获取 SESSION_ID。" ++ nl ++ nl) ++ m).
Proof.
  unfold run_attempt. intros Hnone H.
  destruct (consume py t (return_all_messages c) init_state lines)
    as [st0 e] eqn:Hc. cbn [fst].
  assert (Hsid : session_id st0 = JNull)
    by (eapply consume_session; eauto).
  assert (Hgo : match (s <- join_assistant_text st0 ;; classify t s) with
                | inl e => ARaise e
                | inr st2 => ADone st2
                end = ADone st /\ flagged st0).
  { destruct e as [| |x];
      [destruct fin as [code raw|k]; [|discriminate]| |discriminate];
      (split; [assumption|]);
      eapply consume_flagged; eauto using init_state_flagged; discriminate. }
  clear H. destruct Hgo as [H Hf]. unfold bind in H.
  destruct (join_assistant_text st0) as [x|st1] eqn:Hj; [discriminate|].
  destruct (classify t st1) as [x|st2] eqn:Hcl; [discriminate|].
  inversion H; subst.
  apply join_assistant_text_keeps in Hj.
  destruct Hj as (Hk & _ & Hs & _ & Hm & _).
  apply classify_no_session in Hcl; [|congruence].
  destruct Hcl as (Hsucc & Hkind & m & Hm0 & Hm1).
  rewrite Hk in Hkind.
  split; [assumption|]. split; [apply Hf|]. split; [assumption|].
  exists m. exact Hm1.
Qed.

Lemma pass_of_timeout (r : run) (st : run_state) :
  pass_of py t c r = PTimeout st ->
  success st = false /\
  (error_kind st = Some TIMEOUT \/ error_kind st = Some IDLE_TIMEOUT).
Proof.
  unfold pass_of. intros H. destruct r as [| |ch]; try discriminate.
  destruct (generator c ch) as [lines fin].
  destruct (run_attempt py t c lines fin) as [e|st1|st1] eqn:Ha; try discriminate.
  - inversion H; subst. apply run_attempt_timeout in Ha. tauto.
  - destruct (success st1); discriminate.
Qed.

Lemma pass_of_success (r : run) (st : run_state) :
  pass_of py t c r = PSuccess st -> success st = true.
Proof.
  unfold pass_of. intros H. destruct r as [| |ch]; try discriminate.
  destruct (generator c ch) as [lines fin].
  destruct (run_attempt py t c lines fin) as [e|st1|st1]; try discriminate.
  destruct (success st1) eqn:Hs; inversion H; subst. assumption.
Qed.

Lemma pass_of_failure (r : run) (st : run_state) :
  pass_of py t c r = PFailure st ->
  success st = false /\ exists k, error_kind st = Some k /\ In k reported_kinds.
Proof.
  unfold pass_of. intros H. destruct r as [| |ch]; try discriminate.
  destruct (generator c ch) as [lines fin].
  destruct (run_attempt py t c lines fin) as [e|st1|st1] eqn:Ha; try discriminate.
  destruct (success st1) eqn:Hs; inversion H; subst.
  split; [assumption|]. eapply run_attempt_done; eauto.
Qed.

(** The dict [_build_error_detail] returns, when the filter returns. *)
Lemma build_error_detail_inr (message : string) (code : option Z)
    (lines : list string) (errors : Z) (idle ceiling : option Z) (retries : Z)
    (d : Detail.t) :
  _build_error_detail py t message code lines errors idle ceiling retries = inr d ->
  Detail.message d = message /\
  Detail.exit_code d = code /\
  match lines with
  | [] => Detail.last_lines d = None
  | _ => exists filtered,
           _filter_last_lines py lines 50 = inr filtered /\
           Detail.last_lines d = Some filtered
  end /\
  Detail.json_decode_errors d = (if 0 <? errors then Some errors else None) /\
  Detail.idle_timeout_s d = idle /\
  Detail.max_duration_s d = ceiling /\
  Detail.suggestion d
  = match t with
    | Claude => None
    | Coder =>
        match ceiling, idle with
        | Some _, _ => Some duration_suggestion
        | None, Some _ => Some idle_suggestion
        | None, None => None
        end
    end /\
  Detail.retries d = (if 0 <? retries then Some retries else None).
Proof.
  unfold _build_error_detail, bind. intros H.
  destruct lines as [|line rest].
  - inversion H; subst; simpl. repeat split.
  - destruct (_filter_last_lines py (line :: rest) 50) as [e|filtered] eqn:Hf;
      [discriminate|].
    inversion H; subst; simpl. repeat split. eauto.
Qed.

(** The failure dict built after the loop from the saved error. *)
Lemma finalize_failure (st : run_state) (retries : Z) (all : list string)
    (o : Outcome.t) :
  success st = false ->
  finalize py t c (Some st) retries (Some (save_error st)) all = Return o ->
  Outcome.success o = false /\
  Outcome.error_kind o = error_kind st /\
  Outcome.error o = Some (err_message st) /\
  exists d, Outcome.error_detail o = Some d /\
            detail_message (err_message st) = inr (Detail.message d).
Proof.
  unfold finalize. intros Hs H. rewrite Hs in H.
  destruct (metrics_finish (result_content st)); [discriminate|].
  cbn [save_error le_err_message le_error_kind le_exit_code
       le_json_decode_errors] in H.
  destruct (detail_message (err_message st)) as [e|m] eqn:Hm; [discriminate|].
  unfold bind in H.
  destruct (_build_error_detail py t m _ _ _ _ _ _) as [e|d] eqn:Hd;
    [discriminate|].
  inversion H; subst; simpl. repeat split. exists d. split; [reflexivity|].
  apply build_error_detail_inr in Hd. destruct Hd as (-> & _). reflexivity.
Qed.

Lemma finalize_success (st : run_state) (retries : Z)
    (le : option last_error_t) (all : list string) (o : Outcome.t) :
  success st = true ->
  finalize py t c (Some st) retries le all = Return o ->
  Outcome.success o = true.
Proof.
  unfold finalize. intros Hs H. rewrite Hs in H.
  destruct (metrics_finish (result_content st)); [discriminate|].
  inversion H; subst; reflexivity.
Qed.

Variable w : world.

(** The three ways a call of the tool function goes. *)
Lemma tool_fn_cases (res : tool_result) (tr : trace) :
  tool_fn py t c w = (res, tr) ->
  (exists e, config_load w = Some e /\ tr = no_trace /\
     res = Return (early_failure py t CONFIG_ERROR ("配置加载失败：" ++ e))) \/
  (config_load w = None /\ max_retries c < 0 /\ tr = no_trace /\
     res = Raise UnboundLocalError) \/
  (config_load w = None /\ 0 <= max_retries c /\
   exists ex,
     res = match ex with
           | Returning o => Return o
           | Raising e => Raise e
           | Left prev retries le all => finalize py t c prev retries le all
           | OutOfFuel => Diverge
           end /\
     (0 < attempts tr)%nat /\
     Z.of_nat (attempts tr) <= max_retries c + 1 /\
     sleeps tr = backoff_schedule (pred (attempts tr)) /\
     (forall i, (i < pred (attempts tr))%nat ->
                is_failure (pass_of py t c (runs w i)) = true) /\
     exit_matches py t c (pred (attempts tr))
       (pass_of py t c (runs w (pred (attempts tr)))) ex).
Proof.
  unfold tool_fn. intros H.
  destruct (config_load w) as [e|] eqn:Hcfg.
  - left. inv_pair. eauto.
  - right.
    destruct (Z_lt_le_dec (max_retries c) 0) as [Hneg|Hpos].
    + left. replace (Z.to_nat (max_retries c + 1)) with 0%nat in H by lia.
      simpl in H.
      destruct (0 <=? max_retries c) eqn:Hle; [apply Z.leb_le in Hle; lia|].
      inv_pair. auto.
    + right. split; [reflexivity|]. split; [assumption|].
      destruct (retry_loop py t c w (Z.to_nat (max_retries c + 1)) 0 None None []
                  no_trace) as [ex tr0] eqn:Hloop.
      exists ex.
      apply retry_loop_spec in Hloop; simpl; try lia; try reflexivity.
      simpl in Hloop. destruct Hloop as (Ha & Hb & Hc & Hd & He).
      assert (tr0 = tr /\
              res = match ex with
                    | Returning o => Return o
                    | Raising e => Raise e
                    | Left prev retries le all => finalize py t c prev retries le all
                    | OutOfFuel => Diverge
                    end) as [-> ->]
        by (destruct ex; inv_pair; auto).
      repeat split; auto. intros i Hi. apply Hd. lia.
Qed.

(** The retry loop is total: the model's fuel always suffices. *)
Lemma tool_fn_terminates : fst (tool_fn py t c w) <> Diverge.
Proof.
  destruct (tool_fn py t c w) as [res tr] eqn:H. simpl.
  apply tool_fn_cases in H.
  destruct H as [(e & _ & _ & ->)|[(_ & _ & _ & ->)|(_ & _ & ex & -> & _ & _ & _ & _ & He)]];
    try discriminate.
  destruct ex as [o|e|prev r le all|]; try discriminate; [|contradiction].
  simpl in He. destruct He as [_ He].
  destruct (pass_of py t c _) eqn:Hp; try contradiction.
  - destruct He as (-> & -> & ->). unfold finalize.
    repeat break_match; discriminate.
  - subst. unfold finalize. repeat break_match; discriminate.
  - destruct He as (-> & -> & -> & _). unfold finalize.
    repeat break_match; discriminate.
Qed.

End Tool.

(** ** Retrying *)

(** A pass that is retried went through the classification and failed
    there. *)
Lemma is_failure_classified (py : python) (t : tool) (c : config) (r : run) :
  is_failure (pass_of py t c r) = true ->
  exists ch st,
    r = Spawned ch /\
    run_attempt py t c (fst (generator c ch)) (snd (generator c ch)) = ADone st /\
    success st = false.
Proof.
  unfold pass_of.
  destruct r as [| |ch]; try (intros H; simpl in H; discriminate H).
  destruct (generator c ch) as [lines fin] eqn:Hg.
  destruct (run_attempt py t c lines fin) as [e|st|st] eqn:Ha;
    try (intros H; simpl in H; discriminate H).
  destruct (success st) eqn:Hs; try (intros H; simpl in H; discriminate H).
  intros _. exists ch, st. rewrite Hg. auto.
Qed.

(** The pass in which the generator raises its timeout while the [for]
    statement is iterating it. *)
Lemma pass_of_timed_out (py : python) (t : tool) (c : config) (ch : child)
    (lines : list string) (k : timeout_cause) (st0 : run_state) :
  generator c ch = (lines, TimedOut k) ->
  consume py t (return_all_messages c) init_state lines = (st0, Exhausted) ->
  run_attempt py t c lines (TimedOut k)
  = ATimeout (on_timeout st0 (timeout_message t c k) (is_idle k)) /\
  pass_of py t c (Spawned ch)
  = PTimeout (on_timeout st0 (timeout_message t c k) (is_idle k)).
Proof.
  intros Hgen Hc. unfold pass_of, run_attempt. rewrite Hgen, Hc. auto.
Qed.

(** What the tool function does after such a pass. *)
Lemma timed_out_pass_is_last (py : python) (t : tool) (c : config) (w : world)
    (n : nat) (res : tool_result) (tr : trace) (ch : child)
    (lines : list string) (k : timeout_cause) (st0 : run_state) :
  tool_fn py t c w = (res, tr) ->
  (n < attempts tr)%nat ->
  runs w n = Spawned ch ->
  generator c ch = (lines, TimedOut k) ->
  consume py t (return_all_messages c) init_state lines = (st0, Exhausted) ->
  attempts tr = S n /\
  sleeps tr = backoff_schedule n /\
  (forall i, (i < n)%nat -> is_failure (pass_of py t c (runs w i)) = true) /\
  forall o, res = Return o ->
            Outcome.success o = false /\
            Outcome.error_kind o
            = Some (match k with
                    | Idle => IDLE_TIMEOUT
                    | Duration | ProcessWait => TIMEOUT
                    end) /\
            Outcome.error o = Some (JStr (timeout_message t c k)).
Proof.
  intros H Hn Hrun Hgen Hc.
  destruct (pass_of_timed_out py t c ch lines k st0 Hgen Hc) as [_ Hp].
  rewrite <- Hrun in Hp.
  apply tool_fn_cases in H.
  destruct H as [(e & _ & -> & _)|[(_ & _ & -> & _)|H]]; try (simpl in Hn; lia).
  destruct H as (_ & _ & ex & -> & Hpos & _ & Hsl & Hfail & Hex).
  assert (Hlast : n = pred (attempts tr)).
  { destruct (Nat.eq_dec n (pred (attempts tr))) as [|Hne]; [assumption|].
    assert (Hf : is_failure (pass_of py t c (runs w n)) = true) by (apply Hfail; lia).
    rewrite Hp in Hf. discriminate. }
  subst n. split; [lia|]. split; [assumption|]. split; [assumption|].
  rewrite Hp in Hex.
  destruct ex as [o'|e|prev r le all|]; simpl in Hex;
    try contradiction; try (destruct Hex; discriminate); try discriminate.
  destruct Hex as (_ & -> & -> & ->).
  intros o Ho. apply finalize_failure in Ho; [|reflexivity].
  destruct Ho as (Hos & Hok & Herr & _). rewrite Hok, Herr.
  split; [assumption|]. split; [destruct k; reflexivity|reflexivity].
Qed.

(** C1, as the code has it.  Only the passes that end in the
    classification with a failure verdict are retried: every pass of an
    invocation but the last is one.  A pass in which the generator raises
    a timeout while it is iterated is the last pass: whatever remains of
    [max_retries], no back-off sleep and no further pass follow it, and a
    returned outcome is a failure whose kind is that of the timeout raised,
    [idle_timeout] for the idle window and [timeout] otherwise, with the
    text of the timeout as its error. *)
Theorem timeout_ends_invocation (py : python) (t : tool) (c : config) (w : world)
    (res : tool_result) (tr : trace) :
  tool_fn py t c w = (res, tr) ->
  (forall i, (S i < attempts tr)%nat ->
             exists chi st,
               runs w i = Spawned chi /\
               run_attempt py t c (fst (generator c chi)) (snd (generator c chi))
               = ADone st /\
               success st = false) /\
  (forall (n : nat) (ch : child) (lines : list string) (k : timeout_cause)
          (st0 : run_state),
     (n < attempts tr)%nat ->
     runs w n = Spawned ch ->
     generator c ch = (lines, TimedOut k) ->
     consume py t (return_all_messages c) init_state lines = (st0, Exhausted) ->
     attempts tr = S n /\
     sleeps tr = backoff_schedule n /\
     forall o, res = Return o ->
               Outcome.success o = false /\
               Outcome.error_kind o
               = Some (match k with
                       | Idle => IDLE_TIMEOUT
                       | Duration | ProcessWait => TIMEOUT
                       end) /\
               Outcome.error o = Some (JStr (timeout_message t c k))).
Proof.
  intros H. split.
  - intros i Hi. apply is_failure_classified.
    apply tool_fn_cases in H.
    destruct H as [(e & _ & -> & _)|[(_ & _ & -> & _)|H]]; try (simpl in Hi; lia).
    destruct H as (_ & _ & ex & _ & _ & _ & _ & Hfail & _).
    apply Hfail. lia.
  - intros n ch lines k st0 Hn Hrun Hgen Hc.
    destruct (timed_out_pass_is_last py t c w n res tr ch lines k st0
                H Hn Hrun Hgen Hc) as (Ha & Hsl & _ & Hout).
    auto.
Qed.

(** C4.  In a poll cycle the supervisor reaches while the tool function is
    iterating the generator (no line yielded so far made it leave the
    loop), when [max_duration > 0] and both the time since start has
    reached [max_duration] and the time since the last activity has reached
    the idle timeout, the duration check wins: the generator raises the
    non-idle timeout, the attempt ends as a failure of kind [timeout] with
    the text of the duration timeout, and an outcome the tool function
    returns after this pass has the kind [timeout], not [idle_timeout]. *)
Theorem duration_precedes_idle (py : python) (t : tool) (c : config) (ch : child)
    (i : nat) (last : Q) (st0 : run_state) :
  (i <= length (polls ch))%nat ->
  reaches c (start_time ch) (first_activity ch) (firstn i (polls ch)) = Some last ->
  0 < max_duration c ->
  elapsed_ge (cycle_clock ch i) (start_time ch) (max_duration c) = true ->
  elapsed_ge (cycle_clock ch i) last (timeout c) = true ->
  consume py t (return_all_messages c) init_state (fst (generator c ch))
  = (st0, Exhausted) ->
  snd (generator c ch) = TimedOut Duration /\
  (exists st,
     run_attempt py t c (fst (generator c ch)) (snd (generator c ch))
     = ATimeout st /\
     success st = false /\
     error_kind st = Some TIMEOUT /\
     err_message st = JStr (timeout_message t c Duration)) /\
  (forall (w : world) (n : nat) (res : tool_result) (tr : trace) (o : Outcome.t),
     runs w n = Spawned ch ->
     tool_fn py t c w = (res, tr) ->
     (n < attempts tr)%nat ->
     res = Return o ->
     attempts tr = S n /\
     Outcome.success o = false /\
     Outcome.error_kind o = Some TIMEOUT).
Proof.
  intros Hi Hreach Hpos Hdur _ Hc.
  destruct (supervise_duration_first c (start_time ch) (end_now ch) (polls ch)
              i (first_activity ch) last Hi Hreach Hpos Hdur) as [ys Hys].
  assert (Hgen : generator c ch = (ys, TimedOut Duration))
    by (unfold generator; rewrite Hys; reflexivity).
  rewrite Hgen in *. cbn [fst snd] in *.
  destruct (pass_of_timed_out py t c ch ys Duration st0 Hgen Hc) as [Ha _].
  split; [reflexivity|]. split.
  - eexists. split; [exact Ha|]. repeat split.
  - intros w n res tr o Hrun H Hn Ho.
    destruct (timed_out_pass_is_last py t c w n res tr ch ys Duration st0
                H Hn Hrun Hgen Hc) as (Hatt & _ & _ & Hout).
    destruct (Hout o Ho) as (Hs & Hk & _). auto.
Qed.

(** C5. When the executable cannot be resolved the tool function returns at
    once, for every retry budget: the outcome is the failure of kind
    [command_not_found], one lookup was made, no child was spawned and no
    back-off sleep happened. *)
Theorem command_not_found_aborts (py : python) (t : tool) (c : config) (w : world) :
  config_load w = None ->
  0 <= max_retries c ->
  runs w 0 = NotFound ->
  exists o,
    tool_fn py t c w = (Return o, {| attempts := 1; spawned := 0; sleeps := [] |}) /\
    Outcome.success o = false /\
    Outcome.error_kind o = Some COMMAND_NOT_FOUND /\
    Outcome.error o = Some (JStr (not_found_message t)).
Proof.
  intros Hcfg Hpos Hrun.
  exists (early_failure py t COMMAND_NOT_FOUND (not_found_message t)).
  repeat split. unfold tool_fn. rewrite Hcfg.
  replace (Z.to_nat (max_retries c + 1)) with (S (Z.to_nat (max_retries c))) by lia.
  simpl. apply Z.leb_le in Hpos. rewrite Hpos, Hrun. reflexivity.
Qed.

(** The same at any pass: an unresolved executable in pass [n] ends the
    invocation there. *)
Lemma command_not_found_at_any_pass (py : python) (t : tool) (c : config)
    (w : world) (n : nat) (res : tool_result) (tr : trace) :
  tool_fn py t c w = (res, tr) ->
  (n < attempts tr)%nat ->
  runs w n = NotFound ->
  attempts tr = S n /\
  sleeps tr = backoff_schedule n /\
  res = Return (early_failure py t COMMAND_NOT_FOUND (not_found_message t)).
Proof.
  intros H Hn Hrun. apply tool_fn_cases in H.
  destruct H as [(e & _ & -> & _)|[(_ & _ & -> & _)|H]]; try (simpl in Hn; lia).
  destruct H as (_ & _ & ex & -> & Hpos & _ & Hsl & Hfail & Hex).
  assert (Hlast : n = pred (attempts tr)).
  { destruct (Nat.eq_dec n (pred (attempts tr))) as [|Hne]; [assumption|].
    assert (Hf : is_failure (pass_of py t c (runs w n)) = true) by (apply Hfail; lia).
    rewrite Hrun in Hf. discriminate. }
  subst n. split; [lia|]. split; [assumption|].
  rewrite Hrun in Hex. simpl in Hex.
  destruct ex as [o|e|prev r le all|]; simpl in Hex; try contradiction.
  - destruct Hex as [_ ->]. reflexivity.
  - discriminate.
  - destruct Hex as [_ []].
Qed.

(** C9, as the code has it.  The passes are numbered from 0.  The sleeps of
    an invocation are exactly [0.5 * 2^k] for every pass [k] but the last,
    in order; every pass followed by a sleep is a failed classification
    (not a timeout, not an unresolved executable); after [n] such failures
    within the budget pass [n] is run; and at most [max_retries + 1] passes
    are run. *)
Theorem retry_schedule (py : python) (t : tool) (c : config) (w : world) :
  let tr := snd (tool_fn py t c w) in
  sleeps tr = backoff_schedule (pred (attempts tr)) /\
  Z.of_nat (attempts tr) <= Z.max 0 (max_retries c + 1) /\
  (forall i, (i < pred (attempts tr))%nat ->
             is_failure (pass_of py t c (runs w i)) = true) /\
  (forall n, config_load w = None ->
             Z.of_nat n <= max_retries c ->
             (forall i, (i < n)%nat ->
                        is_failure (pass_of py t c (runs w i)) = true) ->
             (n < attempts tr)%nat).
Proof.
  destruct (tool_fn py t c w) as [res tr] eqn:H. simpl.
  apply tool_fn_cases in H.
  destruct H as [(e & Hcfg & -> & _)|[(Hcfg & Hneg & -> & _)|H]].
  - simpl. repeat split; try reflexivity; try lia.
    intros n Hnone. congruence.
  - simpl. repeat split; try reflexivity; try lia.
  - destruct H as (_ & Hpos & ex & _ & Ha & Hb & Hsl & Hfail & Hex).
    repeat split; try lia; auto.
    intros n _ Hn Hall.
    destruct (Nat.lt_ge_cases n (attempts tr)) as [|Hge]; [assumption|exfalso].
    assert (Hf : is_failure (pass_of py t c (runs w (pred (attempts tr)))) = true)
      by (apply Hall; lia).
    destruct (pass_of py t c (runs w (pred (attempts tr)))); try discriminate.
    destruct ex as [o|e|prev r le all|]; simpl in Hex;
      try contradiction; try (destruct Hex; discriminate); try discriminate.
    destruct Hex as (Hr & _ & _ & _ & Hmax). lia.
Qed.

(** ** The failure outcome *)

(** C10. A returned outcome whose success flag is false carries an error
    kind, and the kind is one of the nine reported kinds. *)
Theorem failure_has_kind (py : python) (t : tool) (c : config) (w : world)
    (o : Outcome.t) :
  fst (tool_fn py t c w) = Return o ->
  Outcome.success o = false ->
  exists k, Outcome.error_kind o = Some k /\ In k reported_kinds.
Proof.
  destruct (tool_fn py t c w) as [res tr] eqn:H. simpl. intros -> Hfail.
  apply tool_fn_cases in H.
  destruct H as [(e & _ & _ & Ho)|[(_ & _ & _ & Ho)|H]]; try discriminate.
  - inversion Ho; subst. eexists. split; [reflexivity|].
    unfold reported_kinds; simpl; auto 12.
  - destruct H as (_ & _ & ex & Ho & _ & _ & _ & _ & Hex).
    destruct ex as [o'|e|prev r le all|]; simpl in Hex; try discriminate.
    + destruct Hex as [_ ->]. inversion Ho; subst.
      eexists. split; [reflexivity|]. unfold reported_kinds; simpl; auto 12.
    + destruct Hex as [_ Hex]. symmetry in Ho.
      destruct (pass_of py t c (runs w (pred (attempts tr)))) as [|e|st|st|st] eqn:Hp;
        try contradiction.
      * destruct Hex as (-> & -> & ->).
        destruct (pass_of_timeout _ _ _ _ _ Hp) as [Hs Hk].
        apply finalize_failure in Ho; [|assumption].
        destruct Ho as (_ & Hok & _). rewrite Hok.
        destruct Hk as [-> | ->]; eexists; (split; [reflexivity|]);
          unfold reported_kinds; simpl; auto 12.
      * subst prev. apply pass_of_success in Hp.
        apply finalize_success in Ho; [congruence|assumption].
      * destruct Hex as (-> & -> & -> & _).
        destruct (pass_of_failure _ _ _ _ _ Hp) as [Hs Hk].
        apply finalize_failure in Ho; [|assumption].
        destruct Ho as (_ & Hok & _). rewrite Hok. exact Hk.
Qed.

(** C3, as the code has it.  In a failure outcome built after the retry
    loop the top-level [error] field is the whole error message of the
    last pass, as the line loop, the classification or the timeout handler
    left it, and [error_detail.message] is only its first line (a fixed
    text when the message is empty); in the two outcomes built before any
    line was read, [config_error] and [command_not_found], both fields are
    the same whole message. *)
Theorem failure_message_fields (py : python) (t : tool) (c : config) (w : world)
    (o : Outcome.t) (tr : trace) :
  tool_fn py t c w = (Return o, tr) ->
  Outcome.success o = false ->
  exists d,
    Outcome.error_detail o = Some d /\
    ((exists msg,
        (Outcome.error_kind o = Some CONFIG_ERROR \/
         Outcome.error_kind o = Some COMMAND_NOT_FOUND) /\
        Outcome.error o = Some (JStr msg) /\
        Detail.message d = msg) \/
     (exists st,
        (pass_of py t c (runs w (pred (attempts tr))) = PFailure st \/
         pass_of py t c (runs w (pred (attempts tr))) = PTimeout st) /\
        Outcome.error o = Some (err_message st) /\
        ((exists m, err_message st = JStr m /\ m <> "" /\
                    Detail.message d = first_line m) \/
         (truthy (err_message st) = false /\
          Detail.message d = "未知错误")))).
Proof.
  intros H Hfail.
  apply tool_fn_cases in H.
  destruct H as [(e & _ & _ & Ho)|[(_ & _ & _ & Ho)|H]]; try discriminate.
  - inversion Ho; subst. simpl. eexists. split; [reflexivity|].
    left. eexists. split; [left; reflexivity|]. split; reflexivity.
  - destruct H as (_ & _ & ex & Ho & _ & _ & _ & _ & Hex).
    assert (Hmsg : forall st d,
               Outcome.error o = Some (err_message st) ->
               detail_message (err_message st) = inr (Detail.message d) ->
               (exists m, err_message st = JStr m /\ m <> "" /\
                          Detail.message d = first_line m) \/
               (truthy (err_message st) = false /\
                Detail.message d = "未知错误")).
    { intros st d _ Hm. unfold detail_message in Hm.
      destruct (truthy (err_message st)) eqn:Ht.
      - left. destruct (err_message st) as [| | | |m| |]; try discriminate.
        exists m. split; [reflexivity|]. split; [|congruence].
        intros ->. discriminate.
      - right. split; [reflexivity|]. congruence. }
    destruct ex as [o'|e|prev r le all|]; simpl in Hex; try discriminate.
    + destruct Hex as [_ ->]. inversion Ho; subst. simpl.
      eexists. split; [reflexivity|].
      left. eexists. split; [right; reflexivity|]. split; reflexivity.
    + destruct Hex as [_ Hex]. symmetry in Ho.
      destruct (pass_of py t c (runs w (pred (attempts tr)))) as [|e|st|st|st] eqn:Hp;
        try contradiction.
      * destruct Hex as (-> & -> & ->).
        destruct (pass_of_timeout _ _ _ _ _ Hp) as [Hs _].
        apply finalize_failure in Ho; [|assumption].
        destruct Ho as (_ & _ & Herr & d & Hd & Hm).
        exists d. split; [assumption|]. right. exists st. eauto.
      * subst prev. apply pass_of_success in Hp.
        apply finalize_success in Ho; [congruence|assumption].
      * destruct Hex as (-> & -> & -> & _).
        destruct (pass_of_failure _ _ _ _ _ Hp) as [Hs _].
        apply finalize_failure in Ho; [|assumption].
        destruct Ho as (_ & _ & Herr & d & Hd & Hm).
        exists d. split; [assumption|]. right. exists st. eauto.
Qed.

(** C6, as the code has it.  When no line of the last pass carries a
    session identifier and the tool function returns, the outcome is a
    failure.  If the pass ended in the classification (the generator
    returned, or the line loop was left by [break]), its kind is
    [protocol_missing_session] unless reading the lines had already set a
    kind ([upstream_error] or [unexpected_exception]), which is then kept;
    in both cases the missing-session diagnostic is put in front of the
    message, and a result line with text changes none of this.  If the
    generator raised a timeout while it was iterated, the classification
    is not reached: the outcome has the kind and the text of the timeout,
    without the missing-session diagnostic. *)
Theorem missing_session_fails (py : python) (t : tool) (c : config) (w : world)
    (tr : trace) (o : Outcome.t) (ch : child) :
  config_load w = None ->
  tool_fn py t c w = (Return o, tr) ->
  runs w (pred (attempts tr)) = Spawned ch ->
  (forall line, In line (fst (generator c ch)) -> carries_session py line = false) ->
  let read := consume py t (return_all_messages c) init_state
                (fst (generator c ch)) in
  Outcome.success o = false /\
  match snd (generator c ch), snd read with
  | TimedOut k, Exhausted =>
      Outcome.error_kind o
      = Some (match k with
              | Idle => IDLE_TIMEOUT
              | Duration | ProcessWait => TIMEOUT
              end) /\
      Outcome.error o = Some (JStr (timeout_message t c k))
  | _, _ =>
      stream_kind (error_kind (fst read)) /\
      Outcome.error_kind o
      = Some (match error_kind (fst read) with
              | Some k => k
              | None => PROTOCOL_MISSING_SESSION
              end) /\
      exists m,
        Outcome.error o = Some (JStr (("未能获取 SESSION_ID。" ++ nl ++ nl) ++ m))
  end.
Proof.
  intros Hcfg H Hrun Hnone read. subst read.
  destruct (generator c ch) as [lines fin] eqn:Hgen. cbn [fst snd] in *.
  destruct (consume py t (return_all_messages c) init_state lines)
    as [st0 e] eqn:Hc. cbn [fst snd].
  assert (Hpos : (0 < attempts tr)%nat).
  { apply tool_fn_cases in H.
    destruct H as [(x & Hx & _)|[(_ & _ & _ & Ho)|H]]; try congruence.
    destruct H as (_ & _ & _ & _ & Hpos & _). assumption. }
  assert (Hclassified :
            forall st, run_attempt py t c lines fin = ADone st ->
            Outcome.success o = false /\
            stream_kind (error_kind st0) /\
            Outcome.error_kind o
            = Some (match error_kind st0 with
                    | Some k => k
                    | None => PROTOCOL_MISSING_SESSION
                    end) /\
            exists m,
              Outcome.error o
              = Some (JStr (("未能获取 SESSION_ID。" ++ nl ++ nl) ++ m))).
  { intros st Ha.
    destruct (attempt_without_session py t c lines fin st Hnone Ha)
      as (Hs & Hsk & Hk & m & Hm).
    rewrite Hc in Hsk, Hk. cbn [fst] in Hsk, Hk.
    apply tool_fn_cases in H.
    destruct H as [(x & Hx & _)|[(_ & _ & _ & Ho)|H]]; try congruence.
    destruct H as (_ & _ & ex & Ho & _ & _ & _ & _ & Hex).
    rewrite Hrun in Hex. simpl in Hex. rewrite Hgen, Ha, Hs in Hex.
    destruct ex as [o'|x|prev r le all|]; simpl in Hex;
      try contradiction; try (destruct Hex; discriminate); try discriminate.
    destruct Hex as (_ & -> & -> & -> & _). symmetry in Ho.
    apply finalize_failure in Ho; [|assumption].
    destruct Ho as (Hos & Hok & Herr & _).
    rewrite Hok, Herr, Hk, Hm.
    split; [assumption|]. split; [assumption|]. split; [reflexivity|].
    exists m. reflexivity. }
  assert (Hraised :
            forall x, run_attempt py t c lines fin = ARaise x -> False).
  { intros x Ha. apply tool_fn_cases in H.
    destruct H as [(y & Hy & _)|[(_ & _ & _ & Ho)|H]]; try congruence.
    destruct H as (_ & _ & ex & Ho & _ & _ & _ & _ & Hex).
    rewrite Hrun in Hex. simpl in Hex. rewrite Hgen, Ha in Hex.
    destruct ex; simpl in Hex; try discriminate Ho; try contradiction;
      destruct Hex as [Hx Hy]; try discriminate Hx; contradiction. }
  destruct fin as [code raw|k].
  - destruct (run_attempt py t c lines (Returned code raw)) as [x|st|st] eqn:Ha.
    + exfalso. eapply Hraised. reflexivity.
    + apply run_attempt_timeout in Ha.
      destruct Ha as (_ & _ & k & st1 & Hk & _). discriminate.
    + destruct (Hclassified st eq_refl) as (Hs & Hrest).
      split; [assumption|]. destruct e; exact Hrest.
  - destruct e as [| |x].
    + assert (Hn : (pred (attempts tr) < attempts tr)%nat) by lia.
      destruct (timed_out_pass_is_last py t c w _ _ tr ch lines k st0
                  H Hn Hrun Hgen Hc) as (_ & _ & _ & Hout).
      destruct (Hout o eq_refl) as (Hs & Hk & Herr). auto.
    + destruct (run_attempt py t c lines (TimedOut k)) as [x|st|st] eqn:Ha.
      * exfalso. eapply Hraised. reflexivity.
      * apply run_attempt_timeout in Ha.
        destruct Ha as (_ & _ & k' & st1 & _ & Hc' & _). congruence.
      * destruct (Hclassified st eq_refl) as (Hs & Hrest).
        split; [assumption|]. exact Hrest.
    + exfalso. apply (Hraised x). unfold run_attempt. rewrite Hc. reflexivity.
Qed.

(** ** Redaction of the trailing lines *)

Lemma lookup_dict_set_same (d : list (string * json)) (k : string) (v : json) :
  lookup (dict_set d k v) k = Some v.
Proof.
  induction d as [|[k' v'] d IH]; simpl.
  - rewrite String.eqb_refl. reflexivity.
  - destruct (String.eqb k' k) eqn:E; simpl; rewrite E; auto.
Qed.

Lemma lookup_dict_set_other (d : list (string * json)) (k k' : string) (v : json) :
  k' <> k -> lookup (dict_set d k v) k' = lookup d k'.
Proof.
  intros Hne. induction d as [|[k0 v0] d IH]; simpl.
  - destruct (String.eqb k k') eqn:E; [|reflexivity].
    apply String.eqb_eq in E. congruence.
  - destruct (String.eqb k0 k) eqn:E; simpl.
    + apply String.eqb_eq in E. subst k0.
      destruct (String.eqb k k') eqn:E'; [|reflexivity].
      apply String.eqb_eq in E'. congruence.
    + rewrite IH. reflexivity.
Qed.

Lemma keys_dict_set (d : list (string * json)) (k : string) (v v0 : json) :
  lookup d k = Some v0 -> map fst (dict_set d k v) = map fst d.
Proof.
  induction d as [|[k' v'] d IH]; simpl; [discriminate|].
  destruct (String.eqb k' k); simpl; intros H; [reflexivity|].
  rewrite IH by assumption. reflexivity.
Qed.

Lemma dict_get_lookup (d : list (string * json)) (k : string) (default v : json) :
  dict_get d k default = v -> v <> default -> lookup d k = Some v.
Proof.
  unfold dict_get. destruct (lookup d k); intros H Hne; congruence.
Qed.

Lemma keys_dict_set_new (d : list (string * json)) (k : string) (v : json) :
  lookup d k = None -> map fst (dict_set d k v) = (map fst d ++ [k])%list.
Proof.
  induction d as [|[k' v'] d IH]; simpl; [reflexivity|].
  destruct (String.eqb k' k); simpl; intros H; [discriminate|].
  rewrite IH by assumption. reflexivity.
Qed.

Lemma for_each_inr {A B : Type} (f : A -> exn + B) (l : list A) :
  forall ys, for_each f l = inr ys -> Forall2 (fun x y => f x = inr y) l ys.
Proof.
  induction l as [|x rest IH]; simpl; intros ys H.
  - inversion H. constructor.
  - unfold bind in H. destruct (f x) as [e|y] eqn:Hx; [discriminate|].
    destruct (for_each f rest) as [e|ys'] eqn:Hr; [discriminate|].
    inversion H; subst. constructor; auto.
Qed.

Lemma for_each_inl {A B : Type} (f : A -> exn + B) (l : list A) (e : exn) :
  for_each f l = inl e <->
  exists l1 x l2,
    l = (l1 ++ x :: l2)%list /\
    (forall x', In x' l1 -> exists y, f x' = inr y) /\
    f x = inl e.
Proof.
  induction l as [|x rest IH]; simpl.
  - split; [discriminate|]. intros (l1 & x & l2 & H & _).
    destruct l1; discriminate.
  - unfold bind. destruct (f x) as [e'|y] eqn:Hx.
    + split.
      * intros H. inversion H; subst. exists [], x, rest.
        split; [reflexivity|]. split; [intros ? []|assumption].
      * intros (l1 & x0 & l2 & H & Hall & Hx0).
        destruct l1 as [|x1 l1]; simpl in H; inversion H; subst.
        -- congruence.
        -- destruct (Hall x1 (or_introl eq_refl)) as [y Hy]. congruence.
    + destruct (for_each f rest) as [e'|ys] eqn:Hr.
      * split.
        -- intros H. inversion H; subst.
           destruct (proj1 IH eq_refl) as (l1 & x0 & l2 & -> & Hall & Hx0).
           exists (x :: l1), x0, l2. split; [reflexivity|].
           split; [|assumption].
           intros x' [<-|Hin]; eauto.
        -- intros (l1 & x0 & l2 & H & Hall & Hx0).
           destruct l1 as [|x1 l1]; simpl in H; inversion H; subst.
           ++ congruence.
           ++ f_equal. assert (Hgoal : inl e' = @inl exn (list B) e);
                [|congruence].
              apply IH. exists l1, x0, l2. split; [reflexivity|].
              split; [|assumption]. intros x' Hin. apply Hall. right. assumption.
      * split; [discriminate|].
        intros (l1 & x0 & l2 & H & Hall & Hx0).
        destruct l1 as [|x1 l1]; simpl in H; inversion H; subst.
        -- congruence.
        -- assert (Hgoal : @inr exn (list B) ys = inl e); [|discriminate].
           apply IH. exists l1, x0, l2. split; [reflexivity|].
           split; [|assumption]. intros x' Hin. apply Hall. right. assumption.
Qed.

Lemma Forall2_skipn {A B : Type} (R : A -> B -> Prop) (n : nat) :
  forall (l : list A) (l' : list B),
    Forall2 R l l' -> Forall2 R (skipn n l) (skipn n l').
Proof.
  induction n as [|n IH]; intros l l' H; [exact H|].
  destruct H; simpl; [constructor|apply IH; assumption].
Qed.

Lemma Forall2_length_eq {A B : Type} (R : A -> B -> Prop) (l : list A)
    (l' : list B) :
  Forall2 R l l' -> length l = length l'.
Proof. induction 1; simpl; congruence. Qed.

(** [filtered[-50:]] are the last fifty entries. *)
Lemma filter_last_lines_window (py : python) (lines : list string) :
  _filter_last_lines py lines 50
  = (filtered <- for_each (filter_line py) lines ;;
     inr (skipn (length lines - 50) filtered)).
Proof.
  unfold _filter_last_lines, bind, slice_from.
  destruct (for_each (filter_line py) lines) as [e|filtered] eqn:Hf;
    [reflexivity|].
  change (- (50) <? 0) with true. cbv iota.
  apply for_each_inr, Forall2_length_eq in Hf.
  f_equal. f_equal. lia.
Qed.

(** C7, as the code has it.  The filter decodes every line it is given.
    It raises when [json.loads] raises on a line an exception other than
    [JSONDecodeError], [TypeError] or [AttributeError], or when
    [copy.deepcopy] of a user message exhausts the stack, with the
    exception of the first such line; otherwise it returns at most the last
    50 lines, filtered one by one.  A line that decodes as a user message
    whose content is a list is replaced by [json.dumps] of the decoded
    object in which every tool-result block has the marker as content: the
    keys of the object and of its message, their order and every other
    value are those of the decoded object; a tool-result block keeps its
    other entries and the order of its keys, its [content] keeping its
    place or, when the block had none, coming last.  The line is
    serialised anew, so its bytes are those [json.dumps] chooses, not the
    original ones.  Every other line is kept as it is. *)
Theorem filter_last_lines_redacts (py : python) (lines : list string) :
  (forall out,
     _filter_last_lines py lines 50 = inr out ->
     (length out <= 50)%nat /\
     Forall2 (fun line s => filter_line py line = inr s)
       (skipn (length lines - 50) lines) out) /\
  (forall e,
     _filter_last_lines py lines 50 = inl e <->
     exists l1 line l2,
       lines = (l1 ++ line :: l2)%list /\
       (forall x, In x l1 -> exists s, filter_line py x = inr s) /\
       filter_line py line = inl e) /\
  (forall line,
     match json_loads py line with
     | inl e => filter_line py line = if tolerated e then inr line else inl e
     | inr _ =>
         match user_content py line with
         | None => filter_line py line = inr line
         | Some (d, m, blocks) =>
             match deepcopy_error py (JDict d) with
             | Some msg => filter_line py line = inl (RecursionError msg)
             | None =>
                 exists d' m',
                   filter_line py line = inr (json_dumps (JDict d')) /\
                   map fst d' = map fst d /\
                   (forall k, k <> "message" -> lookup d' k = lookup d k) /\
                   lookup d' "message" = Some (JDict m') /\
                   map fst m' = map fst m /\
                   (forall k, k <> "content" -> lookup m' k = lookup m k) /\
                   lookup m' "content" = Some (JList (map redact_block blocks))
             end
         end
     end) /\
  (forall block,
     match block with
     | JDict b =>
         if eq_str (dict_get b "type" JNull) "tool_result"
         then exists b',
                redact_block block = JDict b' /\
                lookup b' "content" = Some (JStr TRUNCATED) /\
                (forall k, k <> "content" -> lookup b' k = lookup b k) /\
                map fst b'
                = (if dict_has b "content" then map fst b
                   else map fst b ++ ["content"])%list
         else redact_block block = block
     | _ => redact_block block = block
     end).
Proof.
  split; [|split; [|split]].
  - intros out H. rewrite filter_last_lines_window in H. unfold bind in H.
    destruct (for_each (filter_line py) lines) as [e|filtered] eqn:Hf;
      [discriminate|].
    inversion H; subst. apply for_each_inr in Hf.
    split.
    + rewrite length_skipn, <- (Forall2_length_eq _ _ _ Hf). lia.
    + apply Forall2_skipn. assumption.
  - intros e. rewrite filter_last_lines_window. unfold bind.
    rewrite <- for_each_inl.
    destruct (for_each (filter_line py) lines) as [e'|filtered];
      split; intros H; congruence.
  - intros line. unfold user_content, filter_line, filter_body.
    destruct (json_loads py line) as [e|[| | | | | |d]]; try reflexivity.
    destruct (eq_str (dict_get d "type" (JStr "")) "user"); [|reflexivity].
    destruct (dict_get d "message" (JDict [])) as [| | | | | |m] eqn:Hm;
      try reflexivity.
    destruct (dict_get m "content" JNull) as [| | | | |blocks|] eqn:Hc;
      try reflexivity.
    unfold deepcopy, bind.
    destruct (deepcopy_error py (JDict d)) as [msg|]; [reflexivity|].
    assert (Hcl : lookup m "content" = Some (JList blocks))
      by (apply dict_get_lookup with (default := JNull); [assumption|discriminate]).
    assert (Hml : lookup d "message" = Some (JDict m)).
    { unfold dict_get in Hm. destruct (lookup d "message"); [congruence|].
      inversion Hm; subst. discriminate. }
    exists (dict_set d "message"
              (JDict (dict_set m "content" (JList (map redact_block blocks))))),
           (dict_set m "content" (JList (map redact_block blocks))).
    split; [reflexivity|].
    split; [eapply keys_dict_set; eassumption|].
    split; [intros k Hk; apply lookup_dict_set_other; assumption|].
    split; [apply lookup_dict_set_same|].
    split; [eapply keys_dict_set; eassumption|].
    split; [intros k Hk; apply lookup_dict_set_other; assumption|].
    apply lookup_dict_set_same.
  - intros block. destruct block as [| | | | | |b]; try reflexivity.
    unfold redact_block.
    destruct (eq_str (dict_get b "type" JNull) "tool_result"); [|reflexivity].
    exists (dict_set b "content" (JStr TRUNCATED)).
    split; [reflexivity|].
    split; [apply lookup_dict_set_same|].
    split; [intros k Hk; apply lookup_dict_set_other; assumption|].
    unfold dict_has. destruct (lookup b "content") as [v|] eqn:Hl.
    + eapply keys_dict_set. eassumption.
    + apply keys_dict_set_new. assumption.
Qed.

(** ** Determinism of the classification *)


(** ** The exception handler of the two tools *)

(** What [coder_tool] does with an exception raised while a line is
    interpreted, when the message accumulated so far is a string: it leaves
    the loop with the error flagged as [unexpected_exception]. *)
Lemma coder_handles_exception (py : python) (st : run_state) (e : exn)
    (line m : string) :
  err_message st = JStr m ->
  exists st',
    handle py Coder st e line = (st', Broke) /\
    had_error st' = true /\
    error_kind st' = Some UNEXPECTED_EXCEPTION.
Proof.
  intros Hm. unfold handle, unexpected. rewrite Hm. simpl.
  eexists. repeat split.
Qed.

(** [claude_tool] has no such handler: the exception leaves the loop. *)
Lemma claude_propagates_exception (py : python) (st : run_state) (e : exn)
    (line : string) :
  handle py Claude st e line = (st, Raised e).
Proof. reflexivity. Qed.

(** C2. [claude_tool] on a child whose only line is an error message with a
    text in place of the error object: [error_data.get] raises
    [AttributeError], nothing catches it, and the tool function raises to
    its caller instead of returning an [unexpected_exception] outcome. *)
Theorem claude_tool_raises :
  fst (claude_tool Run.py (Run.defaults 0)
         (Run.always (Spawned (Run.prints ["{'type':'error','error':'boom'}"] 0))))
  = Raise (AttributeError "str" "get").
Proof. vm_compute. reflexivity. Qed.

(** The same child under [coder_tool]: the failure outcome the claim
    describes. *)
Lemma coder_tool_catches :
  exists o,
    fst (coder_tool Run.py (Run.defaults 0)
           (Run.always (Spawned (Run.prints ["{'type':'error','error':'boom'}"] 0))))
    = Return o /\
    Outcome.success o = false /\
    Outcome.error_kind o = Some UNEXPECTED_EXCEPTION.
Proof. eexists. split; [vm_compute; reflexivity|]. split; reflexivity. Qed.

(** ** Concrete runs *)

(** Proves the first conjunct by [tac] and keeps it as [h]. *)
Ltac establish h tac :=
  match goal with
  | |- ?A /\ _ => assert (h : A) by tac; refine (conj h _)
  end.

(** Against C1 as the specification words it: an idle timeout in pass 0
    with two retries left; one pass, no sleep. *)
Lemma timeout_not_retried :
  exists o,
    coder_tool Run.py (Run.defaults 2) (Run.always (Spawned (Run.silent_until 400)))
    = (Return o, {| attempts := 1; spawned := 1; sleeps := [] |}) /\
    Outcome.error_kind o = Some IDLE_TIMEOUT /\
    max_retries (Run.defaults 2) = 2.
Proof. eexists. split; [vm_compute; reflexivity|]. split; reflexivity. Qed.

(** A first pass that fails in the classification and is retried, then a
    child that stays silent beyond the idle window, with one retry left. *)
Lemma timeout_ends_invocation_witness :
  let c := Run.defaults 2 in
  let ch := Run.silent_until 400 in
  let w := Run.first_then (Spawned (Run.prints [] 0)) (Spawned ch) in
  exists res tr lines st0,
    tool_fn Run.py Coder c w = (res, tr) /\
    (1 < attempts tr)%nat /\
    runs w 1%nat = Spawned ch /\
    generator c ch = (lines, TimedOut Idle) /\
    consume Run.py Coder (return_all_messages c) init_state lines
    = (st0, Exhausted) /\
    (forall i, (S i < attempts tr)%nat ->
               exists chi st,
                 runs w i = Spawned chi /\
                 run_attempt Run.py Coder c (fst (generator c chi))
                   (snd (generator c chi)) = ADone st /\
                 success st = false) /\
    attempts tr = 2%nat /\
    sleeps tr = backoff_schedule 1 /\
    (forall o, res = Return o ->
               Outcome.success o = false /\
               Outcome.error_kind o = Some IDLE_TIMEOUT /\
               Outcome.error o = Some (JStr (timeout_message Coder c Idle))).
Proof.
  cbv zeta. eexists. eexists. eexists. eexists.
  establish h1 ltac:(vm_compute; reflexivity).
  establish h2 ltac:(simpl; lia).
  establish h3 ltac:(reflexivity).
  establish h4 ltac:(vm_compute; reflexivity).
  establish h5 ltac:(vm_compute; reflexivity).
  exact (match timeout_ends_invocation Run.py Coder (Run.defaults 2) _ _ _ h1 with
         | conj retried timed_out =>
             conj retried
               (timed_out 1%nat (Run.silent_until 400) _ Idle _ h2 h3 h4 h5)
         end).
Defined.

(** A child silent for 2000 seconds under the defaults: in the first poll
    cycle both the ceiling of 1800 seconds and the idle window of 300
    seconds have elapsed. *)
Lemma duration_precedes_idle_witness :
  let c := Run.defaults 0 in
  let ch := Run.silent_until 2000 in
  exists st0,
    (0 <= length (polls ch))%nat /\
    reaches c (start_time ch) (first_activity ch) (firstn 0 (polls ch)) = Some 0%Q /\
    0 < max_duration c /\
    elapsed_ge (cycle_clock ch 0) (start_time ch) (max_duration c) = true /\
    elapsed_ge (cycle_clock ch 0) 0%Q (timeout c) = true /\
    consume Run.py Claude (return_all_messages c) init_state (fst (generator c ch))
    = (st0, Exhausted) /\
    snd (generator c ch) = TimedOut Duration /\
    (exists st,
       run_attempt Run.py Claude c (fst (generator c ch)) (snd (generator c ch))
       = ATimeout st /\
       success st = false /\
       error_kind st = Some TIMEOUT /\
       err_message st = JStr (timeout_message Claude c Duration)) /\
    (forall (w : world) (n : nat) (res : tool_result) (tr : trace) (o : Outcome.t),
       runs w n = Spawned ch ->
       tool_fn Run.py Claude c w = (res, tr) ->
       (n < attempts tr)%nat ->
       res = Return o ->
       attempts tr = S n /\
       Outcome.success o = false /\
       Outcome.error_kind o = Some TIMEOUT).
Proof.
  cbv zeta. eexists.
  establish h1 ltac:(simpl; lia).
  establish h2 ltac:(reflexivity).
  establish h3 ltac:(simpl; lia).
  establish h4 ltac:(vm_compute; reflexivity).
  establish h5 ltac:(vm_compute; reflexivity).
  establish h6 ltac:(vm_compute; reflexivity).
  exact (duration_precedes_idle Run.py Claude (Run.defaults 0)
           (Run.silent_until 2000) 0 0%Q _ h1 h2 h3 h4 h5 h6).
Defined.

Lemma command_not_found_aborts_witness :
  config_load (Run.always NotFound) = None /\
  0 <= max_retries (Run.defaults 3) /\
  runs (Run.always NotFound) 0 = NotFound /\
  exists o,
    tool_fn Run.py Claude (Run.defaults 3) (Run.always NotFound)
    = (Return o, {| attempts := 1; spawned := 0; sleeps := [] |}) /\
    Outcome.success o = false /\
    Outcome.error_kind o = Some COMMAND_NOT_FOUND /\
    Outcome.error o = Some (JStr (not_found_message Claude)).
Proof.
  assert (h1 : config_load (Run.always NotFound) = None) by reflexivity.
  assert (h2 : 0 <= max_retries (Run.defaults 3)) by (simpl; lia).
  assert (h3 : runs (Run.always NotFound) 0 = NotFound) by reflexivity.
  exact (conj h1 (conj h2 (conj h3
           (command_not_found_aborts Run.py Claude (Run.defaults 3)
              (Run.always NotFound) h1 h2 h3)))).
Defined.

(** Against C3 as the specification words it: an upstream error without a
    session.  The top-level [error] holds all three lines of the message,
    the nested [message] only the first. *)
Lemma full_message_is_top_level :
  exists o d,
    fst (coder_tool Run.py (Run.defaults 0)
           (Run.always (Spawned (Run.prints
              ["{'type':'error','error':{'message':'boom'}}"] 0))))
    = Return o /\
    Outcome.success o = false /\
    Outcome.error o = Some (JStr ("未能获取 SESSION_ID。" ++ nl ++ nl ++ "boom")) /\
    Outcome.error_detail o = Some d /\
    Detail.message d = "未能获取 SESSION_ID。".
Proof.
  eexists. eexists. split; [vm_compute; reflexivity|].
  repeat split.
Qed.

Lemma failure_message_fields_witness :
  let w := Run.always (Spawned (Run.prints
             ["{'type':'error','error':{'message':'boom'}}"] 0)) in
  exists o tr,
    tool_fn Run.py Coder (Run.defaults 0) w = (Return o, tr) /\
    Outcome.success o = false /\
    exists d,
      Outcome.error_detail o = Some d /\
      ((exists msg,
          (Outcome.error_kind o = Some CONFIG_ERROR \/
           Outcome.error_kind o = Some COMMAND_NOT_FOUND) /\
          Outcome.error o = Some (JStr msg) /\
          Detail.message d = msg) \/
       (exists st,
          (pass_of Run.py Coder (Run.defaults 0) (runs w (pred (attempts tr)))
           = PFailure st \/
           pass_of Run.py Coder (Run.defaults 0) (runs w (pred (attempts tr)))
           = PTimeout st) /\
          Outcome.error o = Some (err_message st) /\
          ((exists m, err_message st = JStr m /\ m <> "" /\
                      Detail.message d = first_line m) \/
           (truthy (err_message st) = false /\
            Detail.message d = "未知错误")))).
Proof.
  cbv zeta. eexists. eexists.
  establish h1 ltac:(vm_compute; reflexivity).
  refine ((fun h2 => conj h2
             (failure_message_fields Run.py Coder (Run.defaults 0) _ _ _ h1 h2)) _).
  reflexivity.
Defined.

(** Against C6 as the specification words it: no line carries a session
    identifier, yet the kind is [upstream_error], set while the error line
    was read. *)
Lemma upstream_error_outranks_missing_session :
  let lines := [Run.dq "{'type':'error','error':{'message':'boom'}}"] in
  forallb (fun line => negb (carries_session Run.py line)) lines = true /\
  exists o,
    fst (claude_tool Run.py (Run.defaults 0)
           (Run.always (Spawned (Run.prints
              ["{'type':'error','error':{'message':'boom'}}"] 0))))
    = Return o /\
    Outcome.success o = false /\
    Outcome.error_kind o = Some UPSTREAM_ERROR.
Proof.
  cbv zeta. split; [vm_compute; reflexivity|].
  eexists. split; [vm_compute; reflexivity|]. split; reflexivity.
Qed.

(** A result line with text and no session identifier anywhere. *)
Lemma missing_session_fails_witness :
  let c := Run.defaults 0 in
  let ch := Run.prints ["{'type':'result','result':'done'}"] 0 in
  let w := Run.always (Spawned ch) in
  exists o tr,
    config_load w = None /\
    tool_fn Run.py Coder c w = (Return o, tr) /\
    runs w (pred (attempts tr)) = Spawned ch /\
    (forall line, In line (fst (generator c ch)) ->
                  carries_session Run.py line = false) /\
    let read := consume Run.py Coder (return_all_messages c) init_state
                  (fst (generator c ch)) in
    Outcome.success o = false /\
    match snd (generator c ch), snd read with
    | TimedOut k, Exhausted =>
        Outcome.error_kind o
        = Some (match k with
                | Idle => IDLE_TIMEOUT
                | Duration | ProcessWait => TIMEOUT
                end) /\
        Outcome.error o = Some (JStr (timeout_message Coder c k))
    | _, _ =>
        stream_kind (error_kind (fst read)) /\
        Outcome.error_kind o
        = Some (match error_kind (fst read) with
                | Some k => k
                | None => PROTOCOL_MISSING_SESSION
                end) /\
        exists m,
          Outcome.error o = Some (JStr (("未能获取 SESSION_ID。" ++ nl ++ nl) ++ m))
    end.
Proof.
  cbv zeta. eexists. eexists.
  establish h1 ltac:(reflexivity).
  establish h2 ltac:(vm_compute; reflexivity).
  establish h3 ltac:(reflexivity).
  establish h4 ltac:(intros line Hin; vm_compute in Hin;
                     destruct Hin as [<-|[]]; vm_compute; reflexivity).
  exact (missing_session_fails Run.py Coder (Run.defaults 0) _ _ _
           (Run.prints ["{'type':'result','result':'done'}"] 0) h1 h2 h3 h4).
Defined.

(** Against C7 as the specification words it: a user message with an empty
    content list, holding no tool-result block at all, comes out with
    other bytes than it went in. *)
Lemma redacted_line_is_reserialised :
  let line := Run.dq "{'type':'user','message':{'content':[]}}" in
  user_content Run.py line
  = Some ([("type", JStr "user"); ("message", JDict [("content", JList [])])],
          [("content", JList [])], []) /\
  _filter_last_lines Run.py [line] 50
  = inr [Run.dq "{'type': 'user', 'message': {'content': []}}"] /\
  String.eqb (Run.dq "{'type': 'user', 'message': {'content': []}}") line = false.
Proof. cbv zeta. repeat split; vm_compute; reflexivity. Qed.



(** A line on which [json.loads] raises a plain [ValueError]: the filter
    raises it, the reader thread stops reading after it, [coder_tool]
    takes it for an unexpected exception and then raises while it builds
    the error detail, and [claude_tool] raises at once. *)
Lemma long_integer_line :
  let e := ValueError (PyLib.digit_limit_message 4301) in
  json_loads Run.py Run.long_integer = inl e /\
  _filter_last_lines Run.py [Run.long_integer] 50 = inl e /\
  fst (read_output Run.py [Run.long_integer; "{}"])
  = [Some Run.long_integer; None] /\
  (exists st,
     consume Run.py Coder false init_state [Run.long_integer] = (st, Broke) /\
     error_kind st = Some UNEXPECTED_EXCEPTION) /\
  fst (coder_tool Run.py (Run.defaults 0)
         (Run.always (Spawned (Run.prints [Run.long_integer] 0)))) = Raise e /\
  fst (claude_tool Run.py (Run.defaults 0)
         (Run.always (Spawned (Run.prints [Run.long_integer] 0)))) = Raise e.
Proof.
  cbv zeta. split; [vm_compute; reflexivity|].
  split; [vm_compute; reflexivity|].
  split; [vm_compute; reflexivity|].
  split; [eexists; split; [vm_compute; reflexivity|reflexivity]|].
  split; vm_compute; reflexivity.
Qed.

(** Against C9 as the specification words it: a duration timeout in pass 0
    is a failed attempt with the count below [max_retries], and no sleep
    follows. *)
Lemma failed_attempt_without_sleep :
  exists o,
    claude_tool Run.py (Run.defaults 3) (Run.always (Spawned (Run.silent_until 2000)))
    = (Return o, {| attempts := 1; spawned := 1; sleeps := [] |}) /\
    Outcome.success o = false /\
    Outcome.error_kind o = Some TIMEOUT /\
    0 < max_retries (Run.defaults 3).
Proof.
  eexists. split; [vm_compute; reflexivity|]. repeat split.
Qed.

(** A run of the schedule: three failed classifications, sleeps of 0.5, 1
    and 2 seconds, then the success of the fourth pass. *)
Lemma retry_schedule_run :
  let good := Run.prints ["{'type':'system','subtype':'init','session_id':'abc'}";
                          "{'type':'result','result':'done'}"] 0 in
  let w := {| config_load := None;
              runs := fun n => if Nat.ltb n 3 then Spawned (Run.prints [] 0)
                               else Spawned good |} in
  exists o,
    coder_tool Run.py (Run.defaults 5) w
    = (Return o, {| attempts := 4; spawned := 4;
                    sleeps := [(1 # 2)%Q; (2 # 2)%Q; (4 # 2)%Q] |}) /\
    Outcome.success o = true.
Proof.
  cbv zeta. eexists. split; [vm_compute; reflexivity|reflexivity].
Qed.

Lemma failure_has_kind_witness :
  let w := Run.always (Spawned (Run.prints
             ["{'type':'system','subtype':'init','session_id':'abc'}"] 0)) in
  exists o,
    fst (tool_fn Run.py Claude (Run.defaults 1) w) = Return o /\
    Outcome.success o = false /\
    exists k, Outcome.error_kind o = Some k /\ In k reported_kinds.
Proof.
  cbv zeta. eexists.
  assert (h1 : fst (tool_fn Run.py Claude (Run.defaults 1)
                      (Run.always (Spawned (Run.prints
                         ["{'type':'system','subtype':'init','session_id':'abc'}"] 0))))
               = Return _)
    by (vm_compute; reflexivity).
  refine (conj h1 _).
  refine ((fun h2 => conj h2
             (failure_has_kind Run.py Claude (Run.defaults 1) _ _ h1 h2)) _).
  reflexivity.
Defined.

(** * Further properties of the code *)

(** ** The prologue *)

Lemma replace_cr_no_cr (s : string) :
  ~ In CR (list_ascii_of_string (replace_cr s)).
Proof.
  induction s as [|c s IH]; simpl; [tauto|].
  intros [H|H]; [|contradiction].
  destruct (Ascii.eqb c CR) eqn:E.
  - discriminate H.
  - apply Ascii.eqb_neq in E. congruence.
Qed.

Lemma replace_cr_fixed (s : string) :
  ~ In CR (list_ascii_of_string s) -> replace_cr s = s.
Proof.
  induction s as [|c s IH]; simpl; [reflexivity|].
  intros H. destruct (Ascii.eqb c CR) eqn:E.
  - apply Ascii.eqb_eq in E. exfalso. apply H. left. congruence.
  - rewrite IH; [reflexivity|]. intros Hin. apply H. right. assumption.
Qed.

Lemma replace_crlf_fixed (s : string) :
  ~ In CR (list_ascii_of_string s) -> replace_crlf s = s.
Proof.
  induction s as [|c s IH]; [reflexivity|].
  intros H. simpl in H.
  assert (Hc : Ascii.eqb c CR = false).
  { apply Ascii.eqb_neq. intros ->. apply H. left. reflexivity. }
  assert (Hs : replace_crlf s = s) by (apply IH; intros Hin; apply H; right; assumption).
  simpl. destruct s as [|c' s']; [reflexivity|].
  rewrite Hc. simpl andb. cbv iota. rewrite Hs. reflexivity.
Qed.

Lemma replace_crlf_at_crlf (a b : string) :
  replace_crlf (a ++ String CR (String LF b))
  = replace_crlf a ++ String LF (replace_crlf b).
Proof.
  assert (H : replace_crlf (a ++ String CR (String LF b))
              = replace_crlf a ++ String LF (replace_crlf b) /\
              forall c, replace_crlf (String c a ++ String CR (String LF b))
                        = replace_crlf (String c a) ++ String LF (replace_crlf b)).
  { induction a as [|c' a IH].
    - split; [reflexivity|]. intros c. simpl.
      rewrite andb_false_r. reflexivity.
    - destruct IH as [IH1 IH2]. split; [apply IH2|].
      intros c. change (String c (String c' a) ++ String CR (String LF b))
        with (String c (String c' (a ++ String CR (String LF b)))).
      change (replace_crlf (String c (String c' (a ++ String CR (String LF b)))))
        with (if Ascii.eqb c CR && Ascii.eqb c' LF
              then String LF (replace_crlf (a ++ String CR (String LF b)))
              else String c (replace_crlf (String c' (a ++ String CR (String LF b))))).
      change (replace_crlf (String c (String c' a)))
        with (if Ascii.eqb c CR && Ascii.eqb c' LF
              then String LF (replace_crlf a)
              else String c (replace_crlf (String c' a))).
      destruct (Ascii.eqb c CR && Ascii.eqb c' LF).
      + rewrite IH1. reflexivity.
      + change (String c' (a ++ String CR (String LF b)))
          with (String c' a ++ String CR (String LF b)).
        rewrite IH2. reflexivity. }
  apply H.
Qed.

Lemma replace_cr_app (a b : string) :
  replace_cr (a ++ b) = replace_cr a ++ replace_cr b.
Proof.
  induction a as [|c a IH]; simpl; [reflexivity|]. rewrite IH. reflexivity.
Qed.

(** X1. The prompt handed to the child holds no carriage return; a prompt
    without one is handed over unchanged; normalising twice changes
    nothing more; and a CR LF pair becomes one line feed, not two. *)
Theorem normalized_prompt_line_ends (PROMPT : string) :
  ~ In CR (list_ascii_of_string (normalized_prompt PROMPT)) /\
  (~ In CR (list_ascii_of_string PROMPT) -> normalized_prompt PROMPT = PROMPT) /\
  normalized_prompt (normalized_prompt PROMPT) = normalized_prompt PROMPT /\
  (forall a b, PROMPT = a ++ String CR (String LF b) ->
               normalized_prompt PROMPT
               = normalized_prompt a ++ String LF (normalized_prompt b)).
Proof.
  unfold normalized_prompt.
  assert (Hno : ~ In CR (list_ascii_of_string (replace_cr (replace_crlf PROMPT))))
    by apply replace_cr_no_cr.
  split; [exact Hno|]. split; [|split].
  - intros H. rewrite replace_crlf_fixed by assumption.
    apply replace_cr_fixed. assumption.
  - rewrite (replace_crlf_fixed _ Hno). apply replace_cr_fixed. exact Hno.
  - intros a b ->. rewrite replace_crlf_at_crlf, replace_cr_app.
    reflexivity.
Qed.

Lemma in_build_cmd (t : tool) (sandbox sid x : string) :
  In x (build_cmd t sandbox sid) <->
  In x ["claude"; "-p"; "--output-format"; "stream-json"; "--verbose";
        "--setting-sources"; "project"; "--append-system-prompt"; system_prompt t]
  \/ (String.eqb sandbox "read-only" = false /\ x = SKIP_PERMISSIONS)
  \/ (String.eqb sid "" = false /\ (x = "-r" \/ x = sid)).
Proof.
  unfold build_cmd.
  destruct (String.eqb sandbox "read-only"), (String.eqb sid "");
    simpl; intuition (subst; auto 15; try discriminate).
Qed.

(** X2. The permission-skipping flag is on the command line exactly when
    the sandbox is not [read-only] (any other text, the two other policies
    included, adds it), given a session identifier that is not itself the
    text of the flag; the resume option [-r] with the session identifier
    is there exactly when the identifier is not empty. *)
Theorem build_cmd_flags (t : tool) (sandbox sid : string) :
  sid <> SKIP_PERMISSIONS ->
  (In SKIP_PERMISSIONS (build_cmd t sandbox sid) <-> sandbox <> "read-only") /\
  (In "-r" (build_cmd t sandbox sid) <-> sid <> "") /\
  (sid <> "" ->
   exists front, build_cmd t sandbox sid = (front ++ ["-r"; sid])%list).
Proof.
  intros Hsid. split; [|split].
  - rewrite in_build_cmd. split.
    + intros [H|[[H _]|[_ [H|H]]]].
      * destruct t; simpl in H;
          repeat (destruct H as [H|H]; [discriminate H|]); contradiction.
      * apply String.eqb_neq. assumption.
      * discriminate H.
      * congruence.
    + intros H. right. left. split; [apply String.eqb_neq; assumption|reflexivity].
  - rewrite in_build_cmd. split.
    + intros [H|[[_ H]|[H _]]].
      * destruct t; simpl in H;
          repeat (destruct H as [H|H]; [discriminate H|]); contradiction.
      * discriminate H.
      * apply String.eqb_neq. assumption.
    + intros H. right. right. split; [apply String.eqb_neq; assumption|auto].
  - intros H. apply String.eqb_neq in H. unfold build_cmd. rewrite H.
    eexists. rewrite !app_assoc. reflexivity.
Qed.

(** X3. The duration string shows whole seconds, truncated: its seconds
    field lies between 0 and 59 and the two fields together are the
    duration cut to the second below, also for a negative duration. *)
Theorem duration_parts_truncate (duration_ms : Z) :
  let (minutes, seconds) := duration_parts duration_ms in
  0 <= seconds < 60 /\
  (60 * minutes + seconds) * 1000 <= duration_ms
    < (60 * minutes + seconds + 1) * 1000.
Proof.
  unfold duration_parts.
  pose proof (Z.div_mod (duration_ms / 1000) 60 ltac:(lia)) as H1.
  pose proof (Z.mod_pos_bound (duration_ms / 1000) 60 ltac:(lia)) as H2.
  pose proof (Z.div_mod duration_ms 1000 ltac:(lia)) as H3.
  pose proof (Z.mod_pos_bound duration_ms 1000 ltac:(lia)) as H4.
  split; [assumption|]. lia.
Qed.

(** ** The output pump *)

(** [is_session_completed] raises exactly the exceptions of [json.loads]
    that its handler does not name. *)
Lemma is_session_completed_raises (py : python) (line : string) (e : exn) :
  is_session_completed py line = inl e <->
  json_loads py line = inl e /\ tolerated e = false.
Proof.
  unfold is_session_completed, bind, get.
  destruct (json_loads py line) as [e'|data].
  - destruct (tolerated e') eqn:Ht; split.
    + discriminate.
    + intros [H Hf]. inversion H; subst. congruence.
    + intros H. inversion H; subst. auto.
    + intros [H _]. inversion H; subst. reflexivity.
  - destruct data; simpl; split; try discriminate; intros [H _]; discriminate.
Qed.

(** X4. The reader thread puts on the queue the stripped lines of the
    stream, in order, up to and including the first line that ends the
    reading, and nothing that follows it: a result or error message, or a
    line on which [json.loads] raises an exception that
    [is_session_completed] does not handle.  The sentinel comes last and
    once; the count it keeps is the number of non-empty lines it
    queued. *)
Theorem read_output_queue (py : python) (stdout : list string) :
  exists (items : list string) (k : nat),
    fst (read_output py stdout) = (map Some items ++ [None])%list /\
    snd (read_output py stdout) = Z.of_nat (length (filter nonempty items)) /\
    items = map (py_strip py) (firstn k (before_eof stdout)) /\
    (forall x, In x (removelast items) -> is_session_completed py x = inr false) /\
    ((k < length (before_eof stdout))%nat ->
     exists front x,
       items = (front ++ [x])%list /\
       (is_session_completed py x = inr true \/
        exists e, json_loads py x = inl e /\ tolerated e = false)).
Proof.
  induction stdout as [|line rest IH]; simpl.
  - exists [], 0%nat. simpl. repeat split; auto; try tauto. intros H; lia.
  - destruct (String.eqb line "") eqn:Hline.
    + exists [], 0%nat. simpl. repeat split; auto; try tauto. intros H; lia.
    + assert (Hstop :
                is_session_completed py (py_strip py line) = inr true \/
                (exists e, json_loads py (py_strip py line) = inl e /\
                           tolerated e = false) ->
                exists (items : list string) (k : nat),
                  [Some (py_strip py line); None] = (map Some items ++ [None])%list /\
                  (if String.eqb (py_strip py line) "" then 0 else 1)
                  = Z.of_nat (length (filter nonempty items)) /\
                  items = map (py_strip py) (firstn k (line :: before_eof rest)) /\
                  (forall x, In x (removelast items) ->
                             is_session_completed py x = inr false) /\
                  ((k < S (length (before_eof rest)))%nat ->
                   exists front x,
                     items = (front ++ [x])%list /\
                     (is_session_completed py x = inr true \/
                      exists e, json_loads py x = inl e /\ tolerated e = false))).
      { intros Hend. exists [py_strip py line], 1%nat. simpl.
        split; [reflexivity|].
        split; [unfold nonempty;
                destruct (String.eqb (py_strip py line) ""); reflexivity|].
        split; [reflexivity|]. split; [tauto|].
        intros _. exists [], (py_strip py line). auto. }
      destruct (is_session_completed py (py_strip py line)) as [e|[|]] eqn:Hdone.
      * apply Hstop. right. exists e.
        apply is_session_completed_raises. assumption.
      * apply Hstop. left. reflexivity.
      * destruct (read_output py rest) as [q n] eqn:Hro.
        destruct IH as (items & k & Hq & Hn & Hitems & Hbefore & Hlast).
        simpl in Hq, Hn.
        exists (py_strip py line :: items), (S k).
        split; [simpl; rewrite Hq; reflexivity|].
        split.
        { cbn [snd filter]. rewrite Hn. unfold nonempty.
          destruct (String.eqb (py_strip py line) ""); cbn [negb length];
            [|rewrite Nat2Z.inj_succ]; lia. }
        simpl.
        split; [rewrite Hitems; reflexivity|].
        split.
        { intros x Hx. destruct items as [|y items'].
          - contradiction.
          - destruct Hx as [<-|Hx]; [assumption|]. apply Hbefore. exact Hx. }
        intros Hk. assert (Hk' : (k < length (before_eof rest))%nat) by lia.
        destruct (Hlast Hk') as (front & x & -> & Hx).
        exists (py_strip py line :: front), x. auto.
Qed.

(** ** The supervisor, further *)

Lemma supervise_yields (c : config) (start : Q) (end_now : Q) :
  forall (ps : list poll) (last : Q),
    exists k,
      (k <= length ps)%nat /\
      fst (supervise c start last ps end_now) = got_lines (firstn k ps) /\
      (snd (supervise c start last ps end_now) = None -> k = length ps).
Proof.
  induction ps as [|p ps IH]; intros last; simpl.
  - exists 0%nat. destruct (poll_check c start last end_now); simpl; auto.
  - destruct (poll_check c start last (now p)).
    + destruct (event p) as [line after|] eqn:Hev.
      * destruct (IH after) as (k & Hk & Hys & Hnone).
        destruct (supervise c start after ps end_now) as [ys r].
        exists (S k). simpl in *. unfold got_lines in *. simpl. rewrite Hev.
        split; [lia|]. split; [rewrite Hys; reflexivity|].
        intros H. rewrite Hnone; auto.
      * destruct (IH last) as (k & Hk & Hys & Hnone).
        exists (S k). simpl. unfold got_lines in *. simpl. rewrite Hev.
        split; [lia|]. split; [exact Hys|]. intros H. rewrite Hnone; auto.
    + exists 0%nat. simpl. split; [lia|]. split; [reflexivity|discriminate].
    + exists 0%nat. simpl. split; [lia|]. split; [reflexivity|discriminate].
Qed.

(** X5. The generator hands the lines over in the order they arrived,
    leaving out only the empty ones: when it returns, it has yielded every
    non-empty line of the polls and then what the queue still held; when it
    raises a timeout, it has yielded the non-empty lines of the polls
    before the one that timed out. *)
Theorem generator_keeps_order (c : config) (ch : child) :
  exists k,
    (k <= length (polls ch))%nat /\
    match snd (generator c ch) with
    | Returned code raw =>
        fst (generator c ch) = (got_lines (polls ch) ++ drain (leftover ch))%list /\
        wait ch = Some code /\ raw = raw_output_lines_holder ch
    | TimedOut _ => fst (generator c ch) = got_lines (firstn k (polls ch))
    end.
Proof.
  unfold generator.
  destruct (supervise_yields c (start_time ch) (end_now ch) (polls ch)
              (first_activity ch)) as (k & Hk & Hys & Hnone).
  destruct (supervise c (start_time ch) (first_activity ch) (polls ch) (end_now ch))
    as [ys [cause|]]; simpl in *.
  - exists k. auto.
  - specialize (Hnone eq_refl). subst k. rewrite firstn_all in Hys.
    destruct (wait ch) as [code|]; simpl.
    + exists (length (polls ch)). rewrite Hys. auto.
    + exists (length (polls ch)). rewrite firstn_all. auto.
Qed.

Lemma supervise_timeout_cause (c : config) (start : Q) (end_now : Q) :
  forall (ps : list poll) (last0 : Q) (ys : list string) (k : timeout_cause),
    supervise c start last0 ps end_now = (ys, Some k) ->
    exists i last,
      (i <= length ps)%nat /\
      reaches c start last0 (firstn i ps) = Some last /\
      ys = got_lines (firstn i ps) /\
      match k with
      | Duration =>
          poll_check c start last (nth i (map now ps) end_now) = DURATION_TIMED_OUT
      | Idle =>
          poll_check c start last (nth i (map now ps) end_now) = IDLE_TIMED_OUT
      | ProcessWait => False
      end.
Proof.
  induction ps as [|p ps IH]; intros last0 ys k H; simpl in H.
  - exists 0%nat, last0. simpl.
    destruct (poll_check c start last0 end_now) eqn:Hc; inv_pair;
      try discriminate; repeat split; auto.
  - destruct (poll_check c start last0 (now p)) eqn:Hc.
    + destruct (event p) as [line after|] eqn:Hev.
      * destruct (supervise c start after ps end_now) as [ys' r] eqn:Hs.
        inv_pair.
        destruct (IH _ _ _ Hs) as (i & last & Hi & Hreach & Hys & Hk).
        exists (S i), last. simpl. rewrite Hc, Hev.
        split; [lia|]. split; [assumption|].
        split; [|assumption].
        unfold got_lines in *. simpl. rewrite ?Hev, Hys. reflexivity.
      * destruct (IH _ _ _ H) as (i & last & Hi & Hreach & Hys & Hk).
        exists (S i), last. simpl. rewrite Hc, Hev.
        split; [lia|]. split; [assumption|].
        split; [|assumption].
        unfold got_lines in *. simpl. rewrite ?Hev. exact Hys.
    + inv_pair. exists 0%nat, last0. simpl. repeat split; auto; lia.
    + inv_pair. exists 0%nat, last0. simpl. repeat split; auto; lia.
Qed.

Lemma poll_check_duration (c : config) (start last now : Q) :
  poll_check c start last now = DURATION_TIMED_OUT ->
  0 < max_duration c /\ elapsed_ge now start (max_duration c) = true.
Proof.
  unfold poll_check.
  destruct (0 <? max_duration c) eqn:Hpos; simpl.
  - destruct (elapsed_ge now start (max_duration c));
      [intros _; split; [apply Z.ltb_lt; assumption|reflexivity]|].
    destruct (elapsed_ge now last (timeout c)); discriminate.
  - destruct (elapsed_ge now last (timeout c)); discriminate.
Qed.

Lemma poll_check_idle (c : config) (start last now : Q) :
  poll_check c start last now = IDLE_TIMED_OUT ->
  elapsed_ge now last (timeout c) = true /\
  (max_duration c <= 0 \/ elapsed_ge now start (max_duration c) = false).
Proof.
  unfold poll_check.
  destruct (0 <? max_duration c) eqn:Hpos; simpl.
  - destruct (elapsed_ge now start (max_duration c)); [discriminate|].
    destruct (elapsed_ge now last (timeout c)); [auto|discriminate].
  - apply Z.ltb_ge in Hpos.
    destruct (elapsed_ge now last (timeout c)); [auto|discriminate].
Qed.

(** X6. A timeout is raised only for cause.  When the generator raises the
    duration timeout, [max_duration] is positive and, in a poll cycle the
    loop reached, the time since the start had reached it.  When it raises
    the idle timeout, the time since the last line (empty lines count as
    activity) had reached the idle window and the duration ceiling was
    unset or not yet reached.  The third timeout stands for a child that
    did not exit within the wait after its stream ended. *)
Theorem timeout_has_cause (c : config) (ch : child) (ys : list string)
    (k : timeout_cause) :
  generator c ch = (ys, TimedOut k) ->
  match k with
  | ProcessWait => wait ch = None
  | Duration =>
      exists i last,
        (i <= length (polls ch))%nat /\
        reaches c (start_time ch) (first_activity ch) (firstn i (polls ch))
        = Some last /\
        0 < max_duration c /\
        elapsed_ge (cycle_clock ch i) (start_time ch) (max_duration c) = true
  | Idle =>
      exists i last,
        (i <= length (polls ch))%nat /\
        reaches c (start_time ch) (first_activity ch) (firstn i (polls ch))
        = Some last /\
        elapsed_ge (cycle_clock ch i) last (timeout c) = true /\
        (max_duration c <= 0 \/
         elapsed_ge (cycle_clock ch i) (start_time ch) (max_duration c) = false)
  end.
Proof.
  unfold generator, cycle_clock. intros H.
  destruct (supervise c (start_time ch) (first_activity ch) (polls ch) (end_now ch))
    as [ys' [cause|]] eqn:Hs.
  - inversion H; subst.
    destruct (supervise_timeout_cause _ _ _ _ _ _ _ Hs)
      as (i & last & Hi & Hreach & _ & Hk).
    destruct k; [| |contradiction].
    + apply poll_check_duration in Hk. destruct Hk. exists i, last. auto.
    + apply poll_check_idle in Hk. destruct Hk. exists i, last. auto.
  - destruct (wait ch); inversion H; subst. reflexivity.
Qed.

(** X7. With [max_duration] at 0 (or below) the total duration is
    unbounded: the generator never raises the duration timeout, however
    long the child runs. *)
Theorem no_duration_ceiling (c : config) (ch : child) :
  max_duration c <= 0 ->
  snd (generator c ch) <> TimedOut Duration.
Proof.
  intros Hmax H.
  destruct (generator c ch) as [ys fin] eqn:Hg. simpl in H. subst fin.
  apply timeout_has_cause in Hg.
  destruct Hg as (i & last & _ & _ & Hpos & _). lia.
Qed.

(** ** Reading the stream, further *)

Section StreamFurther.

Variable py : python.

Lemma interpret_diag (ram : bool) (st st' : run_state) (line : string)
    (r : option exn) :
  interpret py ram st line = (st', r) ->
  last_lines st' = last_lines st /\
  json_decode_errors st' = json_decode_errors st /\
  exit_code st' = exit_code st.
Proof.
  unfold interpret, dispatch, collect. intros H.
  destruct (json_loads py (py_strip py line)) as [e0|[]]; inv_pair; auto.
  destruct ram; repeat break_match; inv_pair; simpl; auto.
Qed.

Lemma handle_diag (t : tool) (st st' : run_state) (e : exn) (line : string)
    (r : loop_end) :
  handle py t st e line = (st', r) ->
  last_lines st' = last_lines st /\
  json_decode_errors st' = json_decode_errors st /\
  exit_code st' = exit_code st /\
  assistant_text_parts st' = assistant_text_parts st /\
  r <> Exhausted.
Proof.
  unfold handle, unexpected. intros H.
  destruct t; [destruct (iadd_str _ _)|]; inv_pair; simpl;
    repeat split; discriminate.
Qed.

Lemma collect_with_diag (d : list (string * json)) (ty : json) (st : run_state)
    (lines : list string) (errors : Z) :
  collect py d ty (with_diag st lines errors)
  = (with_diag (fst (collect py d ty st)) lines errors, snd (collect py d ty st)).
Proof.
  unfold collect, with_diag.
  destruct (eq_str ty "user"); [|reflexivity].
  destruct (deepcopy py (JDict d)); [reflexivity|].
  destruct (dict_get d "message" (JDict [])); reflexivity.
Qed.

Lemma dispatch_with_diag (d : list (string * json)) (ty : json) (st : run_state)
    (lines : list string) (errors : Z) :
  dispatch py d ty (with_diag st lines errors)
  = (with_diag (fst (dispatch py d ty st)) lines errors,
     snd (dispatch py d ty st)).
Proof.
  unfold dispatch, with_diag, get.
  destruct (eq_str ty "system" && eq_str (dict_get d "subtype" JNull) "init");
    [reflexivity|].
  destruct (eq_str ty "assistant").
  { destruct (dict_get d "message" (JDict [])); try reflexivity.
    destruct (dict_get fields "content" JNull); reflexivity. }
  destruct (eq_str ty "result").
  { destruct (dict_has d "result"); simpl;
      destruct (negb (truthy (session_id st)) && dict_has d "session_id"); simpl;
      destruct (truthy (dict_get d "is_error" JNull)); reflexivity. }
  destruct (eq_str ty "error"); [|reflexivity].
  destruct (dict_get d "error" (JDict [])); reflexivity.
Qed.

(** The interpreter reads neither the trailing lines nor the count of
    undecodable lines. *)
Lemma interpret_with_diag (ram : bool) (st : run_state) (line : string)
    (lines : list string) (errors : Z) :
  interpret py ram (with_diag st lines errors) line
  = (with_diag (fst (interpret py ram st line)) lines errors,
     snd (interpret py ram st line)).
Proof.
  unfold interpret.
  destruct (json_loads py (py_strip py line)) as [e0|[]]; try reflexivity.
  destruct ram.
  - rewrite collect_with_diag.
    destruct (collect py fields (dict_get fields "type" (JStr "")) st) as [st1 [e|]];
      cbn [fst snd]; [reflexivity|].
    apply dispatch_with_diag.
  - apply dispatch_with_diag.
Qed.

Lemma handle_with_diag (t : tool) (st : run_state) (e : exn) (line : string)
    (lines : list string) (errors : Z) :
  handle py t (with_diag st lines errors) e line
  = (with_diag (fst (handle py t st e line)) lines errors,
     snd (handle py t st e line)).
Proof.
  unfold handle, unexpected, with_diag. destruct t; [|reflexivity].
  simpl. destruct (iadd_str _ _); reflexivity.
Qed.

Lemma consume_with_diag (t : tool) (ram : bool) (lines : list string) :
  forall (st : run_state) (ll : list string) (errors : Z),
    exists ll' errors',
      consume py t ram (with_diag st ll errors) lines
      = (with_diag (fst (consume py t ram st lines)) ll' errors',
         snd (consume py t ram st lines)).
Proof.
  induction lines as [|line rest IH]; intros st ll errors; simpl.
  - eauto.
  - change (push_last_line (with_diag st ll errors) line)
      with (with_diag (push_last_line st line)
              (if 50 <? Z.of_nat (length (ll ++ [line]))
               then tl (ll ++ [line]) else (ll ++ [line])%list) errors).
    rewrite interpret_with_diag.
    destruct (interpret py ram (push_last_line st line) line) as [st1 [x|]];
      cbn [fst snd].
    + destruct x; try (rewrite handle_with_diag; eauto).
      change (set_json_decode_errors (with_diag st1 _ errors)
                (json_decode_errors (with_diag st1 _ errors) + 1))
        with (with_diag (set_json_decode_errors st1 (json_decode_errors st1 + 1))
                (if 50 <? Z.of_nat (length (ll ++ [line]))
                 then tl (ll ++ [line]) else (ll ++ [line])%list)
                (errors + 1)).
      apply IH.
    + apply IH.
Qed.

End StreamFurther.

Section StreamOrder.

Variable py : python.
Variable t : tool.
Variable ram : bool.

Lemma consume_app (l1 l2 : list string) :
  forall st,
    consume py t ram st (l1 ++ l2)
    = match consume py t ram st l1 with
      | (st1, Exhausted) => consume py t ram st1 l2
      | r => r
      end.
Proof.
  induction l1 as [|line l1 IH]; intros st; simpl; [reflexivity|].
  destruct (interpret py ram (push_last_line st line) line) as [st1 [x|]].
  - destruct x; try apply IH;
      destruct (handle py t st1 _ line) as [s e] eqn:Hh;
      apply handle_diag in Hh; destruct Hh as (_ & _ & _ & _ & Hne);
      destruct e; try reflexivity; contradiction.
  - apply IH.
Qed.

Lemma undecodable_interpret (st : run_state) (line : string) :
  undecodable py line = true ->
  interpret py ram st line = (st, Some JSONDecodeError).
Proof.
  unfold undecodable, interpret.
  destruct (json_loads py (py_strip py line)) as [[]|]; try discriminate.
  reflexivity.
Qed.

Lemma dispatch_raises (d : list (string * json)) (ty : json)
    (st st' : run_state) (e : exn) :
  dispatch py d ty st = (st', Some e) -> e <> JSONDecodeError.
Proof.
  unfold dispatch. intros H.
  repeat break_match; inv_pair; try discriminate;
    eapply get_raises; eassumption.
Qed.

Lemma decodable_interpret (st st' : run_state) (line : string) (r : option exn) :
  undecodable py line = false ->
  interpret py ram st line = (st', r) ->
  r <> Some JSONDecodeError.
Proof.
  intros Hu H Hr. subst r. unfold undecodable in Hu.
  unfold interpret in H.
  destruct (json_loads py (py_strip py line)) as [e|v] eqn:Hj.
  { inv_pair. discriminate. }
  destruct v; inv_pair; try discriminate.
  destruct ram.
  - destruct (collect py fields _ st) as [st1 [e|]] eqn:Hc.
    + inv_pair. apply collect_raises in Hc. tauto.
    + apply dispatch_raises in H. contradiction.
  - apply dispatch_raises in H. contradiction.
Qed.

End StreamOrder.

Lemma push_window (seen : list string) (x : string) :
  (let l := (skipn (length seen - 50) seen ++ [x])%list in
   if 50 <? Z.of_nat (length l) then tl l else l)
  = skipn (length (seen ++ [x]) - 50) (seen ++ [x]).
Proof.
  cbv zeta. rewrite !length_app, length_skipn. cbn [length].
  destruct (Nat.le_gt_cases (length seen) 49) as [Hle|Hgt].
  - replace (length seen - 50)%nat with 0%nat by lia.
    replace (length seen + 1 - 50)%nat with 0%nat by lia.
    cbn [skipn].
    destruct (50 <? Z.of_nat (length seen - 0 + 1)) eqn:E;
      [apply Z.ltb_lt in E; lia|reflexivity].
  - destruct (50 <? Z.of_nat (length seen - (length seen - 50) + 1)) eqn:E;
      [|apply Z.ltb_ge in E; lia].
    replace (length seen + 1 - 50)%nat with (1 + (length seen - 50))%nat by lia.
    rewrite <- skipn_skipn.
    rewrite (skipn_app (length seen - 50) seen [x]).
    replace (length seen - 50 - length seen)%nat with 0%nat by lia.
    reflexivity.
Qed.

Section Diagnostics.

Variable py : python.
Variable t : tool.
Variable ram : bool.

Lemma consume_diag (lines : list string) :
  forall (seen : list string) (st st' : run_state) (e : loop_end),
    consume py t ram st lines = (st', e) ->
    last_lines st = skipn (length seen - 50) seen ->
    exists consumed rest,
      lines = (consumed ++ rest)%list /\
      (e = Exhausted -> rest = []) /\
      last_lines st'
      = skipn (length (seen ++ consumed) - 50) (seen ++ consumed) /\
      json_decode_errors st'
      = json_decode_errors st
        + Z.of_nat (length (filter (undecodable py) consumed)) /\
      exit_code st' = exit_code st.
Proof.
  induction lines as [|line rest IH]; intros seen st st' e H Hwin; simpl in H.
  - inv_pair. exists [], []. rewrite !app_nil_r. simpl.
    repeat split; auto. lia.
  - assert (Hpush : last_lines (push_last_line st line)
                    = skipn (length (seen ++ [line]) - 50) (seen ++ [line])).
    { unfold push_last_line. cbn [last_lines set_last_lines]. rewrite Hwin.
      apply push_window. }
    destruct (interpret py ram (push_last_line st line) line) as [st1 r] eqn:Hi.
    pose proof (interpret_diag _ _ _ _ _ _ Hi) as (Hll & Hjde & Hec).
    destruct (undecodable py line) eqn:Hu.
    + rewrite (undecodable_interpret py ram _ _ Hu) in Hi. inv_pair.
      destruct (IH (seen ++ [line])%list _ _ _ H Hpush)
        as (consumed & rest' & -> & Hrest & Hw & Hn & Hx).
      exists (line :: consumed), rest'. simpl. rewrite Hu.
      rewrite <- app_assoc in Hw. simpl in Hw, Hn, Hx.
      repeat split; auto. rewrite Hn. cbn [length]. lia.
    + pose proof (decodable_interpret py ram _ _ _ _ Hu Hi) as Hne.
      destruct r as [x|].
      * assert (Hh : handle py t st1 x line = (st', e))
          by (destruct x; try assumption; congruence).
        apply handle_diag in Hh. destruct Hh as (Hl & Hj & Hc & _ & Hexh).
        exists [line], rest. simpl. rewrite Hu. simpl.
        split; [reflexivity|]. split; [intros; contradiction|].
        split; [congruence|]. split; [simpl in *; lia|]. simpl in *. congruence.
      * rewrite <- Hll in Hpush.
        destruct (IH (seen ++ [line])%list _ _ _ H Hpush)
          as (consumed & rest' & -> & Hrest & Hw & Hn & Hx).
        exists (line :: consumed), rest'. simpl. rewrite Hu.
        rewrite <- app_assoc in Hw. simpl in Hw, Hn, Hx, Hjde, Hec.
        repeat split; auto; [lia|congruence].
Qed.

(** X8. The trailing-line window of an attempt holds at most fifty lines,
    and they are the last fifty of the lines the loop took from the
    generator, in order (all of them when there were fewer); the loop took
    every line of the stream unless it was left early. *)
Theorem last_lines_window (lines : list string) (st : run_state) (e : loop_end) :
  consume py t ram init_state lines = (st, e) ->
  exists consumed rest,
    lines = (consumed ++ rest)%list /\
    (e = Exhausted -> rest = []) /\
    last_lines st = skipn (length consumed - 50) consumed /\
    (length (last_lines st) <= 50)%nat.
Proof.
  intros H.
  destruct (consume_diag lines [] _ _ _ H eq_refl)
    as (consumed & rest & Hl & Hrest & Hw & _).
  simpl in Hw. exists consumed, rest.
  repeat split; auto. rewrite Hw, length_skipn. lia.
Qed.

(** X9. The count of lines that failed to decode is exact: after an
    attempt it is the number of lines, among those the loop took, on which
    [json.loads] raised [JSONDecodeError], and such a line never ends the
    loop. *)
Theorem json_decode_errors_count (lines : list string) (st : run_state)
    (e : loop_end) :
  consume py t ram init_state lines = (st, e) ->
  exists consumed rest,
    lines = (consumed ++ rest)%list /\
    (e = Exhausted -> rest = []) /\
    json_decode_errors st
    = Z.of_nat (length (filter (undecodable py) consumed)) /\
    (e <> Exhausted ->
     exists front line,
       consumed = (front ++ [line])%list /\ undecodable py line = false).
Proof.
  revert st e.
  assert (Hgen : forall lines st0 st e,
             consume py t ram st0 lines = (st, e) ->
             exists consumed rest,
               lines = (consumed ++ rest)%list /\
               (e = Exhausted -> rest = []) /\
               json_decode_errors st
               = json_decode_errors st0
                 + Z.of_nat (length (filter (undecodable py) consumed)) /\
               (e <> Exhausted ->
                exists front line,
                  consumed = (front ++ [line])%list /\
                  undecodable py line = false)).
  { clear lines. induction lines as [|line rest IH]; intros st0 st e H; simpl in H.
    - inv_pair. exists [], []. simpl. repeat split; auto; [lia|].
      intros Hne; contradiction.
    - destruct (interpret py ram (push_last_line st0 line) line) as [st1 r] eqn:Hi.
      pose proof (interpret_diag _ _ _ _ _ _ Hi) as (_ & Hjde & _).
      destruct (undecodable py line) eqn:Hu.
      + rewrite (undecodable_interpret py ram _ _ Hu) in Hi. inv_pair.
        destruct (IH _ _ _ H) as (consumed & rest' & -> & Hrest & Hn & Hlast).
        exists (line :: consumed), rest'. simpl. rewrite Hu.
        split; [reflexivity|]. split; [assumption|].
        split; [simpl in Hn; cbn [length]; lia|].
        intros Hne. destruct (Hlast Hne) as (front & x & -> & Hx).
        exists (line :: front), x. auto.
      + pose proof (decodable_interpret py ram _ _ _ _ Hu Hi) as Hne.
        destruct r as [x|].
        * assert (Hh : handle py t st1 x line = (st, e))
            by (destruct x; try assumption; congruence).
          apply handle_diag in Hh. destruct Hh as (_ & Hj & _ & _ & Hexh).
          exists [line], rest. simpl. rewrite Hu. simpl.
          split; [reflexivity|]. split; [intros; contradiction|].
          split; [simpl in *; lia|].
          intros _. exists [], line. auto.
        * destruct (IH _ _ _ H) as (consumed & rest' & -> & Hrest & Hn & Hlast).
          exists (line :: consumed), rest'. simpl. rewrite Hu.
          split; [reflexivity|]. split; [assumption|].
          split; [simpl in Hjde; lia|].
          intros Hne'. destruct (Hlast Hne') as (front & x & -> & Hx).
          exists (line :: front), x. auto. }
  intros st e H. destruct (Hgen _ _ _ _ H) as (consumed & rest & Hl & Hr & Hn & Hlast).
  exists consumed, rest. simpl in Hn. repeat split; auto.
Qed.

(** X10. A line on which [json.loads] raises [JSONDecodeError] is noise:
    with it or without it in the stream, the loop ends the same way and every signal the
    classification reads is the same; only the trailing-line window and
    the decode-error count differ. *)
Theorem undecodable_line_is_noise (l1 l2 : list string) (noise : string)
    (st : run_state) :
  undecodable py noise = true ->
  exists window errors,
    consume py t ram st (l1 ++ noise :: l2)
    = (with_diag (fst (consume py t ram st (l1 ++ l2))) window errors,
       snd (consume py t ram st (l1 ++ l2))).
Proof.
  intros Hu. rewrite !consume_app.
  destruct (consume py t ram st l1) as [st1 e] eqn:H1.
  destruct e.
  - simpl. rewrite (undecodable_interpret py ram _ _ Hu).
    replace (set_json_decode_errors (push_last_line st1 noise)
               (json_decode_errors (push_last_line st1 noise) + 1))
      with (with_diag st1 (last_lines (push_last_line st1 noise))
              (json_decode_errors st1 + 1))
      by (destruct st1; reflexivity).
    apply consume_with_diag.
  - exists (last_lines st1), (json_decode_errors st1).
    destruct st1; reflexivity.
  - exists (last_lines st1), (json_decode_errors st1).
    destruct st1; reflexivity.
Qed.

(** X11. Once the loop has been left, by the handler's [break] or by an
    exception, nothing that follows in the stream is read: the lines after
    that point, a result message included, change nothing. *)
Theorem nothing_read_after_leaving (l1 l2 : list string) (st : run_state) :
  snd (consume py t ram st l1) <> Exhausted ->
  consume py t ram st (l1 ++ l2) = consume py t ram st l1.
Proof.
  intros H. rewrite consume_app.
  destruct (consume py t ram st l1) as [st1 e]. simpl in H.
  destruct e; [contradiction|reflexivity|reflexivity].
Qed.

End Diagnostics.

(** ** The assistant text *)

Section Texts.

Variable py : python.

Lemma eq_str_exclusive (v : json) (a b : string) :
  String.eqb a b = false -> eq_str v a = true -> eq_str v b = false.
Proof.
  destruct v; simpl; try discriminate.
  intros Hab Ha. apply String.eqb_eq in Ha. subst s. assumption.
Qed.

Lemma collect_texts (d : list (string * json)) (ty : json) (st st' : run_state)
    (r : option exn) :
  collect py d ty st = (st', r) ->
  assistant_text_parts st' = assistant_text_parts st.
Proof.
  unfold collect. intros H. repeat break_match; inv_pair; reflexivity.
Qed.

Lemma dispatch_texts (d : list (string * json)) (ty : json) (st st' : run_state) :
  dispatch py d ty st = (st', None) ->
  assistant_text_parts st'
  = (assistant_text_parts st ++
     (if eq_str ty "assistant" then
        match dict_get d "message" (JDict []) with
        | JDict m =>
            match dict_get m "content" JNull with
            | JList blocks => flat_map text_of_block blocks
            | _ => []
            end
        | _ => []
        end
      else []))%list.
Proof.
  unfold dispatch, get. intros H.
  destruct (eq_str ty "system" && eq_str (dict_get d "subtype" JNull) "init") eqn:Hs.
  - apply andb_true_iff in Hs. destruct Hs as [Hs _].
    rewrite (eq_str_exclusive ty "system" "assistant" eq_refl Hs).
    inv_pair. simpl. rewrite app_nil_r. reflexivity.
  - destruct (eq_str ty "assistant") eqn:Ha.
    + destruct (dict_get d "message" (JDict [])) as [| | | | | |m];
        try discriminate.
      destruct (dict_get m "content" JNull); inv_pair; simpl;
        rewrite ?app_nil_r; reflexivity.
    + rewrite app_nil_r.
      repeat break_match; inv_pair; try discriminate; reflexivity.
Qed.

Lemma interpret_texts (ram : bool) (st st' : run_state) (line : string) :
  interpret py ram st line = (st', None) ->
  assistant_text_parts st'
  = (assistant_text_parts st ++ line_texts py line)%list.
Proof.
  unfold interpret, line_texts. intros H.
  destruct (json_loads py (py_strip py line)) as [e0|[]]; try discriminate.
  destruct ram.
  - destruct (collect py fields _ st) as [st1 [e|]] eqn:Hc; [discriminate|].
    apply collect_texts in Hc. rewrite <- Hc.
    exact (dispatch_texts _ _ _ _ H).
  - exact (dispatch_texts _ _ _ _ H).
Qed.

Lemma undecodable_texts (line : string) :
  undecodable py line = true -> line_texts py line = [].
Proof.
  unfold undecodable, line_texts.
  destruct (json_loads py (py_strip py line)) as [[]|]; try discriminate;
    reflexivity.
Qed.

Lemma consume_texts (t : tool) (ram : bool) (lines : list string) :
  forall st st',
    consume py t ram st lines = (st', Exhausted) ->
    assistant_text_parts st'
    = (assistant_text_parts st ++ flat_map (line_texts py) lines)%list.
Proof.
  induction lines as [|line rest IH]; intros st st' H; simpl in H.
  - inv_pair. simpl. rewrite app_nil_r. reflexivity.
  - destruct (interpret py ram (push_last_line st line) line) as [st1 r] eqn:Hi.
    destruct (undecodable py line) eqn:Hu.
    + rewrite (undecodable_interpret py ram _ _ Hu) in Hi. inv_pair.
      apply IH in H. simpl in *. rewrite (undecodable_texts _ Hu). exact H.
    + pose proof (decodable_interpret py ram _ _ _ _ Hu Hi) as Hne.
      destruct r as [x|].
      * assert (Hh : handle py t st1 x line = (st', Exhausted))
          by (destruct x; try assumption; congruence).
        apply handle_diag in Hh. destruct Hh as (_ & _ & _ & _ & Hexh).
        contradiction.
      * apply interpret_texts in Hi. apply IH in H.
        rewrite H, Hi. simpl. rewrite <- app_assoc. reflexivity.
Qed.

Lemma join_strings (sep : string) (texts : list string) :
  join sep (map JStr texts) = inr (String.concat sep texts).
Proof.
  induction texts as [|x texts IH]; [reflexivity|].
  cbn [map join]. destruct texts as [|y texts]; [reflexivity|].
  cbn [map] in *. rewrite IH. reflexivity.
Qed.

(** X12. The text fragments of the assistant messages are collected in
    arrival order, none dropped and none repeated; and when no result
    message gave a text and the fragments are strings, the fallback result
    is the fragments joined by blank lines. *)
Theorem assistant_text_in_order (t : tool) (ram : bool) (lines : list string)
    (st : run_state) :
  consume py t ram init_state lines = (st, Exhausted) ->
  assistant_text_parts st = flat_map (line_texts py) lines /\
  forall texts,
    flat_map (line_texts py) lines = map JStr texts ->
    texts <> [] ->
    truthy (result_content st) = false ->
    join_assistant_text st
    = inr (set_result_content st (JStr (String.concat (nl ++ nl) texts))).
Proof.
  intros H. apply consume_texts in H. simpl in H.
  split; [assumption|].
  intros texts Htexts Hne Hres. unfold join_assistant_text, bind.
  rewrite H, Htexts, Hres.
  destruct texts as [|x texts]; [contradiction|].
  cbn [map]. change (JStr x :: map JStr texts) with (map JStr (x :: texts)).
  rewrite join_strings. reflexivity.
Qed.

End Texts.

(** ** The outcome, further *)

Section OutcomeFurther.

Variable py : python.
Variable t : tool.
Variable c : config.

Lemma fail_with_fails (k : ErrorKind) (prefix : string) (st st' : run_state) :
  fail_with k prefix st = inr st' -> success st' = false.
Proof. intros H. apply fail_with_inr in H. tauto. Qed.

(** A classification that lets an attempt pass changes nothing and has
    seen a session identifier, a result text and no error. *)
Lemma classify_success (st st' : run_state) :
  classify t st = inr st' ->
  success st' = true ->
  st' = st /\ had_error st = false /\
  is_none (session_id st) = false /\ truthy (result_content st) = true.
Proof.
  unfold classify, bind. intros H Hs.
  destruct (had_error st) eqn:Hh.
  - exfalso.
    set (st0 := set_success st false) in *.
    assert (H0 : success st0 = false) by reflexivity.
    destruct (is_none (session_id st0)).
    + destruct (fail_with PROTOCOL_MISSING_SESSION _ st0) as [e|st1] eqn:Hf;
        [discriminate|].
      apply fail_with_fails in Hf. rewrite Hf, andb_false_r in H.
      destruct (exit_code st1); [rewrite Hf, andb_false_r in H|];
        inversion H; subst; congruence.
    + rewrite H0, andb_false_r in H.
      destruct (exit_code st0); [rewrite H0, andb_false_r in H|];
        inversion H; subst; congruence.
  - destruct (is_none (session_id st)) eqn:Hsid.
    + exfalso.
      destruct (fail_with PROTOCOL_MISSING_SESSION _ st) as [e|st1] eqn:Hf;
        [discriminate|].
      apply fail_with_fails in Hf. rewrite Hf, andb_false_r in H.
      destruct (exit_code st1); [rewrite Hf, andb_false_r in H|];
        inversion H; subst; congruence.
    + destruct (negb (truthy (result_content st)) && success st) eqn:Hempty.
      * exfalso.
        destruct (fail_with EMPTY_RESULT _ st) as [e|st1] eqn:Hf; [discriminate|].
        apply fail_with_fails in Hf.
        destruct (exit_code st1); [rewrite Hf, andb_false_r in H|];
          inversion H; subst; congruence.
      * assert (Hst : st' = st).
        { destruct (exit_code st) as [code|]; [|inversion H; reflexivity].
          destruct (negb (code =? 0) && success st) eqn:Hexit;
            [|inversion H; reflexivity].
          apply fail_with_fails in H. congruence. }
        subst st'. rewrite Hs, andb_true_r in Hempty.
        apply negb_false_iff in Hempty. auto.
Qed.

Lemma line_kind_attempt (k : option ErrorKind) :
  line_kind t k -> attempt_kind t k.
Proof.
  unfold line_kind, attempt_kind, attempt_kinds.
  intros [->|[->|[-> ->]]]; simpl; auto 10.
Qed.

(** The exit code is never set: the [for] statement keeps the generator's
    return value to itself, so the exit-code block of the classification
    never acts. *)
Lemma classify_without_exit_code (st st' : run_state) :
  exit_code st = None ->
  attempt_kind t (error_kind st) ->
  classify t st = inr st' ->
  exit_code st' = None /\ attempt_kind t (error_kind st').
Proof.
  unfold classify, bind. intros Hx Hk H.
  set (st0 := if had_error st then set_success st false else st) in *.
  assert (H0 : exit_code st0 = None /\ attempt_kind t (error_kind st0))
    by (unfold st0; destruct (had_error st); simpl; auto).
  destruct H0 as [Hx0 Hk0]. clearbody st0.
  assert (Hstep : forall k prefix s s',
             In k (attempt_kinds t) ->
             exit_code s = None -> attempt_kind t (error_kind s) ->
             fail_with k prefix s = inr s' ->
             exit_code s' = None /\ attempt_kind t (error_kind s')).
  { intros k prefix s s' Hin Hxs Hks Hf. apply fail_with_inr in Hf.
    destruct Hf as (_ & Hkind & _ & _ & _ & Hxe).
    split; [congruence|]. rewrite Hkind.
    destruct (error_kind s); simpl in *; assumption. }
  assert (Hpms : In PROTOCOL_MISSING_SESSION (attempt_kinds t))
    by (unfold attempt_kinds; simpl; auto 10).
  assert (Hempty : In EMPTY_RESULT (attempt_kinds t))
    by (unfold attempt_kinds; simpl; auto 10).
  destruct (is_none (session_id st0)).
  - destruct (fail_with PROTOCOL_MISSING_SESSION _ st0) as [e|st1] eqn:Hf;
      [discriminate|].
    pose proof (fail_with_fails _ _ _ _ Hf) as Hs1.
    apply Hstep in Hf; auto. destruct Hf as [Hx1 Hk1].
    rewrite Hs1, andb_false_r in H. rewrite Hx1 in H.
    inversion H; subst. auto.
  - destruct (negb (truthy (result_content st0)) && success st0).
    + destruct (fail_with EMPTY_RESULT _ st0) as [e|st1] eqn:Hf; [discriminate|].
      apply Hstep in Hf; auto. destruct Hf as [Hx1 Hk1].
      rewrite Hx1 in H. inversion H; subst. auto.
    + rewrite Hx0 in H. inversion H; subst. auto.
Qed.

Lemma dispatch_line_kind (d : list (string * json)) (ty : json)
    (st st' : run_state) :
  dispatch py d ty st = (st', None) ->
  line_kind t (error_kind st) -> line_kind t (error_kind st').
Proof.
  unfold dispatch, line_kind. intros H Hk.
  repeat break_match; inv_pair; simpl in *; try discriminate; auto.
Qed.

Lemma interpret_line_kind (ram : bool) (st st' : run_state) (line : string) :
  interpret py ram st line = (st', None) ->
  line_kind t (error_kind st) -> line_kind t (error_kind st').
Proof.
  unfold interpret. intros H Hk.
  destruct (json_loads py (py_strip py line)) as [e0|[]]; try discriminate.
  destruct ram.
  - destruct (collect py fields _ st) as [st1 [e|]] eqn:Hc; try discriminate.
    apply collect_keeps in Hc. destruct Hc as (Hk1 & _).
    apply (dispatch_line_kind _ _ _ _ H). rewrite Hk1. assumption.
  - exact (dispatch_line_kind _ _ _ _ H Hk).
Qed.

(** Only the handler of [coder_tool] sets [UNEXPECTED_EXCEPTION]. *)
Lemma consume_line_kind (ram : bool) (lines : list string) :
  forall (st st' : run_state) (e : loop_end),
    consume py t ram st lines = (st', e) ->
    line_kind t (error_kind st) ->
    (forall x, e <> Raised x) ->
    line_kind t (error_kind st').
Proof.
  induction lines as [|line rest IH]; intros st st' e H Hk Hend.
  - simpl in H. inv_pair. assumption.
  - simpl in H.
    assert (Hp : line_kind t (error_kind (push_last_line st line))) by exact Hk.
    destruct (interpret py ram (push_last_line st line) line) as [st1 [x|]] eqn:Hi.
    + assert (Hother : handle py t st1 x line = (st', e) ->
                       line_kind t (error_kind st')).
      { unfold handle, unexpected. intros Hh. destruct t.
        - destruct (iadd_str _ _); inv_pair.
          + exfalso. eapply Hend. reflexivity.
          + right. right. split; reflexivity.
        - inv_pair. exfalso. eapply Hend. reflexivity. }
      destruct x; try exact (Hother H).
      unfold interpret in Hi.
      destruct (json_loads py (py_strip py line)) as [e0|[]] eqn:Hl;
        try (inv_pair; exact (IH _ _ _ H Hp Hend)); try discriminate.
      exfalso. destruct ram.
      * destruct (collect py fields _ _) as [st2 [e2|]] eqn:Hc.
        -- inv_pair. apply collect_raises in Hc. destruct Hc as [_ Hne].
           apply Hne. reflexivity.
        -- apply dispatch_raises in Hi. apply Hi. reflexivity.
      * apply dispatch_raises in Hi. apply Hi. reflexivity.
    + exact (IH _ _ _ H (interpret_line_kind _ _ _ _ Hi Hp) Hend).
Qed.

Lemma run_attempt_state (lines : list string) (fin : finish) (st : run_state) :
  run_attempt py t c lines fin = ADone st \/
  run_attempt py t c lines fin = ATimeout st ->
  exit_code st = None /\ attempt_kind t (error_kind st) /\
  (success st = true ->
   is_none (session_id st) = false /\ truthy (result_content st) = true).
Proof.
  unfold run_attempt.
  destruct (consume py t (return_all_messages c) init_state lines)
    as [st0 e] eqn:Hc.
  destruct (consume_diag py t _ lines [] _ _ _ Hc eq_refl)
    as (_ & _ & _ & _ & _ & _ & Hx0). simpl in Hx0.
  assert (Hdone : match (s <- join_assistant_text st0 ;; classify t s) with
                  | inl e => ARaise e
                  | inr st2 => ADone st2
                  end = ADone st ->
                  line_kind t (error_kind st0) ->
                  exit_code st = None /\ attempt_kind t (error_kind st) /\
                  (success st = true ->
                   is_none (session_id st) = false /\
                   truthy (result_content st) = true)).
  { unfold bind. intros Hd Hf.
    destruct (join_assistant_text st0) as [x|st1] eqn:Hj; [discriminate|].
    destruct (classify t st1) as [x|st2] eqn:Hcl; [discriminate|].
    inversion Hd; subst.
    apply join_assistant_text_keeps in Hj.
    destruct Hj as (Hk & _ & _ & _ & _ & Hx).
    assert (Hx1 : exit_code st1 = None) by congruence.
    assert (Hk1 : attempt_kind t (error_kind st1))
      by (rewrite Hk; apply line_kind_attempt; exact Hf).
    destruct (classify_without_exit_code _ _ Hx1 Hk1 Hcl) as [Hx2 Hk2].
    split; [assumption|]. split; [assumption|].
    intros Hs. destruct (classify_success _ _ Hcl Hs) as (-> & _ & Hsid & Hres).
    auto. }
  assert (Hinit : line_kind t (error_kind init_state)) by (left; reflexivity).
  intros [H|H].
  - destruct e as [| |x].
    + destruct fin; [|discriminate].
      apply Hdone; auto.
      eapply consume_line_kind; eauto. discriminate.
    + apply Hdone; auto.
      eapply consume_line_kind; eauto. discriminate.
    + discriminate.
  - destruct e as [| |x]; try (destruct (bind _ _); discriminate); try discriminate.
    destruct fin as [code raw|k]; [destruct (bind _ _); discriminate|].
    inversion H; subst. simpl. split; [assumption|].
    split; [|discriminate].
    unfold attempt_kinds, timeout_kind. destruct (is_idle k); simpl; auto.
Qed.

Lemma pass_of_state (r : run) (st : run_state) :
  pass_of py t c r = PSuccess st \/ pass_of py t c r = PFailure st \/
  pass_of py t c r = PTimeout st ->
  exit_code st = None /\ attempt_kind t (error_kind st) /\
  (success st = true ->
   is_none (session_id st) = false /\ truthy (result_content st) = true).
Proof.
  unfold pass_of. destruct r as [| |ch]; try (intros [H|[H|H]]; discriminate).
  destruct (generator c ch) as [lines fin].
  destruct (run_attempt py t c lines fin) as [e|st1|st1] eqn:Ha.
  - intros [H|[H|H]]; discriminate.
  - intros [H|[H|H]]; try discriminate. inversion H; subst.
    eapply run_attempt_state. right. eassumption.
  - intros H. assert (st1 = st) as ->
      by (destruct (success st1); destruct H as [H|[H|H]]; congruence).
    eapply run_attempt_state. left. eassumption.
Qed.

(** The failure dict, field by field. *)
Lemma finalize_failure_record (st : run_state) (retries : Z) (all : list string)
    (o : Outcome.t) :
  success st = false ->
  finalize py t c (Some st) retries (Some (save_error st)) all = Return o ->
  exists message detail,
    detail_message (err_message st) = inr message /\
    _build_error_detail py t message (exit_code st) all
      (json_decode_errors st)
      (if kind_is (error_kind st) IDLE_TIMEOUT then Some (timeout c) else None)
      (if kind_is (error_kind st) TIMEOUT then Some (max_duration c) else None)
      retries = inr detail /\
    o = {| Outcome.success := false;
           Outcome.tool := tool_name t;
           Outcome.SESSION_ID := None;
           Outcome.result := None;
           Outcome.error := Some (err_message st);
           Outcome.error_kind := error_kind st;
           Outcome.error_detail := Some detail;
           Outcome.all_messages :=
             if return_all_messages c then Some (all_messages st) else None |}.
Proof.
  unfold finalize. intros Hs H. rewrite Hs in H.
  destruct (metrics_finish (result_content st)); [discriminate|].
  cbn [save_error le_err_message le_error_kind le_exit_code
       le_json_decode_errors] in H.
  destruct (detail_message (err_message st)) as [e|m] eqn:Hm; [discriminate|].
  unfold bind in H.
  destruct (_build_error_detail py t m _ _ _ _ _ _) as [e|d] eqn:Hd;
    [discriminate|].
  inversion H; subst. exists m, d. repeat split. assumption.
Qed.

Lemma finalize_success_record (st : run_state) (retries : Z)
    (le : option last_error_t) (all : list string) (o : Outcome.t) :
  success st = true ->
  finalize py t c (Some st) retries le all = Return o ->
  metrics_finish (result_content st) = None /\
  o = {| Outcome.success := true;
         Outcome.tool := tool_name t;
         Outcome.SESSION_ID := Some (session_id st);
         Outcome.result := Some (result_content st);
         Outcome.error := None;
         Outcome.error_kind := None;
         Outcome.error_detail := None;
         Outcome.all_messages :=
           if return_all_messages c then Some (all_messages st) else None |}.
Proof.
  unfold finalize. intros Hs H. rewrite Hs in H.
  destruct (metrics_finish (result_content st)); [discriminate|].
  inversion H; subst. split; reflexivity.
Qed.

Variable w : world.

(** Every returned outcome is one of four dicts, decided by the last
    pass. *)
Lemma returned_outcome (o : Outcome.t) (tr : trace) :
  tool_fn py t c w = (Return o, tr) ->
  (exists e, config_load w = Some e /\ tr = no_trace /\
     o = early_failure py t CONFIG_ERROR ("配置加载失败：" ++ e)) \/
  (config_load w = None /\ 0 <= max_retries c /\ (0 < attempts tr)%nat /\
   sleeps tr = backoff_schedule (pred (attempts tr)) /\
   (forall i, (i < pred (attempts tr))%nat ->
              is_failure (pass_of py t c (runs w i)) = true) /\
   let last := pass_of py t c (runs w (pred (attempts tr))) in
   (last = PNotFound /\
    o = early_failure py t COMMAND_NOT_FOUND (not_found_message t)) \/
   (exists st,
      last = PSuccess st /\ success st = true /\
      metrics_finish (result_content st) = None /\
      o = {| Outcome.success := true;
             Outcome.tool := tool_name t;
             Outcome.SESSION_ID := Some (session_id st);
             Outcome.result := Some (result_content st);
             Outcome.error := None;
             Outcome.error_kind := None;
             Outcome.error_detail := None;
             Outcome.all_messages :=
               if return_all_messages c then Some (all_messages st) else None |}) \/
   (exists st message detail,
      (last = PFailure st \/ last = PTimeout st) /\ success st = false /\
      detail_message (err_message st) = inr message /\
      _build_error_detail py t message (exit_code st)
        (last_lines st) (json_decode_errors st)
        (if kind_is (error_kind st) IDLE_TIMEOUT then Some (timeout c) else None)
        (if kind_is (error_kind st) TIMEOUT then Some (max_duration c) else None)
        (Z.of_nat (pred (attempts tr))) = inr detail /\
      o = {| Outcome.success := false;
             Outcome.tool := tool_name t;
             Outcome.SESSION_ID := None;
             Outcome.result := None;
             Outcome.error := Some (err_message st);
             Outcome.error_kind := error_kind st;
             Outcome.error_detail := Some detail;
             Outcome.all_messages :=
               if return_all_messages c then Some (all_messages st) else None |})).
Proof.
  intros H. apply tool_fn_cases in H.
  destruct H as [(e & Hcfg & -> & Ho)|[(_ & _ & _ & Ho)|H]]; try discriminate.
  - left. inversion Ho; subst. eauto.
  - right. destruct H as (Hcfg & Hpos & ex & Ho & Ha & _ & Hsl & Hfail & Hex).
    split; [assumption|]. split; [assumption|]. split; [assumption|].
    split; [assumption|]. split; [assumption|]. cbv zeta.
    destruct ex as [o'|e|prev r le all|]; simpl in Hex; try discriminate.
    + destruct Hex as [Hp ->]. inversion Ho; subst. left. auto.
    + destruct Hex as [Hr Hex]. symmetry in Ho.
      destruct (pass_of py t c (runs w (pred (attempts tr)))) as [|e|st|st|st] eqn:Hp;
        try contradiction.
      * destruct Hex as (-> & -> & ->).
        destruct (pass_of_timeout _ _ _ _ _ Hp) as [Hs _].
        destruct (finalize_failure_record _ _ _ _ Hs Ho) as (m & d & Hm & Hd & ->).
        right. right. exists st, m, d. subst r. auto 10.
      * subst prev. pose proof (pass_of_success _ _ _ _ _ Hp) as Hs.
        destruct (finalize_success_record _ _ _ _ _ Hs Ho) as (Hmf & ->).
        right. left. exists st. auto.
      * destruct Hex as (-> & -> & -> & _).
        destruct (pass_of_failure _ _ _ _ _ Hp) as [Hs _].
        destruct (finalize_failure_record _ _ _ _ Hs Ho) as (m & d & Hm & Hd & ->).
        right. right. exists st, m, d. subst r. auto 10.
Qed.

End OutcomeFurther.

Section ToolFurther.

Variable py : python.
Variable t : tool.
Variable c : config.
Variable w : world.

Lemma backoff_schedule_length (n : nat) : length (backoff_schedule n) = n.
Proof. unfold backoff_schedule. rewrite length_map, length_seq. reflexivity. Qed.

Lemma attempt_kind_some (st : run_state) (k : ErrorKind) :
  attempt_kind t (error_kind st) -> error_kind st = Some k ->
  In k (attempt_kinds t).
Proof. unfold attempt_kind. intros H Hk. rewrite Hk in H. exact H. Qed.

(** X13. A returned success carries what the caller needs to continue the
    conversation: a session identifier that is not [None] and a non-empty
    result, a text or a list, and none of the error fields. *)
Theorem success_outcome (o : Outcome.t) (tr : trace) :
  tool_fn py t c w = (Return o, tr) ->
  Outcome.success o = true ->
  exists sid r,
    Outcome.SESSION_ID o = Some sid /\ is_none sid = false /\
    Outcome.result o = Some r /\ truthy r = true /\
    ((exists s, r = JStr s) \/ (exists l, r = JList l)) /\
    Outcome.error o = None /\ Outcome.error_kind o = None /\
    Outcome.error_detail o = None.
Proof.
  intros H Hs. apply returned_outcome in H.
  destruct H as [(e & _ & _ & ->)|(_ & _ & _ & _ & _ & H)]; [discriminate|].
  cbv zeta in H.
  destruct H as [[_ ->]|[(st & Hp & Hst & Hm & ->)|(st & m & d0 & _ & _ & _ & Hd0 & ->)]];
    try discriminate.
  destruct (pass_of_state py t c _ st (or_introl Hp)) as (_ & _ & Hgood).
  destruct (Hgood Hst) as [Hsid Hres].
  exists (session_id st), (result_content st). simpl.
  repeat split; auto.
  unfold metrics_finish in Hm.
  destruct (result_content st) as [| | | |s|l|[|]]; try discriminate; eauto.
Qed.

(** X14. The kind of a returned failure by its origin: [config_error]
    before the loop, [command_not_found] from the lookup, and otherwise
    one of the kinds an attempt can end with.  A non-zero exit code is
    never reported: the kind is never [subprocess_error], the detail never
    carries an exit code, and [claude_tool] never reports
    [unexpected_exception]. *)
Theorem failure_kind_origin (o : Outcome.t) (tr : trace) :
  tool_fn py t c w = (Return o, tr) ->
  Outcome.success o = false ->
  exists k d,
    Outcome.error_kind o = Some k /\
    Outcome.error_detail o = Some d /\
    Detail.exit_code d = None /\
    k <> SUBPROCESS_ERROR /\ k <> JSON_DECODE /\
    (t = Claude -> k <> UNEXPECTED_EXCEPTION) /\
    (k = CONFIG_ERROR <-> config_load w <> None) /\
    (k = COMMAND_NOT_FOUND <->
     config_load w = None /\ runs w (pred (attempts tr)) = NotFound).
Proof.
  intros H Hs. apply returned_outcome in H.
  destruct H as [(e & Hcfg & _ & ->)|(Hcfg & _ & _ & _ & _ & H)].
  - eexists. eexists. simpl. split; [reflexivity|]. split; [reflexivity|].
    rewrite Hcfg.
    repeat split; try discriminate; try tauto; intros [? ?]; discriminate.
  - cbv zeta in H.
    destruct H as [[Hp ->]|[(st & _ & _ & _ & ->)|(st & m & d0 & Hp & Hst & _ & Hd0 & ->)]];
      try discriminate.
    + eexists. eexists. simpl. split; [reflexivity|]. split; [reflexivity|].
      rewrite Hcfg.
      assert (Hr : runs w (pred (attempts tr)) = NotFound).
      { unfold pass_of in Hp. destruct (runs w _) as [| |ch]; try discriminate;
          [reflexivity|].
        destruct (generator c ch). destruct (run_attempt _ _ _ _ _);
          try discriminate. destruct (success _); discriminate. }
      repeat split; try discriminate; try tauto.
    + assert (Hstate : exit_code st = None /\ attempt_kind t (error_kind st) /\
                       exists k, error_kind st = Some k /\
                         runs w (pred (attempts tr)) <> NotFound).
      { assert (Hr : runs w (pred (attempts tr)) <> NotFound).
        { intros Hr. unfold pass_of in Hp. rewrite Hr in Hp.
          destruct Hp; discriminate. }
        destruct Hp as [Hp|Hp].
        - destruct (pass_of_state py t c _ st (or_intror (or_introl Hp)))
            as (Hx & Hk & _).
          destruct (pass_of_failure _ _ _ _ _ Hp) as (_ & k & Hk' & _). eauto.
        - destruct (pass_of_state py t c _ st (or_intror (or_intror Hp)))
            as (Hx & Hk & _).
          destruct (pass_of_timeout _ _ _ _ _ Hp) as (_ & [Hk'|Hk']); eauto. }
      destruct Hstate as (Hx & Hk & k & Hk' & Hr).
      pose proof (attempt_kind_some _ _ Hk Hk') as Hin.
      apply build_error_detail_inr in Hd0. destruct Hd0 as (_ & Hdx & _).
      exists k, d0. simpl. split; [assumption|]. split; [reflexivity|].
      split; [congruence|]. rewrite Hcfg.
      unfold attempt_kinds in Hin.
      assert (Hne : k <> SUBPROCESS_ERROR /\ k <> JSON_DECODE /\
                    k <> CONFIG_ERROR /\ k <> COMMAND_NOT_FOUND /\
                    (t = Claude -> k <> UNEXPECTED_EXCEPTION)).
      { destruct t; simpl in Hin;
          repeat (destruct Hin as [<-|Hin]; [repeat split; discriminate|]);
          contradiction. }
      destruct Hne as (? & ? & ? & ? & ?).
      repeat split; auto; try tauto; try contradiction.
Qed.

(** X15. The timeout fields of the failure detail follow the error kind:
    [idle_timeout_s] is present, with the configured idle window, exactly
    for [idle_timeout]; [max_duration_s], with the configured ceiling,
    exactly for [timeout]; and [coder_tool] adds its suggestion exactly
    for these two kinds, [claude_tool] never. *)
Theorem timeout_fields_follow_kind (o : Outcome.t) (tr : trace) (d : Detail.t) :
  tool_fn py t c w = (Return o, tr) ->
  Outcome.error_detail o = Some d ->
  Detail.idle_timeout_s d
  = (if kind_is (Outcome.error_kind o) IDLE_TIMEOUT then Some (timeout c) else None) /\
  Detail.max_duration_s d
  = (if kind_is (Outcome.error_kind o) TIMEOUT then Some (max_duration c) else None) /\
  Detail.suggestion d
  = match t with
    | Claude => None
    | Coder =>
        if kind_is (Outcome.error_kind o) TIMEOUT then Some duration_suggestion
        else if kind_is (Outcome.error_kind o) IDLE_TIMEOUT then Some idle_suggestion
        else None
    end.
Proof.
  intros H Hd. apply returned_outcome in H.
  destruct H as [(e & _ & _ & ->)|(_ & _ & _ & _ & _ & H)].
  - inversion Hd; subst. simpl. destruct t; auto.
  - cbv zeta in H.
    destruct H as [[_ ->]|[(st & _ & _ & _ & ->)|(st & m & d0 & _ & _ & _ & Hd0 & ->)]];
      try discriminate.
    + inversion Hd; subst. simpl. destruct t; auto.
    + inversion Hd; subst. simpl.
      apply build_error_detail_inr in Hd0.
      destruct Hd0 as (_ & _ & _ & _ & -> & -> & -> & _).
      destruct (kind_is (error_kind st) IDLE_TIMEOUT);
        destruct (kind_is (error_kind st) TIMEOUT); destruct t; auto.
Qed.

(** X16. The [retries] field of the failure detail counts the backoff
    sleeps of the invocation and is absent when there was none; the
    [command_not_found] outcome never carries it, even when the lookup
    failed after earlier attempts had been retried. *)
Theorem retries_field (o : Outcome.t) (tr : trace) (d : Detail.t) :
  tool_fn py t c w = (Return o, tr) ->
  Outcome.error_detail o = Some d ->
  Detail.retries d
  = if kind_is (Outcome.error_kind o) COMMAND_NOT_FOUND then None
    else match sleeps tr with
         | [] => None
         | _ => Some (Z.of_nat (length (sleeps tr)))
         end.
Proof.
  intros H Hd. apply returned_outcome in H.
  destruct H as [(e & _ & -> & ->)|(_ & _ & _ & Hsl & _ & H)].
  - inversion Hd; subst. reflexivity.
  - cbv zeta in H.
    destruct H as [[_ ->]|[(st & _ & _ & _ & ->)|(st & m & d0 & Hp & Hst & _ & Hd0 & ->)]];
      try discriminate.
    + inversion Hd; subst. reflexivity.
    + inversion Hd; subst. simpl.
      apply build_error_detail_inr in Hd0.
      destruct Hd0 as (_ & _ & _ & _ & _ & _ & _ & ->).
      assert (Hk : attempt_kind t (error_kind st)).
      { destruct Hp as [Hp|Hp].
        - apply (pass_of_state py t c _ st (or_intror (or_introl Hp))).
        - apply (pass_of_state py t c _ st (or_intror (or_intror Hp))). }
      assert (Hnf : kind_is (error_kind st) COMMAND_NOT_FOUND = false).
      { unfold attempt_kind, attempt_kinds in Hk.
        destruct (error_kind st) as [k|]; [|reflexivity].
        destruct t; simpl in Hk;
          repeat (destruct Hk as [<-|Hk]; [reflexivity|]); contradiction. }
      rewrite Hnf, Hsl.
      destruct (pred (attempts tr)) as [|n] eqn:Hn; [reflexivity|].
      rewrite backoff_schedule_length.
      replace (0 <? Z.of_nat (S n)) with true by (symmetry; apply Z.ltb_lt; lia).
      unfold backoff_schedule. reflexivity.
Qed.

(** X17. A failure after the loop reports the last pass only: the message,
    the kind, the trailing lines and the count of undecodable lines are
    those of the pass that ended the invocation; nothing of the earlier,
    retried passes is kept. *)
Theorem failure_reports_last_pass (o : Outcome.t) (tr : trace) (d : Detail.t) :
  tool_fn py t c w = (Return o, tr) ->
  Outcome.error_detail o = Some d ->
  kind_is (Outcome.error_kind o) CONFIG_ERROR = false ->
  kind_is (Outcome.error_kind o) COMMAND_NOT_FOUND = false ->
  exists st,
    (pass_of py t c (runs w (pred (attempts tr))) = PFailure st \/
     pass_of py t c (runs w (pred (attempts tr))) = PTimeout st) /\
    Outcome.error o = Some (err_message st) /\
    Outcome.error_kind o = error_kind st /\
    match last_lines st with
    | [] => Detail.last_lines d = None
    | _ => exists filtered,
             _filter_last_lines py (last_lines st) 50 = inr filtered /\
             Detail.last_lines d = Some filtered
    end /\
    Detail.json_decode_errors d
    = (if 0 <? json_decode_errors st then Some (json_decode_errors st) else None) /\
    Outcome.all_messages o
    = (if return_all_messages c then Some (all_messages st) else None).
Proof.
  intros H Hd Hcfg Hnf. apply returned_outcome in H.
  destruct H as [(e & _ & _ & ->)|(_ & _ & _ & _ & _ & H)]; [discriminate|].
  cbv zeta in H.
  destruct H as [[_ ->]|[(st & _ & _ & _ & ->)|(st & m & d0 & Hp & Hst & _ & Hd0 & ->)]];
    try discriminate.
  inversion Hd; subst. exists st. simpl.
  apply build_error_detail_inr in Hd0.
  destruct Hd0 as (_ & _ & Hl & Hj & _).
  repeat split; auto.
Qed.

(** X18. Retrying reaches a later success: when the first [n] passes fail
    in the classification, pass [n] succeeds with a text or a list as
    result, and the retry budget allows [n] retries, the tool function
    returns the success of pass [n] after [n + 1] attempts and the sleeps
    0.5, 1, ..., 0.5 * 2^(n-1).  (With a result of another type
    [metrics.finish] raises in [result.count] or [len].) *)
Theorem retry_reaches_success (n : nat) (st : run_state) :
  config_load w = None ->
  Z.of_nat n <= max_retries c ->
  (forall i, (i < n)%nat -> is_failure (pass_of py t c (runs w i)) = true) ->
  pass_of py t c (runs w n) = PSuccess st ->
  (exists s, result_content st = JStr s) \/
  (exists l, result_content st = JList l) ->
  exists o tr,
    tool_fn py t c w = (Return o, tr) /\
    attempts tr = S n /\ sleeps tr = backoff_schedule n /\
    Outcome.success o = true /\
    Outcome.SESSION_ID o = Some (session_id st) /\
    Outcome.result o = Some (result_content st).
Proof.
  intros Hcfg Hn Hfail Hp Hresult.
  assert (Hm : metrics_finish (result_content st) = None)
    by (destruct Hresult as [[s ->]|[l ->]]; reflexivity).
  destruct (tool_fn py t c w) as [res tr] eqn:H.
  pose proof (tool_fn_cases _ _ _ _ _ _ H) as Hc.
  destruct Hc as [(e & Hc & _)|[(_ & Hneg & _)|
                  (_ & _ & ex & Hres & Hpos & Hle & Hsl & Hall & Hex)]];
    [congruence|lia|].
  assert (Hlast : pred (attempts tr) = n).
  { destruct (Nat.lt_trichotomy (pred (attempts tr)) n) as [Hlt|[Heq|Hgt]];
      [|assumption|].
    - exfalso. specialize (Hfail _ Hlt).
      destruct (pass_of py t c (runs w (pred (attempts tr)))) eqn:Hp'; 
        try discriminate.
      destruct ex as [o|e|prev r le all|]; simpl in Hex;
        try (destruct Hex; discriminate); try discriminate; try contradiction.
      destruct Hex as (Hr & _ & _ & _ & Hmax). lia.
    - exfalso. specialize (Hall _ Hgt). rewrite Hp in Hall. discriminate. }
  rewrite Hlast in *. rewrite Hp in Hex.
  destruct ex as [o|e|prev r le all|]; simpl in Hex;
    try (destruct Hex; discriminate); try discriminate; try contradiction.
  destruct Hex as [Hr ->].
  pose proof (pass_of_success _ _ _ _ _ Hp) as Hs.
  unfold finalize in Hres. rewrite Hm, Hs in Hres. subst res.
  eexists. exists tr. split; [reflexivity|]. simpl.
  repeat split; auto. lia.
Qed.

End ToolFurther.

(** ** The diagnostics of an attempt *)

Section AttemptDiagnostics.

Variable py : python.
Variable t : tool.
Variable c : config.

Lemma fail_with_diag (k : ErrorKind) (prefix : string) (st st' : run_state) :
  fail_with k prefix st = inr st' ->
  last_lines st' = last_lines st /\
  json_decode_errors st' = json_decode_errors st.
Proof.
  unfold fail_with, bind, str_add. intros H.
  destruct (error_kind st) eqn:Hk; simpl in H; rewrite ?Hk in H; simpl in H;
    destruct (err_message st) eqn:Hm; inversion H; subst; simpl; auto.
Qed.

Lemma classify_diag (st st' : run_state) :
  classify t st = inr st' ->
  last_lines st' = last_lines st /\
  json_decode_errors st' = json_decode_errors st.
Proof.
  unfold classify, bind. intros H.
  set (st0 := if had_error st then set_success st false else st) in *.
  assert (H0 : last_lines st0 = last_lines st /\
               json_decode_errors st0 = json_decode_errors st)
    by (unfold st0; destruct (had_error st); simpl; auto).
  destruct H0 as [Hl0 Hj0]. clearbody st0.
  assert (H1 : exists st1,
             (if is_none (session_id st0)
              then fail_with PROTOCOL_MISSING_SESSION "未能获取 SESSION_ID。" st0
              else inr st0) = inr st1 /\
             last_lines st1 = last_lines st /\
             json_decode_errors st1 = json_decode_errors st).
  { destruct (is_none (session_id st0)).
    - destruct (fail_with _ _ st0) as [e|st1] eqn:Hf; [discriminate|].
      apply fail_with_diag in Hf. destruct Hf. exists st1.
      repeat split; congruence.
    - exists st0. auto. }
  destruct H1 as (st1 & E1 & Hl1 & Hj1). rewrite E1 in H. clear E1.
  assert (H2 : exists st2,
             (if negb (truthy (result_content st1)) && success st1
              then fail_with EMPTY_RESULT
                     ("未能获取 " ++ response_name t ++ " 响应内容。") st1
              else inr st1) = inr st2 /\
             last_lines st2 = last_lines st /\
             json_decode_errors st2 = json_decode_errors st).
  { destruct (negb (truthy (result_content st1)) && success st1).
    - destruct (fail_with _ _ st1) as [e|st2] eqn:Hf; [discriminate|].
      apply fail_with_diag in Hf. destruct Hf. exists st2.
      repeat split; congruence.
    - exists st1. auto. }
  destruct H2 as (st2 & E2 & Hl2 & Hj2). rewrite E2 in H. clear E2.
  destruct (exit_code st2) as [code|]; [|inversion H; subst; auto].
  destruct (negb (code =? 0) && success st2); [|inversion H; subst; auto].
  apply fail_with_diag in H. destruct H. split; congruence.
Qed.

Lemma join_assistant_text_diag (st st' : run_state) :
  join_assistant_text st = inr st' ->
  last_lines st' = last_lines st /\
  json_decode_errors st' = json_decode_errors st.
Proof.
  unfold join_assistant_text, bind. intros H.
  repeat break_match; inversion H; subst; simpl; auto.
Qed.

Lemma filter_within_window (lines : list string) :
  (length lines <= 50)%nat ->
  _filter_last_lines py lines 50 = for_each (filter_line py) lines.
Proof.
  intros H. rewrite filter_last_lines_window.
  replace (length lines - 50)%nat with 0%nat by lia.
  unfold bind. destruct (for_each (filter_line py) lines); reflexivity.
Qed.

(** X19. The diagnostics of an attempt on the lines the generator yields:
    whether the attempt ends in the classification or in a timeout, its
    trailing lines are the last fifty of the lines read (all of them
    unless reading stopped early), the redaction filter goes through
    exactly these lines, in order, and drops none of them (it returns
    their filtered forms, or raises on the first of them that makes
    [filter_line] raise), and the count of decode errors is the number of
    lines read on which [json.loads] raised [JSONDecodeError].  The
    fallback text, the classification and the timeout handler leave both
    untouched. *)
Theorem attempt_diagnostics (lines : list string) (fin : finish) (st : run_state) :
  run_attempt py t c lines fin = ADone st \/
  run_attempt py t c lines fin = ATimeout st ->
  exists consumed rest,
    lines = (consumed ++ rest)%list /\
    (run_attempt py t c lines fin = ATimeout st -> rest = []) /\
    last_lines st = skipn (length consumed - 50) consumed /\
    _filter_last_lines py (last_lines st) 50
    = for_each (filter_line py) (skipn (length consumed - 50) consumed) /\
    json_decode_errors st
    = Z.of_nat (length (filter (undecodable py) consumed)).
Proof.
  unfold run_attempt.
  destruct (consume py t (return_all_messages c) init_state lines)
    as [st0 e] eqn:Hc.
  destruct (consume_diag py t _ lines [] _ _ _ Hc eq_refl)
    as (consumed & rest & Hsplit & Hrest & Hwin & Hcount & _).
  simpl in Hwin, Hcount.
  assert (Hlen : (length (skipn (length consumed - 50) consumed) <= 50)%nat)
    by (rewrite length_skipn; lia).
  assert (Hdone : match (s <- join_assistant_text st0 ;; classify t s) with
                  | inl e => ARaise e
                  | inr st2 => ADone st2
                  end = ADone st ->
                  last_lines st = last_lines st0 /\
                  json_decode_errors st = json_decode_errors st0).
  { unfold bind. intros Hd.
    destruct (join_assistant_text st0) as [x|st1] eqn:Hj; [discriminate|].
    destruct (classify t st1) as [x|st2] eqn:Hcl; [discriminate|].
    inversion Hd; subst.
    apply join_assistant_text_diag in Hj. apply classify_diag in Hcl.
    destruct Hj, Hcl. split; congruence. }
  assert (Hgoal : last_lines st = last_lines st0 /\
                  json_decode_errors st = json_decode_errors st0 ->
                  last_lines st = skipn (length consumed - 50) consumed /\
                  _filter_last_lines py (last_lines st) 50
                  = for_each (filter_line py) (skipn (length consumed - 50) consumed) /\
                  json_decode_errors st
                  = Z.of_nat (length (filter (undecodable py) consumed))).
  { intros [Hl Hj]. rewrite Hl, Hj, Hwin, Hcount.
    rewrite filter_within_window by assumption. auto. }
  intros H. exists consumed, rest. split; [assumption|].
  destruct e as [| |x].
  - split; [intros _; apply Hrest; reflexivity|].
    apply Hgoal. destruct fin as [code raw|k].
    + apply Hdone. destruct H as [H|H]; [exact H|].
      destruct (bind _ _); discriminate.
    + destruct H as [H|H]; inversion H; subst; simpl; auto.
  - assert (Hd : match (s <- join_assistant_text st0 ;; classify t s) with
                 | inl e => ARaise e
                 | inr st2 => ADone st2
                 end = ADone st)
      by (destruct H as [H|H]; [exact H|destruct (bind _ _); discriminate]).
    split; [intros Ht; rewrite Hd in Ht; discriminate|].
    apply Hgoal, Hdone, Hd.
  - destruct H; discriminate.
Qed.

End AttemptDiagnostics.

(** ** The further properties at concrete inputs *)


Lemma build_cmd_flags_witness :
  "abc" <> SKIP_PERMISSIONS /\
  (In SKIP_PERMISSIONS (build_cmd Coder "read-only" "abc") <->
   "read-only" <> "read-only") /\
  (In "-r" (build_cmd Coder "read-only" "abc") <-> "abc" <> "") /\
  ("abc" <> "" ->
   exists front, build_cmd Coder "read-only" "abc" = (front ++ ["-r"; "abc"])%list).
Proof.
  refine ((fun h => conj h (build_cmd_flags Coder "read-only" "abc" h)) _).
  unfold SKIP_PERMISSIONS. discriminate.
Defined.

(** A child that stays silent for 400 seconds under the default idle
    window of 300 seconds. *)
Lemma timeout_has_cause_witness :
  exists ys,
    generator (Run.defaults 0) (Run.silent_until 400) = (ys, TimedOut Idle) /\
    exists (i : nat) (last : Q),
      (i <= length (polls (Run.silent_until 400)))%nat /\
      reaches (Run.defaults 0) (start_time (Run.silent_until 400))
        (first_activity (Run.silent_until 400))
        (firstn i (polls (Run.silent_until 400))) = Some last /\
      elapsed_ge (cycle_clock (Run.silent_until 400) i) last
        (timeout (Run.defaults 0)) = true /\
      (max_duration (Run.defaults 0) <= 0 \/
       elapsed_ge (cycle_clock (Run.silent_until 400) i)
         (start_time (Run.silent_until 400)) (max_duration (Run.defaults 0))
       = false).
Proof.
  eexists.
  refine ((fun h => conj h
             (timeout_has_cause (Run.defaults 0) (Run.silent_until 400) _ Idle h)) _).
  vm_compute. reflexivity.
Defined.

(** Without a ceiling even a child silent for 4000 seconds ends in the
    idle timeout. *)
Lemma no_duration_ceiling_witness :
  let c := {| return_all_messages := false; timeout := 300; max_duration := 0;
              max_retries := 0 |} in
  max_duration c <= 0 /\
  snd (generator c (Run.silent_until 4000)) <> TimedOut Duration.
Proof.
  cbv zeta.
  refine ((fun h => conj h (no_duration_ceiling _ (Run.silent_until 4000) h)) _).
  simpl. lia.
Defined.

Lemma last_lines_window_witness :
  let lines := map Run.dq
                 ["{'type':'system','subtype':'init','session_id':'abc'}";
                  "garbage";
                  "{'type':'result','result':'done'}"] in
  exists st e,
    consume Run.py Coder false init_state lines = (st, e) /\
    exists consumed rest,
      lines = (consumed ++ rest)%list /\
      (e = Exhausted -> rest = []) /\
      last_lines st = skipn (length consumed - 50) consumed /\
      (length (last_lines st) <= 50)%nat.
Proof.
  cbv zeta. eexists. eexists.
  refine ((fun h => conj h (last_lines_window Run.py Coder false _ _ _ h)) _).
  vm_compute. reflexivity.
Defined.

Lemma json_decode_errors_count_witness :
  let lines := map Run.dq
                 ["garbage";
                  "{'type':'system','subtype':'init','session_id':'abc'}";
                  "{not json";
                  "{'type':'result','result':'done'}"] in
  exists st e,
    consume Run.py Claude false init_state lines = (st, e) /\
    exists consumed rest,
      lines = (consumed ++ rest)%list /\
      (e = Exhausted -> rest = []) /\
      json_decode_errors st
      = Z.of_nat (length (filter (undecodable Run.py) consumed)) /\
      (e <> Exhausted ->
       exists front line,
         consumed = (front ++ [line])%list /\ undecodable Run.py line = false).
Proof.
  cbv zeta. eexists. eexists.
  refine ((fun h => conj h (json_decode_errors_count Run.py Claude false _ _ _ h)) _).
  vm_compute. reflexivity.
Defined.

Lemma undecodable_line_is_noise_witness :
  let l1 := map Run.dq ["{'type':'system','subtype':'init','session_id':'abc'}"] in
  let l2 := map Run.dq ["{'type':'result','result':'done'}"] in
  undecodable Run.py "Loading..." = true /\
  exists window errors,
    consume Run.py Coder true init_state (l1 ++ "Loading..." :: l2)
    = (with_diag (fst (consume Run.py Coder true init_state (l1 ++ l2)))
         window errors,
       snd (consume Run.py Coder true init_state (l1 ++ l2))).
Proof.
  cbv zeta.
  refine ((fun h => conj h
             (undecodable_line_is_noise Run.py Coder true _ _ "Loading..."
                init_state h)) _).
  vm_compute. reflexivity.
Defined.

(** After the line on which [coder_tool] leaves the loop, the lines that
    follow make no difference. *)
Lemma nothing_read_after_leaving_witness :
  let l1 := map Run.dq ["{'type':'error','error':'boom'}"] in
  let l2 := map Run.dq ["{'type':'result','result':'done','session_id':'abc'}"] in
  snd (consume Run.py Coder false init_state l1) <> Exhausted /\
  consume Run.py Coder false init_state (l1 ++ l2)
  = consume Run.py Coder false init_state l1.
Proof.
  cbv zeta.
  refine ((fun h => conj h
             (nothing_read_after_leaving Run.py Coder false _ _ init_state h)) _).
  vm_compute. discriminate.
Defined.

Lemma assistant_text_in_order_witness :
  let lines :=
    map Run.dq
      ["{'type':'assistant','message':{'content':[{'type':'text','text':'one'}]}}";
       "{'type':'assistant','message':{'content':[{'type':'text','text':'two'}]}}"] in
  exists st,
    consume Run.py Claude false init_state lines = (st, Exhausted) /\
    assistant_text_parts st = flat_map (line_texts Run.py) lines /\
    forall texts,
      flat_map (line_texts Run.py) lines = map JStr texts ->
      texts <> [] ->
      truthy (result_content st) = false ->
      join_assistant_text st
      = inr (set_result_content st (JStr (String.concat (nl ++ nl) texts))).
Proof.
  cbv zeta. eexists.
  refine ((fun h => conj h (assistant_text_in_order Run.py Claude false _ _ h)) _).
  vm_compute. reflexivity.
Defined.

Lemma success_outcome_witness :
  let w := Run.always (Spawned (Run.prints
             ["{'type':'system','subtype':'init','session_id':'abc'}";
              "{'type':'result','result':'done'}"] 0)) in
  exists o tr,
    tool_fn Run.py Claude (Run.defaults 0) w = (Return o, tr) /\
    Outcome.success o = true /\
    exists sid r,
      Outcome.SESSION_ID o = Some sid /\ is_none sid = false /\
      Outcome.result o = Some r /\ truthy r = true /\
      ((exists s, r = JStr s) \/ (exists l, r = JList l)) /\
      Outcome.error o = None /\ Outcome.error_kind o = None /\
      Outcome.error_detail o = None.
Proof.
  cbv zeta. eexists. eexists.
  establish h1 ltac:(vm_compute; reflexivity).
  refine ((fun h2 => conj h2
             (success_outcome Run.py Claude (Run.defaults 0) _ _ _ h1 h2)) _).
  reflexivity.
Defined.

(** A child that exits with code 3 after an empty result: the failure is
    [empty_result], and the exit code is not reported. *)
Lemma failure_kind_origin_witness :
  let w := Run.always (Spawned (Run.prints
             ["{'type':'system','subtype':'init','session_id':'abc'}"] 3)) in
  exists o tr,
    tool_fn Run.py Coder (Run.defaults 0) w = (Return o, tr) /\
    Outcome.success o = false /\
    exists k d,
      Outcome.error_kind o = Some k /\
      Outcome.error_detail o = Some d /\
      Detail.exit_code d = None /\
      k <> SUBPROCESS_ERROR /\ k <> JSON_DECODE /\
      (Coder = Claude -> k <> UNEXPECTED_EXCEPTION) /\
      (k = CONFIG_ERROR <-> config_load w <> None) /\
      (k = COMMAND_NOT_FOUND <->
       config_load w = None /\ runs w (pred (attempts tr)) = NotFound).
Proof.
  cbv zeta. eexists. eexists.
  establish h1 ltac:(vm_compute; reflexivity).
  refine ((fun h2 => conj h2
             (failure_kind_origin Run.py Coder (Run.defaults 0) _ _ _ h1 h2)) _).
  reflexivity.
Defined.

Lemma timeout_fields_follow_kind_witness :
  let w := Run.always (Spawned (Run.silent_until 400)) in
  exists o tr d,
    tool_fn Run.py Coder (Run.defaults 2) w = (Return o, tr) /\
    Outcome.error_detail o = Some d /\
    Detail.idle_timeout_s d
    = (if kind_is (Outcome.error_kind o) IDLE_TIMEOUT
       then Some (timeout (Run.defaults 2)) else None) /\
    Detail.max_duration_s d
    = (if kind_is (Outcome.error_kind o) TIMEOUT
       then Some (max_duration (Run.defaults 2)) else None) /\
    Detail.suggestion d
    = (if kind_is (Outcome.error_kind o) TIMEOUT then Some duration_suggestion
       else if kind_is (Outcome.error_kind o) IDLE_TIMEOUT
            then Some idle_suggestion
            else None).
Proof.
  cbv zeta. eexists. eexists. eexists.
  establish h1 ltac:(vm_compute; reflexivity).
  refine ((fun h2 => conj h2
             (timeout_fields_follow_kind Run.py Coder (Run.defaults 2) _ _ _ _
                h1 h2)) _).
  reflexivity.
Defined.

(** Three attempts on a child that prints nothing: two sleeps, and
    [retries] is 2. *)
Lemma retries_field_witness :
  let w := Run.always (Spawned (Run.prints [] 0)) in
  exists o tr d,
    tool_fn Run.py Claude (Run.defaults 2) w = (Return o, tr) /\
    Outcome.error_detail o = Some d /\
    Detail.retries d
    = if kind_is (Outcome.error_kind o) COMMAND_NOT_FOUND then None
      else match sleeps tr with
           | [] => None
           | _ => Some (Z.of_nat (length (sleeps tr)))
           end.
Proof.
  cbv zeta. eexists. eexists. eexists.
  establish h1 ltac:(vm_compute; reflexivity).
  refine ((fun h2 => conj h2
             (retries_field Run.py Claude (Run.defaults 2) _ _ _ _ h1 h2)) _).
  reflexivity.
Defined.

(** The first pass reads an undecodable line and fails, the second fails
    without one: the outcome has no count of decode errors. *)
Lemma failure_reports_last_pass_witness :
  let w := Run.first_then (Spawned (Run.prints ["garbage"] 0))
             (Spawned (Run.prints
                ["{'type':'system','subtype':'init','session_id':'abc'}"] 0)) in
  exists o tr d,
    tool_fn Run.py Coder (Run.defaults 1) w = (Return o, tr) /\
    Outcome.error_detail o = Some d /\
    kind_is (Outcome.error_kind o) CONFIG_ERROR = false /\
    kind_is (Outcome.error_kind o) COMMAND_NOT_FOUND = false /\
    exists st,
      (pass_of Run.py Coder (Run.defaults 1) (runs w (pred (attempts tr)))
       = PFailure st \/
       pass_of Run.py Coder (Run.defaults 1) (runs w (pred (attempts tr)))
       = PTimeout st) /\
      Outcome.error o = Some (err_message st) /\
      Outcome.error_kind o = error_kind st /\
      match last_lines st with
      | [] => Detail.last_lines d = None
      | _ => exists filtered,
               _filter_last_lines Run.py (last_lines st) 50 = inr filtered /\
               Detail.last_lines d = Some filtered
      end /\
      Detail.json_decode_errors d
      = (if 0 <? json_decode_errors st then Some (json_decode_errors st) else None) /\
      Outcome.all_messages o
      = (if return_all_messages (Run.defaults 1)
         then Some (all_messages st) else None).
Proof.
  cbv zeta. eexists. eexists. eexists.
  establish h1 ltac:(vm_compute; reflexivity).
  establish h2 ltac:(reflexivity).
  establish h3 ltac:(reflexivity).
  refine ((fun h4 => conj h4
             (failure_reports_last_pass Run.py Coder (Run.defaults 1) _ _ _ _
                h1 h2 h3 h4)) _).
  reflexivity.
Defined.

Lemma retry_reaches_success_witness :
  let w := Run.first_then (Spawned (Run.prints [] 0))
             (Spawned (Run.prints
                ["{'type':'system','subtype':'init','session_id':'abc'}";
                 "{'type':'result','result':'done'}"] 0)) in
  exists st,
    config_load w = None /\
    Z.of_nat 1 <= max_retries (Run.defaults 3) /\
    (forall i, (i < 1)%nat ->
               is_failure (pass_of Run.py Coder (Run.defaults 3) (runs w i)) = true) /\
    pass_of Run.py Coder (Run.defaults 3) (runs w 1%nat) = PSuccess st /\
    ((exists s, result_content st = JStr s) \/
     (exists l, result_content st = JList l)) /\
    exists o tr,
      tool_fn Run.py Coder (Run.defaults 3) w = (Return o, tr) /\
      attempts tr = 2%nat /\ sleeps tr = backoff_schedule 1 /\
      Outcome.success o = true /\
      Outcome.SESSION_ID o = Some (session_id st) /\
      Outcome.result o = Some (result_content st).
Proof.
  cbv zeta. eexists.
  establish h1 ltac:(reflexivity).
  establish h2 ltac:(simpl; lia).
  establish h3 ltac:(intros i Hi; destruct i; [vm_compute; reflexivity|lia]).
  establish h4 ltac:(vm_compute; reflexivity).
  refine ((fun h5 => conj h5
             (retry_reaches_success Run.py Coder (Run.defaults 3) _ 1%nat _
                h1 h2 h3 h4 h5)) _).
  left. eexists. reflexivity.
Defined.

Lemma attempt_diagnostics_witness :
  let lines := map Run.dq
                 ["Loading...";
                  "{'type':'system','subtype':'init','session_id':'abc'}"] in
  let fin := Returned 0 2 in
  exists st,
    (run_attempt Run.py Coder (Run.defaults 0) lines fin = ADone st \/
     run_attempt Run.py Coder (Run.defaults 0) lines fin = ATimeout st) /\
    exists consumed rest,
      lines = (consumed ++ rest)%list /\
      (run_attempt Run.py Coder (Run.defaults 0) lines fin = ATimeout st ->
       rest = []) /\
      last_lines st = skipn (length consumed - 50) consumed /\
      _filter_last_lines Run.py (last_lines st) 50
      = for_each (filter_line Run.py) (skipn (length consumed - 50) consumed) /\
      json_decode_errors st
      = Z.of_nat (length (filter (undecodable Run.py) consumed)).
Proof.
  cbv zeta. eexists.
  refine ((fun h => conj h
             (attempt_diagnostics Run.py Coder (Run.defaults 0) _ _ _ h)) _).
  left. vm_compute. reflexivity.
Defined.
